(** * Procurement open-data proxy (api/pps.js): a shallow embedding

    The serverless handler of the repository (the multi-page variant of
    [api/pps.js]) is embedded function by function: the helpers
    [normalizeKind], [clampInt], [toInt], [decidePagesToFetch], [fmtYmd],
    [buildUrl], [fetchJsonUpstream], [mergeResponses], [pickItems],
    [extractItems], [prettifyAmount] and the [handler] itself.

    Conventions of the embedding.
    - A JavaScript string is the list of its UTF-16 code units ([jsstring]).
    - A JavaScript value coming out of [JSON.parse] is a [JsVal]; numbers
      carried by JSON documents are the integral ones ([Z]), which doubles
      represent exactly below 2^53.
    - The result of the [Number(...)] coercion is a [JsNum]: not-a-number,
      an infinity, or a finite value kept as an exact rational.  The
      classification (NaN / infinite / zero / finite) follows IEEE binary64;
      the finite value itself is not rounded to 53 bits.
    - The integers of the paging arithmetic and the time values of dates
      are in [Z]; a [Date] is its time value in milliseconds.
    - Code that can throw returns a [result]; the [try]/[catch] of the
      handler turns a [Throw] into its error response.  The file is an ES
      module, hence strict code.
    - The engine's [String.prototype.toLowerCase], [JSON.parse] and the
      network are parameters of the development (Section variables).

    The model comes first, then a small world to run it in and the
    notions the statements use, then the properties. *)

From Stdlib Require Import ZArith NArith QArith Qabs Qround List Bool Lia.
From Stdlib Require Import Ascii String DecimalString DecimalPos DecimalZ.
Import ListNotations.

Local Open Scope string_scope.
Local Open Scope list_scope.
Local Open Scope Z_scope.

(* ====================================================================== *)
(** ** Strings as UTF-16 code-unit sequences *)
(* ====================================================================== *)

Definition jsstring := list N.

Definition jsstring_eqb (a b : jsstring) : bool :=
  if list_eq_dec N.eq_dec a b then true else false.

(** Decoding of a UTF-8 literal of this file into code points. *)
Fixpoint utf8_points (fuel : nat) (bs : list N) : list N :=
  match fuel with
  | O => []
  | S fuel' =>
    match bs with
    | [] => []
    | b0 :: r0 =>
      if (b0 <? 128)%N then b0 :: utf8_points fuel' r0
      else if (b0 <? 224)%N then
        match r0 with
        | b1 :: r1 => ((b0 - 192) * 64 + (b1 - 128))%N :: utf8_points fuel' r1
        | _ => []
        end
      else if (b0 <? 240)%N then
        match r0 with
        | b1 :: b2 :: r2 =>
            ((b0 - 224) * 4096 + (b1 - 128) * 64 + (b2 - 128))%N
            :: utf8_points fuel' r2
        | _ => []
        end
      else
        match r0 with
        | b1 :: b2 :: b3 :: r3 =>
            ((b0 - 240) * 262144 + (b1 - 128) * 4096 + (b2 - 128) * 64
             + (b3 - 128))%N :: utf8_points fuel' r3
        | _ => []
        end
    end
  end.

(** A code point as one or two UTF-16 code units. *)
Definition utf16_units (cp : N) : list N :=
  if (cp <? 65536)%N then [cp]
  else [(55296 + (cp - 65536) / 1024)%N; (56320 + (cp - 65536) mod 1024)%N].

(** [js "..."] is the JavaScript string written by the literal. *)
Definition js (s : string) : jsstring :=
  let bs := map N_of_ascii (list_ascii_of_string s) in
  flat_map utf16_units (utf8_points (List.length bs) bs).

(** White space and line terminators, as skipped by [trim] and by the
    string-to-number conversion. *)
Definition isWhiteSpace (c : N) : bool :=
  ((9 <=? c) && (c <=? 13) || (c =? 32) || (c =? 160) || (c =? 5760)
   || (8192 <=? c) && (c <=? 8202) || (c =? 8232) || (c =? 8233)
   || (c =? 8239) || (c =? 8287) || (c =? 12288) || (c =? 65279))%N.

Fixpoint trimStart (s : jsstring) : jsstring :=
  match s with
  | c :: r => if isWhiteSpace c then trimStart r else s
  | [] => []
  end.

Definition trimEnd (s : jsstring) : jsstring := rev (trimStart (rev s)).

Definition trim (s : jsstring) : jsstring := trimEnd (trimStart s).

(** [s.slice(a, b)] for literal non-negative bounds. *)
Definition slice (a b : nat) (s : jsstring) : jsstring :=
  firstn (b - a) (skipn a s).

(** [s.padStart(n, "0")]. *)
Definition padStart0 (n : nat) (s : jsstring) : jsstring :=
  repeat 48%N (n - List.length s) ++ s.

Fixpoint startsWith (s t : jsstring) : bool :=
  match t, s with
  | [], _ => true
  | _ :: _, [] => false
  | x :: t', y :: s' => (x =? y)%N && startsWith s' t'
  end.

(** [s.includes(t)]. *)
Fixpoint includes (s t : jsstring) : bool :=
  startsWith s t ||
  match s with
  | [] => false
  | _ :: s' => includes s' t
  end.

(** Decimal rendering of an integer, [String(n)] for an integral number
    below 1e21. *)
Definition decimal (z : Z) : jsstring :=
  js (NilEmpty.string_of_int (Z.to_int z)).

Fixpoint join (sep : jsstring) (l : list jsstring) : jsstring :=
  match l with
  | [] => []
  | [x] => x
  | x :: r => x ++ sep ++ join sep r
  end.

(** ASCII-only lower-casing: what [toLowerCase] does on strings made of
    ASCII characters and of caseless scripts such as Hangul. *)
Definition asciiLower (s : jsstring) : jsstring :=
  map (fun c => if ((65 <=? c) && (c <=? 90))%N then (c + 32)%N else c) s.

(* ====================================================================== *)
(** ** Exceptions *)
(* ====================================================================== *)

(** What a [throw] carries: an engine error ([TypeError], [URIError]) or
    an [Error] built by the program with its message. *)
Inductive Exn : Type :=
| TypeError
| URIError
| Err (message : jsstring).

Inductive result (A : Type) : Type :=
| Ok (a : A)
| Throw (e : Exn).
Arguments Ok {A} a.
Arguments Throw {A} e.

Definition bind {A B : Type} (r : result A) (k : A -> result B) : result B :=
  match r with
  | Ok a => k a
  | Throw e => Throw e
  end.

Declare Scope js_scope.
Delimit Scope js_scope with js.
Notation "x <- c ;; k" := (bind c (fun x => k))
  (at level 61, c at next level, right associativity) : js_scope.
Local Open Scope js_scope.

Fixpoint mapM {A B : Type} (f : A -> result B) (l : list A) : result (list B) :=
  match l with
  | [] => Ok []
  | x :: r => y <- f x ;; ys <- mapM f r ;; Ok (y :: ys)
  end.

Fixpoint filterM {A : Type} (f : A -> result bool) (l : list A) : result (list A) :=
  match l with
  | [] => Ok []
  | x :: r => b <- f x ;; ys <- filterM f r ;; Ok (if b then x :: ys else ys)
  end.

(* ====================================================================== *)
(** ** JavaScript values *)
(* ====================================================================== *)

(** Values reachable from a parsed JSON document.  An array also carries
    named properties: [mergeResponses] assigns one to an array when the
    upstream's [items] is itself an array. *)
#[warnings="-register-all"]
Inductive JsVal : Type :=
| JUndef
| JNull
| JBool (b : bool)
| JNum (z : Z)
| JStr (s : jsstring)
| JArr (elems : list JsVal) (props : list (string * JsVal))
| JObj (props : list (string * JsVal)).

Fixpoint lookup (k : string) (ps : list (string * JsVal)) : option JsVal :=
  match ps with
  | [] => None
  | (k', v) :: r => if String.eqb k k' then Some v else lookup k r
  end.

Fixpoint assign (k : string) (x : JsVal) (ps : list (string * JsVal))
  : list (string * JsVal) :=
  match ps with
  | [] => [(k, x)]
  | (k', v) :: r => if String.eqb k k' then (k, x) :: r else (k', v) :: assign k x r
  end.

(** [v?.k]: reading a property that no prototype defines.  Primitives have
    none; [undefined] and [null] short-circuit to [undefined]. *)
Definition get (v : JsVal) (k : string) : JsVal :=
  match v with
  | JObj ps | JArr _ ps =>
      match lookup k ps with Some x => x | None => JUndef end
  | _ => JUndef
  end.

(** [v.k = x] in strict code (the file is an ES module): assigning to a
    property of a primitive, of [undefined] or of [null] throws. *)
Definition set (v : JsVal) (k : string) (x : JsVal) : result JsVal :=
  match v with
  | JObj ps => Ok (JObj (assign k x ps))
  | JArr es ps => Ok (JArr es (assign k x ps))
  | _ => Throw TypeError
  end.

Definition truthy (v : JsVal) : bool :=
  match v with
  | JUndef | JNull | JBool false | JStr [] => false
  | JNum z => negb (z =? 0)
  | _ => true
  end.

(** [a || b] *)
Definition orElse (a b : JsVal) : JsVal := if truthy a then a else b.

(** [a ?? b] *)
Definition coalesce (a b : JsVal) : JsVal :=
  match a with
  | JUndef | JNull => b
  | _ => a
  end.

Definition isArray (v : JsVal) : bool :=
  match v with JArr _ _ => true | _ => false end.

Definition hasKey (k : string) (ps : list (string * JsVal)) : bool :=
  match lookup k ps with Some _ => true | None => false end.

(** [String(v)].  An object converts through [Object.prototype.toString]
    unless it has an own (hence non-callable) [toString], in which case the
    conversion throws; an array converts through [join]. *)
Fixpoint toString (v : JsVal) : result jsstring :=
  match v with
  | JUndef => Ok (js "undefined")
  | JNull => Ok (js "null")
  | JBool true => Ok (js "true")
  | JBool false => Ok (js "false")
  | JNum z => Ok (decimal z)
  | JStr s => Ok s
  | JObj ps =>
      if hasKey "toString" ps then Throw TypeError else Ok (js "[object Object]")
  | JArr es ps =>
      if hasKey "toString" ps then Throw TypeError
      else if hasKey "join" ps then Ok (js "[object Array]")
      else
        ss <- (fix elems (l : list JsVal) : result (list jsstring) :=
                 match l with
                 | [] => Ok []
                 | e :: r =>
                     s <- match e with
                          | JUndef | JNull => Ok []
                          | _ => toString e
                          end ;;
                     ss <- elems r ;;
                     Ok (s :: ss)
                 end) es ;;
        Ok (join (js ",") ss)
  end.

(** [JSON.parse(JSON.stringify(v))]: properties holding [undefined] are
    dropped, array holes become [null], named array properties are lost. *)
Fixpoint jsonRoundTrip (v : JsVal) : JsVal :=
  match v with
  | JArr es _ =>
      JArr (map (fun e => match e with JUndef => JNull | _ => jsonRoundTrip e end) es) []
  | JObj ps =>
      JObj ((fix props (l : list (string * JsVal)) : list (string * JsVal) :=
               match l with
               | [] => []
               | (k, JUndef) :: r => props r
               | (k, x) :: r => (k, jsonRoundTrip x) :: props r
               end) ps)
  | _ => v
  end.

(** [deepClone]: [JSON.stringify(undefined)] is [undefined], which
    [JSON.parse] rejects; the [catch] then returns the argument. *)
Definition deepClone (obj : JsVal) : JsVal :=
  match obj with
  | JUndef => obj
  | _ => jsonRoundTrip obj
  end.

(* ====================================================================== *)
(** ** Numbers: the [Number(...)] coercion *)
(* ====================================================================== *)

Inductive JsNum : Type :=
| NaN
| PosInf
| NegInf
| Fin (q : Q).

Definition isDigit (c : N) : bool := ((48 <=? c) && (c <=? 57))%N.

Fixpoint span (p : N -> bool) (s : jsstring) : jsstring * jsstring :=
  match s with
  | c :: r => if p c then let (a, b) := span p r in (c :: a, b) else ([], s)
  | [] => ([], [])
  end.

Definition digitsValue (base : Z) (digit : N -> Z) (ds : jsstring) : Z :=
  fold_left (fun acc c => acc * base + digit c) ds 0.

Definition decDigit (c : N) : Z := Z.of_N c - 48.

Definition hexDigit (c : N) : option Z :=
  if isDigit c then Some (Z.of_N c - 48)
  else if ((97 <=? c) && (c <=? 102))%N then Some (Z.of_N c - 87)
  else if ((65 <=? c) && (c <=? 70))%N then Some (Z.of_N c - 55)
  else None.

(** Rounding of an exact value into the binary64 range: magnitudes from
    2^1024 - 2^970 on become infinite, magnitudes up to 2^-1075 become 0. *)
Definition classify (q : Q) : JsNum :=
  if Qle_bool ((2 ^ 1024 - 2 ^ 970) # 1) q then PosInf
  else if Qle_bool q (- ((2 ^ 1024 - 2 ^ 970) # 1)) then NegInf
  else if Qle_bool (Qabs q) (1 # (2 ^ 1075)) then Fin 0
  else Fin q.

Definition scale10 (n e : Z) : Q :=
  if 0 <=? e then (n * 10 ^ e) # 1 else n # (Z.to_pos (10 ^ (- e))).

(** [ExponentPart]: [e] or [E], an optional sign, at least one digit. *)
Definition parseExponent (s : jsstring) : option Z :=
  match s with
  | [] => Some 0
  | c :: r =>
      if ((c =? 101) || (c =? 69))%N then
        let '(neg, r') :=
          match r with
          | 43%N :: t => (false, t)
          | 45%N :: t => (true, t)
          | _ => (false, r)
          end in
        match span isDigit r' with
        | ((_ :: _) as ds, []) =>
            let e := digitsValue 10 decDigit ds in
            Some (if neg then - e else e)
        | _ => None
        end
      else None
  end.

(** [StrUnsignedDecimalLiteral]: digits, an optional point and fraction,
    an optional exponent; at least one digit before the exponent. *)
Definition parseUnsignedDecimal (s : jsstring) : option Q :=
  let (ip, r1) := span isDigit s in
  let '(fp, r2) :=
    match r1 with
    | 46%N :: r => span isDigit r
    | _ => ([], r1)
    end in
  match ip ++ fp with
  | [] => None
  | ds =>
      match parseExponent r2 with
      | Some e => Some (scale10 (digitsValue 10 decDigit ds) (e - Z.of_nat (List.length fp)))
      | None => None
      end
  end.

Definition parseRadix (base : Z) (s : jsstring) : option Z :=
  match s with
  | [] => None
  | _ =>
      fold_left (fun acc c =>
                   match acc, hexDigit c with
                   | Some a, Some d => if d <? base then Some (a * base + d) else None
                   | _, _ => None
                   end) s (Some 0)
  end.

(** The prefix of a binary, octal or hexadecimal literal: the radix and
    the digits after the prefix. *)
Definition radixPrefix (t : jsstring) : option (Z * jsstring) :=
  match t with
  | c0 :: c1 :: r =>
      if (c0 =? 48)%N then
        if ((c1 =? 120) || (c1 =? 88))%N then Some (16, r)
        else if ((c1 =? 111) || (c1 =? 79))%N then Some (8, r)
        else if ((c1 =? 98) || (c1 =? 66))%N then Some (2, r)
        else None
      else None
  | _ => None
  end.

(** An optionally signed [Infinity] or decimal literal, sign removed. *)
Definition signedLiteral (neg : bool) (r : jsstring) : JsNum :=
  if jsstring_eqb r (js "Infinity") then (if neg then NegInf else PosInf)
  else match parseUnsignedDecimal r with
       | Some q => classify (if neg then Qopp q else q)
       | None => NaN
       end.

(** [StringToNumber]: the text is trimmed; the empty text is 0; then a
    prefixed binary, octal or hexadecimal integer, or an optionally signed
    [Infinity] or decimal literal; anything else is NaN. *)
Definition StringToNumber (s : jsstring) : JsNum :=
  let t := trim s in
  match t with
  | [] => Fin 0
  | c :: r =>
      match radixPrefix t with
      | Some (base, ds) =>
          match parseRadix base ds with
          | Some n => classify (n # 1)
          | None => NaN
          end
      | None =>
          if (c =? 43)%N then signedLiteral false r
          else if (c =? 45)%N then signedLiteral true r
          else signedLiteral false t
      end
  end.

(** [Number(v)].  An object or array converts through its string. *)
Definition toNumber (v : JsVal) : result JsNum :=
  match v with
  | JUndef => Ok NaN
  | JNull => Ok (Fin 0)
  | JBool b => Ok (Fin (if b then 1 else 0))
  | JNum z => Ok (Fin (z # 1))
  | JStr s => Ok (StringToNumber s)
  | _ => s <- toString v ;; Ok (StringToNumber s)
  end.

(** [Number.isFinite(n) ? Math.floor(n) : def] *)
Definition floorOr (n : JsNum) (def : Z) : Z :=
  match n with
  | Fin q => Qfloor q
  | _ => def
  end.

Definition clampInt (v : JsVal) (def min max : Z) : result Z :=
  n <- toNumber v ;;
  let x := floorOr n def in
  Ok (Z.min max (Z.max min x)).

Definition toInt (v : JsVal) (def : Z) : result Z :=
  n <- toNumber v ;;
  Ok (floorOr n def).

(** Ceiling of the quotient [a / b] of two integers, [Math.ceil(a / b)]
    for a non-zero divisor. *)
Definition ceilDiv (a b : Z) : Z := - ((- a) / b).

(** [decidePagesToFetch({ totalCount, numOfRows, pageNo, maxPages })].
    A zero [numOfRows] makes the quotient of a positive count infinite,
    so that [Math.min] returns [maxPages]. *)
Definition decidePagesToFetch (totalCount numOfRows pageNo maxPages : Z) : Z :=
  if (totalCount =? 0) || (totalCount <=? 0) then maxPages
  else if numOfRows =? 0 then Z.max 1 maxPages
  else
    let totalPages := ceilDiv totalCount numOfRows in
    let remain := totalPages - (pageNo - 1) in
    Z.max 1 (Z.min maxPages remain).

(* ====================================================================== *)
(** ** Dates: [getNowKstDate], [pad2], [fmtYmd] *)
(* ====================================================================== *)

(** A [Date] is its time value, the milliseconds since the epoch.  The
    calendar fields are read with the UTC getters, which ECMAScript defines
    by the day number and the Gregorian leap rule. *)

Definition msPerDay : Z := 86400000.

Definition Day (t : Z) : Z := t / msPerDay.

Definition isLeapYear (y : Z) : bool :=
  (y mod 4 =? 0) && (negb (y mod 100 =? 0) || (y mod 400 =? 0)).

Definition DayFromYear (y : Z) : Z :=
  365 * (y - 1970) + (y - 1969) / 4 - (y - 1901) / 100 + (y - 1601) / 400.

(** The largest year whose first day is not after day [d]: an estimate
    from the mean year length, corrected by one either way. *)
Definition YearFromDay (d : Z) : Z :=
  let y0 := 1970 + (d * 400) / 146097 in
  if DayFromYear (y0 + 1) <=? d then y0 + 1
  else if DayFromYear y0 <=? d then y0
  else y0 - 1.

(** Day number within the year at which month [m] (0-based) starts. *)
Definition monthStart (leap : bool) (m : Z) : Z :=
  let l := if leap then 1 else 0 in
  if m <=? 0 then 0
  else if m =? 1 then 31
  else if m =? 2 then 59 + l
  else if m =? 3 then 90 + l
  else if m =? 4 then 120 + l
  else if m =? 5 then 151 + l
  else if m =? 6 then 181 + l
  else if m =? 7 then 212 + l
  else if m =? 8 then 243 + l
  else if m =? 9 then 273 + l
  else if m =? 10 then 304 + l
  else if m =? 11 then 334 + l
  else 365 + l.

(** [MonthFromTime], from the day within the year. *)
Definition monthOfYearDay (leap : bool) (dw : Z) : Z :=
  if dw <? monthStart leap 1 then 0
  else if dw <? monthStart leap 2 then 1
  else if dw <? monthStart leap 3 then 2
  else if dw <? monthStart leap 4 then 3
  else if dw <? monthStart leap 5 then 4
  else if dw <? monthStart leap 6 then 5
  else if dw <? monthStart leap 7 then 6
  else if dw <? monthStart leap 8 then 7
  else if dw <? monthStart leap 9 then 8
  else if dw <? monthStart leap 10 then 9
  else if dw <? monthStart leap 11 then 10
  else 11.

Record CalendarDate : Type := mkDate { year : Z; month : Z; day : Z }.

(** [getUTCFullYear()], [getUTCMonth() + 1] and [getUTCDate()] of a time
    value. *)
Definition utcDate (t : Z) : CalendarDate :=
  let d := Day t in
  let y := YearFromDay d in
  let leap := isLeapYear y in
  let dw := d - DayFromYear y in
  let m := monthOfYearDay leap dw in
  mkDate y (m + 1) (dw - monthStart leap m + 1).


(** [getNowKstDate()], given the reading [now] of [Date.now()]. *)
Definition getNowKstDate (now : Z) : Z := now + 9 * 60 * 60 * 1000.

Definition pad2 (n : Z) : jsstring := padStart0 2 (decimal n).

Definition fmtCalendar (c : CalendarDate) : jsstring :=
  decimal (year c) ++ pad2 (month c) ++ pad2 (day c).

Definition fmtYmd (d : Z) : jsstring := fmtCalendar (utcDate d).

(** [kind === "award" ? 6 : 29] *)
Definition daysBack (kind : jsstring) : Z :=
  if jsstring_eqb kind (js "award") then 6 else 29.

Definition fromKst (kind : jsstring) (nowKst : Z) : Z :=
  nowKst - daysBack kind * 24 * 60 * 60 * 1000.

(* ====================================================================== *)
(** ** URLs: [encodeURIComponent], [URLSearchParams], [buildUrl] *)
(* ====================================================================== *)

Definition utf8_bytes (cp : N) : list N :=
  (if cp <? 128 then [cp]
   else if cp <? 2048 then [192 + cp / 64; 128 + cp mod 64]
   else if cp <? 65536 then
     [224 + cp / 4096; 128 + (cp / 64) mod 64; 128 + cp mod 64]
   else
     [240 + cp / 262144; 128 + (cp / 4096) mod 64; 128 + (cp / 64) mod 64;
      128 + cp mod 64])%N.

Definition hexChar (n : N) : N := (if n <? 10 then 48 + n else 55 + n)%N.

Definition percentByte (b : N) : jsstring :=
  [37%N; hexChar (b / 16); hexChar (b mod 16)].

Definition isAlnum (c : N) : bool :=
  (isDigit c || (65 <=? c) && (c <=? 90) || (97 <=? c) && (c <=? 122))%N.

(** Characters [encodeURIComponent] leaves alone: letters, digits and
    [- _ . ! ~ * ' ( )]. *)
Definition uriUnreserved (c : N) : bool :=
  (isAlnum c || (c =? 45) || (c =? 95) || (c =? 46) || (c =? 33) || (c =? 126)
   || (c =? 42) || (c =? 39) || (c =? 40) || (c =? 41))%N.

Definition isHighSurrogate (c : N) : bool := ((55296 <=? c) && (c <=? 56319))%N.
Definition isLowSurrogate (c : N) : bool := ((56320 <=? c) && (c <=? 57343))%N.

Definition pairPoint (hi lo : N) : N :=
  ((hi - 55296) * 1024 + (lo - 56320) + 65536)%N.

(** [encodeURIComponent(s)]: every other character is written as the
    percent-escaped bytes of its UTF-8 form; a surrogate that is not part
    of a pair raises [URIError]. *)
Fixpoint encodeURIComponent (s : jsstring) : result jsstring :=
  match s with
  | [] => Ok []
  | c :: r =>
      if uriUnreserved c then
        t <- encodeURIComponent r ;; Ok (c :: t)
      else if isLowSurrogate c then Throw URIError
      else if isHighSurrogate c then
        match r with
        | c2 :: r2 =>
            if isLowSurrogate c2 then
              t <- encodeURIComponent r2 ;;
              Ok (flat_map percentByte (utf8_bytes (pairPoint c c2)) ++ t)
            else Throw URIError
        | [] => Throw URIError
        end
      else
        t <- encodeURIComponent r ;;
        Ok (flat_map percentByte (utf8_bytes c) ++ t)
  end.

(** Bytes the form serializer of [URLSearchParams] leaves alone: letters,
    digits and [* - . _]; a space becomes [+]. *)
Definition formByte (b : N) : jsstring :=
  (if b =? 32 then [43]
   else if isAlnum b || (b =? 42) || (b =? 45) || (b =? 46) || (b =? 95) then [b]
   else percentByte b)%N.

(** Serialization of one name or value: a lone surrogate is replaced by
    U+FFFD before the UTF-8 encoding (no exception here). *)
Fixpoint formEncode (s : jsstring) : jsstring :=
  match s with
  | [] => []
  | c :: r =>
      if isHighSurrogate c then
        match r with
        | c2 :: r2 =>
            if isLowSurrogate c2 then
              flat_map formByte (utf8_bytes (pairPoint c c2)) ++ formEncode r2
            else flat_map formByte (utf8_bytes 65533) ++ formEncode r
        | [] => flat_map formByte (utf8_bytes 65533)
        end
      else if isLowSurrogate c then
        flat_map formByte (utf8_bytes 65533) ++ formEncode r
      else flat_map formByte (utf8_bytes c) ++ formEncode r
  end.

(** A [URLSearchParams] object: its list of name-value pairs. *)
Definition URLSearchParams := list (jsstring * jsstring).

(** [params.set(name, value)]: the first pair of that name takes the
    value and the others are removed; without one the pair is appended. *)
Fixpoint paramsSet (name value : jsstring) (ps : URLSearchParams) : URLSearchParams :=
  match ps with
  | [] => [(name, value)]
  | (n, v) :: r =>
      if jsstring_eqb n name
      then (n, value) :: filter (fun p => negb (jsstring_eqb (fst p) name)) r
      else (n, v) :: paramsSet name value r
  end.

(** [params.toString()] *)
Definition paramsToString (ps : URLSearchParams) : jsstring :=
  join (js "&") (map (fun p => formEncode (fst p) ++ js "=" ++ formEncode (snd p)) ps).

Definition buildUrl (endpoint : jsstring) (baseParams : URLSearchParams) (pageNo : Z)
  : jsstring :=
  let params := paramsSet (js "pageNo") (decimal pageNo) baseParams in
  endpoint ++ js "?" ++ paramsToString params.

(** [normalizeServiceKey] *)
Definition normalizeServiceKey (key : JsVal) : result jsstring :=
  k <- toString (orElse key (JStr [])) ;;
  let s := trim k in
  match s with
  | [] => Ok s
  | _ => if includes s (js "%") then Ok s else encodeURIComponent s
  end.

(* ====================================================================== *)
(** ** Envelopes: [pickItems], [mergeResponses] *)
(* ====================================================================== *)

(** [pickItems(raw)] *)
Definition pickItems (raw : JsVal) : list JsVal :=
  let list :=
    coalesce (get (get (get (get raw "response") "body") "items") "item")
   (coalesce (get (get (get raw "response") "body") "items")
   (coalesce (get (get raw "items") "item")
   (coalesce (get raw "items")
             (JArr [] [])))) in
  let arr :=
    match list with
    | JArr es _ => es
    | _ => if truthy list then [list] else []
    end in
  match arr with
  | [x] =>
      if truthy x then
        match get x "item" with
        | JArr es _ => es
        | _ => arr
        end
      else arr
  | _ => arr
  end.

(** [if (!o[k]) o[k] = {}], returning the updated [o]. *)
Definition ensureObject (o : JsVal) (k : string) : result JsVal :=
  if truthy (get o k) then Ok o else set o k (JObj []).

(** [mergeResponses(jsonList)].  The assignments go through the path
    [response.body.items] of the clone; the model rebuilds the clone
    around the updated innermost object. *)
Definition mergeResponses (jsonList : list JsVal) : result JsVal :=
  let base := orElse (match jsonList with x :: _ => x | [] => JUndef end) (JObj []) in
  let itemsMerged := flat_map pickItems jsonList in
  let merged := deepClone base in
  merged <- ensureObject merged "response" ;;
  response <- ensureObject (get merged "response") "body" ;;
  body <- ensureObject (get response "body") "items" ;;
  items <- set (get body "items") "item" (JArr itemsMerged []) ;;
  body <- set body "items" items ;;
  response <- set response "body" body ;;
  set merged "response" response.

Definition envelope (items : JsVal) : JsVal :=
  JObj [("response", JObj [("body", JObj [("items", items)])])].

(* ====================================================================== *)
(** ** Amounts: [prettifyAmount] *)
(* ====================================================================== *)

(** Reversed digits with a comma after every third one. *)
Fixpoint insertCommas (k : nat) (r : jsstring) : jsstring :=
  match r with
  | [] => []
  | c :: r' =>
      match k with
      | 3%nat => 44%N :: c :: insertCommas 1 r'
      | _ => c :: insertCommas (S k) r'
      end
  end.

(** [n.toLocaleString("en-US")] for an integral [n >= 0]. *)
Definition toLocaleString (n : Z) : jsstring :=
  rev (insertCommas 0 (rev (decimal n))).

(** [Math.round(q)]: the nearest integer, a tie going up. *)
Definition mathRound (q : Q) : Z := Qfloor (q + (1 # 2)).

(** [s.replace(/[^\d.]/g, "")] *)
Definition stripNonNumeric (s : jsstring) : jsstring :=
  filter (fun c => isDigit c || (c =? 46)%N) s.

Definition isZero (q : Q) : bool := Qeq_bool q 0.

(** [prettifyAmount(v)] *)
Definition prettifyAmount (v : JsVal) : result jsstring :=
  t <- toString (coalesce v (JStr [])) ;;
  let s := trim t in
  match s with
  | [] => Ok []
  | _ =>
      match StringToNumber (stripNonNumeric s) with
      | Fin num =>
          if isZero num then Ok []
          else Ok (toLocaleString (mathRound num))
      | _ => Ok []
      end
  end.

(* ====================================================================== *)
(** ** Records *)
(* ====================================================================== *)

(** The record built by the first [map] of [extractItems]; a property the
    object literal of a kind does not list is [undefined]. *)
Record Mapped : Type := mkMapped {
  m_title : JsVal;
  m_date : JsVal;
  m_time : JsVal;
  m_org : JsVal;
  m_amount : JsVal;
  m_status : JsVal;
  m_winner : JsVal;
  m_period : JsVal;
  m_idA : JsVal;
  m_idB : JsVal
}.

(** A returned item. *)
Record Item : Type := mkItem {
  title : JsVal;
  date : JsVal;
  time : JsVal;
  org : JsVal;
  amount : jsstring;
  status : JsVal;
  winner : JsVal;
  period : JsVal;
  url : jsstring;
  fallbackUrl : jsstring
}.

Record Extracted : Type := mkExtracted {
  items : list Item;
  totalItemsParsed : nat;
  matchedAfterFilter : nat
}.

Record Opts : Type := mkOpts {
  opt_filterEnabled : JsVal;
  opt_limit : JsVal
}.

(** [a.slice(0, limit)] on an array: a negative [limit] counts from the
    end. *)
Definition sliceTo {A : Type} (limit : Z) (l : list A) : list A :=
  if limit <? 0
  then firstn (Z.to_nat (Z.of_nat (List.length l) + limit)) l
  else firstn (Z.to_nat limit) l.

Definition searchBase : jsstring :=
  js "https://www.g2b.go.kr:8101/ep/tbid/tbidList.do?bidNm=".

Definition detailBase : jsstring :=
  js "https://www.g2b.go.kr:8081/ep/invitation/publish/bidInfoDtl.do".

(** [mkSearchUrl(keyword)] *)
Definition mkSearchUrl (keyword : JsVal) : result jsstring :=
  k <- toString (orElse keyword (JStr [])) ;;
  e <- encodeURIComponent k ;;
  Ok (searchBase ++ e).

(** The first [map] of [extractItems], for one raw item [x]. *)
Definition mapItem (kind : jsstring) (x : JsVal) : Mapped :=
  let str s := JStr (js s) in
  let none := JStr [] in
  if jsstring_eqb kind (js "bid") then
    mkMapped
      (orElse (get x "bidNtceNm") (orElse (get x "bidNtceName")
         (orElse (get x "bidNm") (str "Untitled"))))
      (orElse (get x "bidNtceDate") (orElse (get x "bidNtceDt") none))
      (orElse (get x "bidNtceBgn") (orElse (get x "bidNtceTime") none))
      (orElse (get x "ntceInsttNm") (orElse (get x "dmndInsttNm")
         (orElse (get x "dminsttNm") none)))
      (coalesce (get x "asignBdgtAmt") (coalesce (get x "presmptPrce")
         (coalesce (get x "presmPrce") none)))
      (orElse (get x "bidNtceSttusNm") (orElse (get x "bidNtceSttusName") none))
      JUndef
      JUndef
      (orElse (get x "bidNtceNo") (orElse (get x "bidNtceNum") none))
      (orElse (get x "bidNtceOrd") (orElse (get x "bidNtceSeq") none))
  else if jsstring_eqb kind (js "award") then
    mkMapped
      (orElse (get x "bidNtceNm") (orElse (get x "bidNm")
         (orElse (get x "bidNtceName") (str "Untitled"))))
      (orElse (get x "opengDate") (orElse (get x "opengDt") none))
      (orElse (get x "opengTm") none)
      (orElse (get x "ntceInsttNm") (orElse (get x "dmndInsttNm")
         (orElse (get x "dminsttNm") none)))
      (coalesce (get x "scsbidAmt") (coalesce (get x "scsbidPrice")
         (coalesce (get x "cntrctAmt") none)))
      (orElse (get x "bidNtceSttusNm") (orElse (get x "bidNtceSttusName") none))
      (orElse (get x "prtcptnEntrpsNm") (orElse (get x "sucsfnEntrpsNm") none))
      JUndef
      JUndef
      JUndef
  else
    mkMapped
      (orElse (get x "cntrctNm") (orElse (get x "cntrctName")
         (orElse (get x "bidNtceNm") (str "Untitled"))))
      (orElse (get x "cntrctCnclsDate") (orElse (get x "cntrctDate") none))
      JUndef
      (orElse (get x "dmndInsttNm") (orElse (get x "cntrctInsttNm")
         (orElse (get x "ntceInsttNm") (orElse (get x "dminsttNm") none))))
      (coalesce (get x "cntrctAmt") (coalesce (get x "contAmt") none))
      (orElse (get x "cntrctCnclsSttusNm") none)
      JUndef
      (orElse (get x "cntrctPrd") (orElse (get x "cntrctPeriod") none))
      JUndef
      JUndef.

(** Detail link of a mapped record: the deep link of a [bid] record with a
    notice identifier, the search link otherwise. *)
Definition detailUrl (kind : jsstring) (it : Mapped) : result jsstring :=
  if jsstring_eqb kind (js "bid") && truthy (m_idA it) then
    bidno <- toString (m_idA it) ;;
    ord <- toString (orElse (m_idB it) (JStr (js "00"))) ;;
    let bidseq := padStart0 2 ord in
    eno <- encodeURIComponent bidno ;;
    eseq <- encodeURIComponent bidseq ;;
    Ok (detailBase ++ js "?bidno=" ++ eno ++ js "&bidseq=" ++ eseq
        ++ js "&releaseYn=Y&taskClCd=5")
  else mkSearchUrl (m_title it).

(** The second [map] of [extractItems], for one filtered record. *)
Definition linkItem (kind : jsstring) (it : Mapped) : result Item :=
  amountStr <- prettifyAmount (m_amount it) ;;
  u <- detailUrl kind it ;;
  f <- mkSearchUrl (m_title it) ;;
  Ok (mkItem (m_title it) (m_date it) (m_time it) (m_org it) amountStr
             (m_status it) (m_winner it) (m_period it) u f).

(* ====================================================================== *)
(** ** Requests, responses and the outside world *)
(* ====================================================================== *)

(** A query parameter as the platform hands it over: absent, one string,
    or the strings of a repeated parameter. *)
Inductive QueryVal : Type :=
| QAbsent
| QOne (s : jsstring)
| QMany (l : list jsstring).

Definition param (v : QueryVal) : JsVal :=
  match v with
  | QAbsent => JUndef
  | QOne s => JStr s
  | QMany l => JArr (map JStr l) []
  end.

Record Request : Type := mkRequest {
  method : jsstring;
  q_kind : QueryVal;
  q_q : QueryVal;
  q_filter : QueryVal;
  q_numOfRows : QueryVal;
  q_pageNo : QueryVal;
  q_maxPages : QueryVal;
  q_bsnsDivCd : QueryVal
}.

(** What is read from the process: the credential variable (absent or a
    string) and the clock. *)
Record Env : Type := mkEnv {
  DATA_GO_KR_SERVICE_KEY : option jsstring;
  now : Z
}.

(** Outcome of one [fetch] under the abort timer: a response with its
    status and body text, or a rejection (timer abort, network failure)
    with the text [String(e?.message || e)] of its reason. *)
Inductive FetchOutcome : Type :=
| Responded (httpStatus : Z) (text : jsstring)
| Rejected (reason : jsstring).

Record FetchText : Type := mkFetchText {
  ft_ok : bool;
  ft_status : Z;
  ft_text : jsstring
}.

Record Meta : Type := mkMeta {
  totalCountFromApi : Z;
  pagesFetched : Z;
  numOfRows : Z;
  pageNoStart : Z;
  meta_totalItemsParsed : nat;
  meta_matchedAfterFilter : nat;
  returned : nat;
  filterEnabled : bool;
  kstRange : jsstring
}.

Record Payload : Type := mkPayload {
  p_kind : jsstring;
  p_q : jsstring;
  p_meta : Meta;
  p_items : list Item;
  sourceUrl : jsstring
}.

(** Body given to [res.status(...).json(...)] or [.end()].  The message of
    the catch-all error is kept as the exception it renders; an engine
    error renders as the engine's own text. *)
Inductive Body : Type :=
| NoBody
| ErrorBody (error : jsstring)
| ProxyFailed (message : Exn)
| Success (payload : Payload).

Record Response : Type := mkResponse {
  res_status : Z;
  res_body : Body
}.

Section Engine.

(** [String.prototype.toLowerCase] of the engine. *)
Variable toLowerCase : jsstring -> jsstring.

(** [JSON.parse]: the value of a JSON text, or nothing for a
    [SyntaxError]. *)
Variable JSON_parse : jsstring -> option JsVal.

(** The network: the outcome of the [n]-th fetch of a request (counted
    from 0), made to a given URL. *)
Variable network : nat -> jsstring -> FetchOutcome.

(** [normalizeKind(v)] *)
Definition normalizeKind (v : JsVal) : result jsstring :=
  s <- toString (orElse v (JStr (js "bid"))) ;;
  let k := trim (toLowerCase s) in
  if jsstring_eqb k (js "bid") || jsstring_eqb k (js "award")
     || jsstring_eqb k (js "contract")
  then Ok k
  else Ok (js "bid").

(** [hasQ(s)] of [extractItems], for the normalized keyword [qlc]. *)
Definition hasQ (filterOn : bool) (qlc : jsstring) (s : JsVal) : result bool :=
  if negb filterOn then Ok true
  else match qlc with
       | [] => Ok true
       | _ =>
           t <- toString (orElse s (JStr [])) ;;
           Ok (includes (toLowerCase t) qlc)
       end.

(** [hasQ(it.title) || hasQ(it.org)] *)
Definition passes (filterOn : bool) (qlc : jsstring) (it : Mapped) : result bool :=
  a <- hasQ filterOn qlc (m_title it) ;;
  if a then Ok true else hasQ filterOn qlc (m_org it).

(** [extractItems(raw, kind, q, opts)], for a string [q] (so that
    [String(q || "")] is [q]). *)
Definition extractItems (raw : JsVal) (kind q : jsstring) (opts : Opts)
  : result Extracted :=
  let filterOn :=
    match opt_filterEnabled opts with JBool false => false | _ => true end in
  limit <- toInt (opt_limit opts) 50 ;;
  let arr := pickItems raw in
  let qlc := trim (toLowerCase q) in
  let mapped := map (mapItem kind) arr in
  filtered <- filterM (passes filterOn qlc) mapped ;;
  withUrl <- mapM (linkItem kind) (sliceTo limit filtered) ;;
  Ok (mkExtracted withUrl (List.length arr) (List.length filtered)).

(** [fetchTextWithTimeout(url, ms)], as the [n]-th fetch. *)
Definition fetchTextWithTimeout (n : nat) (u : jsstring) : FetchText :=
  match network n u with
  | Responded st t => mkFetchText ((200 <=? st) && (st <=? 299)) st t
  | Rejected reason => mkFetchText false 599 (js "Fetch failed: " ++ reason)
  end.

(** [fetchJsonUpstream(url)], as the [n]-th fetch; the result is the
    [json] of the returned object. *)
Definition fetchJsonUpstream (n : nat) (u : jsstring) : result JsVal :=
  let r := fetchTextWithTimeout n u in
  if negb (ft_ok r) then
    Throw (Err (js "Upstream " ++ decimal (ft_status r) ++ js ": "
                ++ slice 0 200 (ft_text r)))
  else
    match JSON_parse (ft_text r) with
    | Some json => Ok json
    | None =>
        Throw (Err (js "Upstream non-JSON. First bytes: "
                    ++ slice 0 200 (ft_text r)))
    end.


Definition apiBase : jsstring :=
  js "https://apis.data.go.kr/1230000/ao/PubDataOpnStdService".

(** [endpointByKind[kind]] *)
Definition endpointByKind (kind : jsstring) : option jsstring :=
  if jsstring_eqb kind (js "bid") then
    Some (apiBase ++ js "/getDataSetOpnStdBidPblancInfo")
  else if jsstring_eqb kind (js "award") then
    Some (apiBase ++ js "/getDataSetOpnStdScsbidInfo")
  else if jsstring_eqb kind (js "contract") then
    Some (apiBase ++ js "/getDataSetOpnStdCntrctInfo")
  else None.

(** The base parameters of a kind. *)
Definition baseParamsFor (kind serviceKey : jsstring) (rows : Z)
  (fromYmd toYmd bsnsDivCd : jsstring) : URLSearchParams :=
  let p0 := [(js "serviceKey", serviceKey); (js "type", js "json");
             (js "numOfRows", decimal rows)] in
  let p1 :=
    if jsstring_eqb kind (js "bid") then
      paramsSet (js "bidNtceEndDt") (toYmd ++ js "2359")
        (paramsSet (js "bidNtceBgnDt") (fromYmd ++ js "0000") p0)
    else p0 in
  let p2 :=
    if jsstring_eqb kind (js "award") then
      paramsSet (js "bsnsDivCd") bsnsDivCd
        (paramsSet (js "opengEndDt") (toYmd ++ js "2359")
           (paramsSet (js "opengBgnDt") (fromYmd ++ js "0000") p1))
    else p1 in
  if jsstring_eqb kind (js "contract") then
    paramsSet (js "cntrctCnclsEndDate") toYmd
      (paramsSet (js "cntrctCnclsBgnDate") fromYmd p2)
  else p2.

(** The loop fetching pages 2 .. pagesToFetch: [i] runs over [indices]. *)
Definition fetchRest (endpoint : jsstring) (baseParams : URLSearchParams)
  (pageNo : Z) (indices : list nat) : result (list JsVal) :=
  mapM (fun i =>
          let p := pageNo + (Z.of_nat i - 1) in
          fetchJsonUpstream (i - 1) (buildUrl endpoint baseParams p)) indices.

Definition rangeLabel (fromYmd toYmd : jsstring) : jsstring :=
  slice 0 4 fromYmd ++ js "-" ++ slice 4 6 fromYmd ++ js "-" ++ slice 6 8 fromYmd
  ++ js " ~ "
  ++ slice 0 4 toYmd ++ js "-" ++ slice 4 6 toYmd ++ js "-" ++ slice 6 8 toYmd.

(** What the first half of the [try] block settles before any fetch. *)
Record Plan : Type := mkPlan {
  pl_kind : jsstring;
  pl_q : jsstring;
  pl_filterOn : bool;
  pl_endpoint : jsstring;
  pl_baseParams : URLSearchParams;
  pl_rows : Z;
  pl_pageNo : Z;
  pl_maxPages : Z;
  pl_fromYmd : jsstring;
  pl_toYmd : jsstring
}.

(** The [try] block after [normalizeKind], up to the base parameters: an
    early response, or the plan of the fetches. *)
Definition prepare (kind : jsstring) (req : Request) (env : Env)
  : result (Response + Plan) :=
  qs <- toString (coalesce (param (q_q req)) (JStr [])) ;;
  let qRaw := trim qs in
  let q := slice 0 60 qRaw in
  fs <- toString (coalesce (param (q_filter req)) (JStr (js "1"))) ;;
  let filterOn := negb (jsstring_eqb fs (js "0")) in
  match DATA_GO_KR_SERVICE_KEY env with
  | None | Some [] =>
      Ok (inl (mkResponse 500 (ErrorBody (js "Missing DATA_GO_KR_SERVICE_KEY"))))
  | Some serviceKeyRaw =>
      serviceKey <- normalizeServiceKey (JStr serviceKeyRaw) ;;
      match endpointByKind kind with
      | None =>
          Ok (inl (mkResponse 400
                     (ErrorBody (js "Invalid kind. Use bid|award|contract"))))
      | Some endpoint =>
          let nowKst := getNowKstDate (now env) in
          let fromYmd := fmtYmd (fromKst kind nowKst) in
          let toYmd := fmtYmd nowKst in
          rows <- clampInt (param (q_numOfRows req)) 100 1 1000 ;;
          pageNo <- clampInt (param (q_pageNo req)) 1 1 9999 ;;
          maxPages <- clampInt (param (q_maxPages req)) 3 1 10 ;;
          bsnsDivCd <- toString (orElse (param (q_bsnsDivCd req)) (JStr (js "5"))) ;;
          let baseParams :=
            baseParamsFor kind serviceKey rows fromYmd toYmd bsnsDivCd in
          Ok (inr (mkPlan kind q filterOn endpoint baseParams rows pageNo
                          maxPages fromYmd toYmd))
      end
  end.

(** [totalCount] read from the first page. *)
Definition totalCountOf (first : JsVal) : result Z :=
  toInt (get (get (get first "response") "body") "totalCount") 0.

(** The rest of the [try] block: first page, further pages, merge,
    extraction and the success response. *)
Definition execute (pl : Plan) : result Response :=
  let firstUrl := buildUrl (pl_endpoint pl) (pl_baseParams pl) (pl_pageNo pl) in
  first <- fetchJsonUpstream 0 firstUrl ;;
  totalCount <- totalCountOf first ;;
  let pagesToFetch :=
    decidePagesToFetch totalCount (pl_rows pl) (pl_pageNo pl) (pl_maxPages pl) in
  rest <- fetchRest (pl_endpoint pl) (pl_baseParams pl) (pl_pageNo pl)
            (seq 2 (Z.to_nat (pagesToFetch - 1))) ;;
  mergedRaw <- mergeResponses (first :: rest) ;;
  ex <- extractItems mergedRaw (pl_kind pl) (pl_q pl)
          (mkOpts (JBool (pl_filterOn pl)) (JNum 50)) ;;
  Ok (mkResponse 200 (Success
        (mkPayload (pl_kind pl) (pl_q pl)
           (mkMeta totalCount pagesToFetch (pl_rows pl) (pl_pageNo pl)
              (totalItemsParsed ex) (matchedAfterFilter ex)
              (List.length (items ex)) (pl_filterOn pl)
              (rangeLabel (pl_fromYmd pl) (pl_toYmd pl)))
           (items ex) firstUrl))).

(** The [try] block once the kind is known. *)
Definition handleKind (kind : jsstring) (req : Request) (env : Env)
  : result Response :=
  step <- prepare kind req env ;;
  match step with
  | inl early => Ok early
  | inr pl => execute pl
  end.

(** The body of the [try] block: the response it returns, or the
    exception that reaches the [catch]. *)
Definition handlerTry (req : Request) (env : Env) : result Response :=
  kind <- normalizeKind (param (q_kind req)) ;;
  handleKind kind req env.

(** [handler(req, res)]: the response sent (status and body; the CORS and
    cache headers and the [fetchedAt] stamp are left out). *)
Definition handler (req : Request) (env : Env) : Response :=
  if jsstring_eqb (method req) (js "OPTIONS") then mkResponse 204 NoBody
  else
    match handlerTry req env with
    | Ok r => r
    | Throw e => mkResponse 500 (ProxyFailed e)
    end.

End Engine.

(* ====================================================================== *)
(** ** A small world to run the handler in *)
(* ====================================================================== *)

Definition field (k : string) (s : string) : string * JsVal := (k, JStr (js s)).

Definition demoItems : list JsVal :=
  [ JObj [field "bidNtceNm" "도로 포장 공사"; ("bidNtceNo", JNum 20240101001);
          ("bidNtceOrd", JNum 1); field "ntceInsttNm" "서울특별시";
          field "asignBdgtAmt" "1,234,000원"];
    JObj [field "bidNtceNm" "AI 시스템 구축"; field "ntceInsttNm" "조달청";
          ("asignBdgtAmt", JNum 5000000)];
    JObj [field "ntceInsttNm" "부산광역시"; field "asignBdgtAmt" "0"] ].

Definition demoPage : JsVal :=
  JObj [("response",
         JObj [("header", JObj [field "resultCode" "00"]);
               ("body", JObj [("items", JArr demoItems []);
                              ("totalCount", JNum 3)])])].

(** A parser knowing one document, and a network answering every request
    with it. *)
Definition demoParse (t : jsstring) : option JsVal :=
  if jsstring_eqb t (js "<page>") then Some demoPage else None.

Definition demoNetwork (n : nat) (u : jsstring) : FetchOutcome :=
  Responded 200 (js "<page>").

Definition demoEnv : Env := mkEnv (Some (js "key+/=")) 1709251199000.

Definition demoRequest (kind q : QueryVal) : Request :=
  mkRequest (js "GET") kind q QAbsent QAbsent QAbsent QAbsent QAbsent.

(** The first URL of the small world's default request. *)
Definition demoFirstUrl : jsstring :=
  js ("https://apis.data.go.kr/1230000/ao/PubDataOpnStdService/"
      ++ "getDataSetOpnStdBidPblancInfo?serviceKey=key%252B%252F%253D&type=json"
      ++ "&numOfRows=100&bidNtceBgnDt=202402010000&bidNtceEndDt=202403012359"
      ++ "&pageNo=1").



(** A page whose single item is itself a container of two records. *)
Definition nestedPage : JsVal :=
  envelope (JObj [("item",
    JArr [JObj [("item",
      JArr [JObj [("item", JArr [JObj [("n", JNum 1)]; JObj [("n", JNum 2)]] [])]] [])]] [])]).

(** The record of the small world titled "AI 시스템 구축". *)
Definition aiRecord : Mapped :=
  mapItem (js "bid")
    (JObj [field "bidNtceNm" "AI 시스템 구축"; field "ntceInsttNm" "조달청"]).

(** A keyword parameter of 61 code units: "a", 59 spaces, "b". *)
Definition paddedKeyword : jsstring := js "a" ++ repeat 32%N 59 ++ js "b".

(* ====================================================================== *)
(** * Notions the properties are stated with *)
(* ====================================================================== *)

(** ** Calendar order *)


Definition daysInYear (y : Z) : Z := if isLeapYear y then 366 else 365.


(** ** Assignments along a path *)

Definition isObjectLike (v : JsVal) : bool :=
  match v with
  | JObj _ | JArr _ _ => true
  | _ => false
  end.

(** The value the merge continues with below property [k] of [v]: the
    property itself when it is truthy, a fresh object otherwise. *)
Definition childOrFresh (v : JsVal) (k : string) : JsVal :=
  if truthy (get v k) then get v k else JObj [].

(** Whether the assignments along [path] go through: every value met on
    the way must be able to hold a property. *)
Fixpoint canAssign (v : JsVal) (path : list string) : bool :=
  isObjectLike v &&
  match path with
  | [] => true
  | k :: rest => canAssign (childOrFresh v k) rest
  end.

(** [jsonList?.[0] || {}], cloned. *)
Definition mergeBase (pages : list JsVal) : JsVal :=
  deepClone (orElse (match pages with x :: _ => x | [] => JUndef end) (JObj [])).

(** What [pickItems] makes of a list stored at [response.body.items.item]:
    a single truthy element with an array-valued [item] is replaced by
    that array. *)
Definition unwrapSingle (l : list JsVal) : list JsVal :=
  match l with
  | [x] =>
      if truthy x then
        match get x "item" with
        | JArr es _ => es
        | _ => l
        end
      else l
  | _ => l
  end.

Definition storedItems (m : JsVal) : JsVal :=
  get (get (get (get m "response") "body") "items") "item".

(** ** Substrings and matched texts *)

(** [t] occurs in [s] as a contiguous run of code units. *)
Definition Substring (t s : jsstring) : Prop :=
  exists l r, s = l ++ t ++ r.

(** The text a record field is matched on, [String(s || "")]. *)
Definition matchText (v : JsVal) : result jsstring :=
  toString (orElse v (JStr [])).


(** ** Links of a record *)


(** ** Plain records *)

(** A string [encodeURIComponent] accepts: its surrogates come in pairs. *)
Definition encodable (s : jsstring) : Prop :=
  exists e, encodeURIComponent s = Ok e.

(** A field that is absent, [null], a boolean, a number or such a string
    (no object, no array), and a raw item all of whose fields are. *)
Definition plainField (v : JsVal) : Prop :=
  match v with
  | JStr s => encodable s
  | JArr _ _ | JObj _ => False
  | _ => True
  end.

Definition plainItem (x : JsVal) : Prop :=
  forall k, plainField (get x k).

(** ** Rendered amounts *)

(** A digit or a decimal point. *)
Definition numericChar (c : N) : bool := isDigit c || (c =? 46)%N.

Definition notComma (c : N) : bool := negb (c =? 44)%N.

(** [n] is the integer nearest to [q], a tie going up. *)
Definition Nearest (n : Z) (q : Q) : Prop :=
  (inject_Z n - (1 # 2) <= q)%Q /\ (q < inject_Z n + (1 # 2))%Q.

(** What the formatter makes of the text [txt] of an amount: nothing when
    the trimmed text is empty, when its digits and points are not a
    finite number, or when they are the number zero; otherwise the rendering of
    the nearest integer, which is the decimal digits of that integer with
    a comma before every group of three counted from the right. *)
Definition AmountRendering (txt out : jsstring) : Prop :=
  let s := trim txt in
  let d := stripNonNumeric s in
  Forall (fun c => numericChar c = true) d /\
  (s = [] -> out = []) /\
  ((forall q, StringToNumber d <> Fin q) -> out = []) /\
  (forall q, StringToNumber d = Fin q -> (q == 0)%Q -> out = []) /\
  (forall q, s <> [] -> StringToNumber d = Fin q -> ~ (q == 0)%Q ->
     exists n,
       Nearest n q /\ 0 <= n /\
       out = toLocaleString n /\
       filter notComma out = decimal n /\
       (forall i, (i < List.length out)%nat ->
                  (nth i (rev out) 0%N = 44%N <-> (i mod 4 = 3)%nat))).

(** ** Parsed documents *)

(** The values [JSON.parse] produces: no [undefined] anywhere and no
    named properties on arrays. *)
Fixpoint isJson (v : JsVal) : bool :=
  match v with
  | JUndef => false
  | JArr es ps =>
      match ps with [] => true | _ :: _ => false end && forallb isJson es
  | JObj ps => forallb (fun p => match p with (_, x) => isJson x end) ps
  | _ => true
  end.

(** Induction on values, with the hypotheses for the elements of an array
    and for the property values of an object or array. *)
Definition JsVal_nested_ind (P : JsVal -> Prop)
  (fundef : P JUndef) (fnull : P JNull)
  (fbool : forall b, P (JBool b)) (fnum : forall z, P (JNum z))
  (fstr : forall s, P (JStr s))
  (farr : forall es ps, Forall P es -> Forall (fun p => P (snd p)) ps -> P (JArr es ps))
  (fobj : forall ps, Forall (fun p => P (snd p)) ps -> P (JObj ps))
  : forall v, P v :=
  fix F (v : JsVal) : P v :=
    let elems := fix G (l : list JsVal) : Forall P l :=
                   match l with
                   | [] => Forall_nil _
                   | x :: r => Forall_cons x (F x) (G r)
                   end in
    let props := fix H (l : list (string * JsVal)) : Forall (fun p => P (snd p)) l :=
                   match l with
                   | [] => Forall_nil _
                   | p :: r => Forall_cons p (F (snd p)) (H r)
                   end in
    match v with
    | JUndef => fundef
    | JNull => fnull
    | JBool b => fbool b
    | JNum z => fnum z
    | JStr s => fstr s
    | JArr es ps => farr es ps (elems es) (props ps)
    | JObj ps => fobj ps (props ps)
    end.

(** ** Pages the handler can work with *)

(** A record that is an object whose property values are plain fields. *)
Definition scalarRecord (x : JsVal) : Prop :=
  exists ps, x = JObj ps /\ Forall (fun p => plainField (snd p)) ps.

(** A parsed page whose envelope can take the merged items, whose
    [totalCount] is absent or a scalar, and whose records are scalar
    records. *)
Definition usablePage (page : JsVal) : Prop :=
  isJson page = true /\
  canAssign (if truthy page then page else JObj []) ["response"; "body"; "items"]
  = true /\
  plainField (get (get (get page "response") "body") "totalCount") /\
  Forall scalarRecord (pickItems page).

(* ====================================================================== *)
(** * Properties *)
(* ====================================================================== *)

(** ** Evaluations of the model *)

Example js_ascii : js "bid" = [98; 105; 100]%N.
Proof. reflexivity. Qed.

Example js_hangul : js "시스템" = [49884; 49828; 53596]%N.
Proof. reflexivity. Qed.

Example decimal_ex : decimal 1234 = js "1234" /\ decimal 0 = js "0" /\ decimal (-7) = js "-7".
Proof. repeat split; reflexivity. Qed.

Example trim_ex : trim (js "  ai  시 ") = js "ai  시".
Proof. reflexivity. Qed.

Example toString_array :
  toString (JArr [JNum 1; JNull; JStr (js "x"); JArr [JNum 2; JNum 3] []] [])
  = Ok (js "1,,x,2,3").
Proof. reflexivity. Qed.

Example number_examples :
  StringToNumber (js " 42 ") = Fin (42 # 1) /\
  StringToNumber (js "1.2.3") = NaN /\
  StringToNumber (js ".") = NaN /\
  StringToNumber (js "") = Fin 0 /\
  StringToNumber (js "0x1F") = Fin (31 # 1) /\
  StringToNumber (js "-Infinity") = NegInf /\
  StringToNumber (js "1e400") = PosInf /\
  StringToNumber (js "12.50") = Fin (1250 # 100) /\
  StringToNumber (js "5e-1") = Fin (5 # 10) /\
  StringToNumber (js "abc") = NaN.
Proof. repeat split; vm_compute; reflexivity. Qed.

Example clampInt_examples :
  clampInt JUndef 100 1 1000 = Ok 100 /\
  clampInt (JStr (js "5000")) 100 1 1000 = Ok 1000 /\
  clampInt (JStr (js "-3")) 1 1 9999 = Ok 1 /\
  clampInt (JStr (js "2.9")) 3 1 10 = Ok 2 /\
  clampInt (JStr (js "Infinity")) 3 1 10 = Ok 3 /\
  clampInt (JStr (js "")) 3 1 10 = Ok 1.
Proof. repeat split; vm_compute; reflexivity. Qed.

Example fmtYmd_examples :
  fmtYmd 0 = js "19700101" /\
  fmtYmd (getNowKstDate 1709251199000) = js "20240301" /\
  fmtYmd (getNowKstDate 1709218799999) = js "20240229" /\
  fmtYmd (-1) = js "19691231" /\
  fmtYmd (fromKst (js "bid") (getNowKstDate 1709251199000)) = js "20240201".
Proof. repeat split; vm_compute; reflexivity. Qed.

(** ** Years and days *)

Lemma DayFromYear_bounds (y : Z) :
  146097 * (y - 1970) - 506 <= 400 * DayFromYear y <= 146097 * (y - 1970) + 589.
Proof.
  unfold DayFromYear.
  pose proof (Z.mul_div_le (y - 1969) 4).
  pose proof (Z.mul_succ_div_gt (y - 1969) 4).
  pose proof (Z.mul_div_le (y - 1901) 100).
  pose proof (Z.mul_succ_div_gt (y - 1901) 100).
  pose proof (Z.mul_div_le (y - 1601) 400).
  pose proof (Z.mul_succ_div_gt (y - 1601) 400).
  generalize dependent ((y - 1969) / 4).
  generalize dependent ((y - 1901) / 100).
  generalize dependent ((y - 1601) / 400).
  intros. lia.
Qed.

Lemma YearFromDay_bracket (d : Z) :
  DayFromYear (YearFromDay d) <= d < DayFromYear (YearFromDay d + 1).
Proof.
  unfold YearFromDay.
  set (y0 := 1970 + d * 400 / 146097).
  assert (Hn : 146097 * (y0 - 1970) <= 400 * d < 146097 * (y0 - 1970) + 146097)
    by (pose proof (Z.mul_div_le (d * 400) 146097);
        pose proof (Z.mul_succ_div_gt (d * 400) 146097); subst y0; lia).
  destruct (Z.leb_spec (DayFromYear (y0 + 1)) d) as [H1|H1].
  - split; [exact H1|].
    pose proof (DayFromYear_bounds (y0 + 1 + 1)). lia.
  - destruct (Z.leb_spec (DayFromYear y0) d) as [H2|H2].
    + split; [exact H2|exact H1].
    + replace (y0 - 1 + 1) with y0 by lia. split; [|exact H2].
      pose proof (DayFromYear_bounds (y0 - 1)). lia.
Qed.

(** ** Evaluations, continued *)

Example encodeURIComponent_examples :
  encodeURIComponent (js "20240101001") = Ok (js "20240101001") /\
  encodeURIComponent (js "a b/c") = Ok (js "a%20b%2Fc") /\
  encodeURIComponent (js "도로") = Ok (js "%EB%8F%84%EB%A1%9C") /\
  encodeURIComponent [55357; 56832]%N = Ok (js "%F0%9F%98%80") /\
  encodeURIComponent [55357]%N = Throw URIError.
Proof. repeat split; vm_compute; reflexivity. Qed.

Example buildUrl_example :
  buildUrl (js "https://h/e")
    [(js "serviceKey", js "k%2B="); (js "type", js "json"); (js "numOfRows", js "100")] 2
  = js "https://h/e?serviceKey=k%252B%3D&type=json&numOfRows=100&pageNo=2".
Proof. vm_compute. reflexivity. Qed.

Example pickItems_shapes :
  let a := JObj [("n", JNum 1)] in
  let b := JObj [("n", JNum 2)] in
  pickItems (envelope (JObj [("item", JArr [a; b] [])])) = [a; b] /\
  pickItems (envelope (JArr [a; b] [])) = [a; b] /\
  pickItems (envelope (JObj [("item", a)])) = [a] /\
  pickItems (envelope (JArr [JObj [("item", JArr [a; b] [])]] [])) = [a; b] /\
  pickItems (envelope (JStr [])) = [] /\
  pickItems (JObj [("items", JArr [a] [])]) = [a] /\
  pickItems JNull = [].
Proof. repeat split; reflexivity. Qed.

Example prettifyAmount_examples :
  prettifyAmount (JStr (js "1,234,000원")) = Ok (js "1,234,000") /\
  prettifyAmount (JStr (js "0")) = Ok [] /\
  prettifyAmount (JStr (js "")) = Ok [] /\
  prettifyAmount (JStr (js "미정")) = Ok [] /\
  prettifyAmount (JStr (js "1.2.3")) = Ok [] /\
  prettifyAmount (JNum 5000000) = Ok (js "5,000,000") /\
  prettifyAmount (JNum (-1234)) = Ok (js "1,234") /\
  prettifyAmount (JStr (js "999.5")) = Ok (js "1,000") /\
  prettifyAmount (JStr (js "0.4")) = Ok (js "0") /\
  prettifyAmount JNull = Ok [].
Proof. repeat split; vm_compute; reflexivity. Qed.

(** ** Paging arithmetic *)

Lemma bind_Ok {A B : Type} (r : result A) (k : A -> result B) (b : B) :
  bind r k = Ok b -> exists a, r = Ok a /\ k a = Ok b.
Proof. destruct r as [a|e]; simpl; intros H; [eauto | discriminate]. Qed.

Lemma clampInt_range (v : JsVal) (def lo hi x : Z) :
  clampInt v def lo hi = Ok x -> lo <= hi -> lo <= x <= hi.
Proof.
  unfold clampInt. intros H Hle.
  apply bind_Ok in H. destruct H as [n [_ H]].
  injection H as <-. lia.
Qed.

(** [ceilDiv a b] is the least integer whose product with [b] reaches [a]. *)
Lemma ceilDiv_spec (a b : Z) :
  0 < b -> (ceilDiv a b - 1) * b < a <= ceilDiv a b * b.
Proof.
  intros Hb. unfold ceilDiv.
  pose proof (Z.mul_div_le (- a) b Hb).
  pose proof (Z.mul_succ_div_gt (- a) b Hb).
  nia.
Qed.

Lemma ceilDiv_unique (a b c : Z) :
  0 < b -> (c - 1) * b < a <= c * b -> c = ceilDiv a b.
Proof.
  intros Hb Hc. pose proof (ceilDiv_spec a b Hb). nia.
Qed.

(** C1.  The page budget.  For a total-count hint read through [toInt]
    and paging inputs produced by [clampInt] with the handler's bounds:
    a positive count gives max(1, min(maxPages, totalPages - (startPage-1)))
    where totalPages is the ceiling of totalCount / rowsPerPage (the
    integer with (totalPages-1)*rows < totalCount <= totalPages*rows); a
    non-positive count, in particular the 0 read from an absent hint,
    gives maxPages.  The three worked examples are the last conjuncts. *)
Theorem pagesToFetch_formula :
  (forall (hint vRows vPage vMax : JsVal) (totalCount rows page maxP : Z),
      toInt hint 0 = Ok totalCount ->
      clampInt vRows 100 1 1000 = Ok rows ->
      clampInt vPage 1 1 9999 = Ok page ->
      clampInt vMax 3 1 10 = Ok maxP ->
      (0 < totalCount ->
       exists totalPages,
         (totalPages - 1) * rows < totalCount <= totalPages * rows /\
         decidePagesToFetch totalCount rows page maxP
         = Z.max 1 (Z.min maxP (totalPages - (page - 1)))) /\
      (totalCount <= 0 -> decidePagesToFetch totalCount rows page maxP = maxP) /\
      (hint = JUndef -> decidePagesToFetch totalCount rows page maxP = maxP)) /\
  decidePagesToFetch 250 100 1 3 = 3 /\
  decidePagesToFetch 50 100 1 3 = 1 /\
  decidePagesToFetch 0 100 1 3 = 3.
Proof.
  split; [|repeat split; reflexivity].
  intros hint vRows vPage vMax totalCount rows page maxP Hh Hr Hp Hm.
  apply clampInt_range in Hr; [|lia].
  assert (Hnonpos : totalCount <= 0 ->
                    decidePagesToFetch totalCount rows page maxP = maxP).
  { intros Hle. unfold decidePagesToFetch.
    destruct (totalCount =? 0) eqn:E0; simpl; [reflexivity|].
    destruct (totalCount <=? 0) eqn:E1; [reflexivity|].
    apply Z.leb_gt in E1. lia. }
  split; [|split].
  - intros Hpos. exists (ceilDiv totalCount rows). split.
    + apply ceilDiv_spec. lia.
    + unfold decidePagesToFetch.
      destruct (totalCount =? 0) eqn:E0; [apply Z.eqb_eq in E0; lia|].
      destruct (totalCount <=? 0) eqn:E1; [apply Z.leb_le in E1; lia|].
      destruct (rows =? 0) eqn:E2; [apply Z.eqb_eq in E2; lia|].
      reflexivity.
  - exact Hnonpos.
  - intros ->. apply Hnonpos. vm_compute in Hh. injection Hh as <-. lia.
Qed.

(** The budget at the handler's defaults with a hint of 250 records. *)
Lemma pagesToFetch_formula_witness :
  (0 < 250 ->
   exists totalPages,
     (totalPages - 1) * 100 < 250 <= totalPages * 100 /\
     decidePagesToFetch 250 100 1 3 = Z.max 1 (Z.min 3 (totalPages - (1 - 1)))) /\
  (250 <= 0 -> decidePagesToFetch 250 100 1 3 = 3) /\
  (JNum 250 = JUndef -> decidePagesToFetch 250 100 1 3 = 3).
Proof.
  apply (proj1 pagesToFetch_formula (JNum 250) JUndef JUndef JUndef 250 100 1 3);
    vm_compute; reflexivity.
Defined.

(** The budget never leaves [1, maxPages]. *)
Lemma pagesToFetch_bounds (totalCount rows page maxP : Z) :
  1 <= maxP -> 1 <= decidePagesToFetch totalCount rows page maxP <= maxP.
Proof.
  intros H. unfold decidePagesToFetch.
  destruct ((totalCount =? 0) || (totalCount <=? 0)); [lia|].
  destruct (rows =? 0); lia.
Qed.

(** It does not decrease with [maxPages] and does not increase with the
    start page. *)
Lemma pagesToFetch_monotone (totalCount rows page page' maxP maxP' : Z) :
  maxP <= maxP' -> page <= page' ->
  decidePagesToFetch totalCount rows page maxP
  <= decidePagesToFetch totalCount rows page maxP' /\
  decidePagesToFetch totalCount rows page' maxP
  <= decidePagesToFetch totalCount rows page maxP.
Proof.
  intros Hm Hp. unfold decidePagesToFetch.
  destruct ((totalCount =? 0) || (totalCount <=? 0)); [lia|].
  destruct (rows =? 0); lia.
Qed.

(** ** The date window *)


Lemma div_step (k c y : Z) :
  0 < k ->
  (y - c * k) / k = (y - c * k - 1) / k + (if y mod k =? 0 then 1 else 0).
Proof.
  intros Hk.
  replace (y - c * k) with (y + (- c) * k) by lia.
  replace (y + (- c) * k - 1) with (y - 1 + (- c) * k) by lia.
  rewrite !Z.div_add by lia.
  pose proof (Z.div_mod y k ltac:(lia)) as E.
  pose proof (Z.mod_pos_bound y k Hk) as B.
  destruct (Z.eqb_spec (y mod k) 0) as [E0|E0].
  - rewrite <- (Z.div_unique (y - 1) k (y / k - 1) (k - 1)); [lia | lia | nia].
  - rewrite <- (Z.div_unique (y - 1) k (y / k) (y mod k - 1)); [lia | lia | nia].
Qed.

Lemma DayFromYear_succ (y : Z) : DayFromYear (y + 1) = DayFromYear y + daysInYear y.
Proof.
  unfold DayFromYear, daysInYear, isLeapYear.
  replace (y + 1 - 1970) with (y - 1970 + 1) by lia.
  replace (y + 1 - 1969) with (y - 492 * 4) by lia.
  replace (y + 1 - 1901) with (y - 19 * 100) by lia.
  replace (y + 1 - 1601) with (y - 4 * 400) by lia.
  rewrite (div_step 4 492), (div_step 100 19), (div_step 400 4) by lia.
  replace (y - 492 * 4 - 1) with (y - 1969) by lia.
  replace (y - 19 * 100 - 1) with (y - 1901) by lia.
  replace (y - 4 * 400 - 1) with (y - 1601) by lia.
  assert (H400 : y mod 400 = 0 -> y mod 100 = 0 /\ y mod 4 = 0).
  { intros H. pose proof (Z.div_mod y 400 ltac:(lia)) as E. rewrite H in E.
    split.
    - replace y with (0 + (4 * (y / 400)) * 100) by lia. apply Z.mod_add. lia.
    - replace y with (0 + (100 * (y / 400)) * 4) by lia. apply Z.mod_add. lia. }
  assert (H100 : y mod 100 = 0 -> y mod 4 = 0).
  { intros H. pose proof (Z.div_mod y 100 ltac:(lia)) as E. rewrite H in E.
    replace y with (0 + (25 * (y / 100)) * 4) by lia. apply Z.mod_add. lia. }
  destruct (Z.eqb_spec (y mod 4) 0) as [E4|E4];
    destruct (Z.eqb_spec (y mod 100) 0) as [E100|E100];
    destruct (Z.eqb_spec (y mod 400) 0) as [E400|E400];
    cbn [andb orb negb]; try lia;
    try (specialize (H400 E400); lia); try (specialize (H100 E100); lia).
Qed.


Ltac eval_monthStart :=
  repeat match goal with
         | |- context [monthStart ?l ?m] =>
             lazymatch m with
             | context [Z.ltb] => fail
             | _ => idtac
             end;
             let v := eval vm_compute in (monthStart l m) in
             change (monthStart l m) with v
         end.

Ltac split_ltb :=
  repeat match goal with
         | |- context [if ?x <? ?y then _ else _] =>
             destruct (Z.ltb_spec x y); cbv iota
         end.


(** The day of the month lies in 1..31 and the month in 1..12. *)
Lemma utcDate_valid (t : Z) :
  1 <= month (utcDate t) <= 12 /\ 1 <= day (utcDate t) <= 31.
Proof.
  unfold utcDate. cbn [month day].
  pose proof (YearFromDay_bracket (Day t)) as [B1 B2].
  rewrite DayFromYear_succ in B2. unfold daysInYear in B2.
  set (dw := Day t - DayFromYear (YearFromDay (Day t))) in *.
  assert (Hdw : 0 <= dw < if isLeapYear (YearFromDay (Day t)) then 366 else 365)
    by (subst dw; lia).
  clearbody dw. unfold monthOfYearDay.
  destruct (isLeapYear (YearFromDay (Day t)));
    eval_monthStart; split_ltb; eval_monthStart; lia.
Qed.






(** ** Inversion of the error monad *)

Ltac inv_bind H :=
  let a := fresh "a" in
  let Ha := fresh "Ha" in
  apply bind_Ok in H; destruct H as [a [Ha H]].

Tactic Notation "bind_inv" hyp(H) "as" ident(a) ident(Ha) :=
  apply bind_Ok in H; destruct H as [a [Ha H]].

Lemma jsstring_eqb_eq (a b : jsstring) : jsstring_eqb a b = true <-> a = b.
Proof.
  unfold jsstring_eqb. destruct (list_eq_dec N.eq_dec a b); split; congruence.
Qed.

Lemma jsstring_eqb_neq (a b : jsstring) : jsstring_eqb a b = false <-> a <> b.
Proof.
  unfold jsstring_eqb. destruct (list_eq_dec N.eq_dec a b); split; congruence.
Qed.

Lemma mapM_length {A B : Type} (f : A -> result B) (l : list A) (l' : list B) :
  mapM f l = Ok l' -> List.length l' = List.length l.
Proof.
  revert l'. induction l as [|x r IH]; simpl; intros l' H.
  - injection H as <-. reflexivity.
  - inv_bind H. inv_bind H. injection H as <-. simpl. f_equal. apply IH. assumption.
Qed.

Lemma filterM_length {A : Type} (f : A -> result bool) (l l' : list A) :
  filterM f l = Ok l' -> (List.length l' <= List.length l)%nat.
Proof.
  revert l'. induction l as [|x r IH]; simpl; intros l' H.
  - injection H as <-. simpl. lia.
  - inv_bind H. inv_bind H. injection H as <-.
    specialize (IH _ Ha0). destruct a; simpl; lia.
Qed.


(** The window of a prepared request is the one read from the clock. *)
Lemma prepare_window (kind : jsstring) (req : Request) (env : Env) (pl : Plan) :
  prepare kind req env = Ok (inr pl) ->
  pl_fromYmd pl = fmtYmd (fromKst kind (getNowKstDate (now env))) /\
  pl_toYmd pl = fmtYmd (getNowKstDate (now env)).
Proof.
  unfold prepare. intros H.
  bind_inv H as qs Hqs. bind_inv H as fs Hfs.
  destruct (DATA_GO_KR_SERVICE_KEY env) as [[|c key]|]; try discriminate.
  bind_inv H as serviceKey Hkey.
  destruct (endpointByKind kind); [|discriminate].
  bind_inv H as rows Hrows. bind_inv H as pageNo HpageNo.
  bind_inv H as maxPages HmaxPages. bind_inv H as bsnsDivCd Hbsns.
  injection H as <-. split; reflexivity.
Qed.

(** The keyword of a prepared request is the trimmed parameter cut to 60
    code units. *)
Lemma prepare_keyword (kind : jsstring) (req : Request) (env : Env) (pl : Plan) :
  prepare kind req env = Ok (inr pl) ->
  exists qs,
    toString (coalesce (param (q_q req)) (JStr [])) = Ok qs /\
    pl_q pl = slice 0 60 (trim qs).
Proof.
  unfold prepare. intros H.
  bind_inv H as qs Hqs. bind_inv H as fs Hfs.
  destruct (DATA_GO_KR_SERVICE_KEY env) as [[|c key]|]; try discriminate.
  bind_inv H as serviceKey Hkey.
  destruct (endpointByKind kind); [|discriminate].
  bind_inv H as rows Hrows. bind_inv H as pageNo HpageNo.
  bind_inv H as maxPages HmaxPages. bind_inv H as bsnsDivCd Hbsns.
  injection H as <-. exists qs. split; [exact Hqs|reflexivity].
Qed.

(** One page of three items, one of them with "도로" in its title: the
    answer holds that item, with 1 matched out of 3 scanned. *)
Example handler_end_to_end :
  exists p,
    handler asciiLower demoParse demoNetwork
      (demoRequest QAbsent (QOne (js "도로"))) demoEnv
    = mkResponse 200 (Success p) /\
    List.length (p_items p) = 1%nat /\
    meta_matchedAfterFilter (p_meta p) = 1%nat /\
    meta_totalItemsParsed (p_meta p) = 3%nat /\
    pagesFetched (p_meta p) = 1 /\
    p_kind p = js "bid" /\
    kstRange (p_meta p) = js "2024-02-01 ~ 2024-03-01" /\
    sourceUrl p = demoFirstUrl.
Proof.
  eexists. split; [vm_compute; reflexivity|]. repeat split.
Qed.

(** ** Kind normalization *)

Section KindProperties.

Variable toLowerCase : jsstring -> jsstring.
Variable JSON_parse : jsstring -> option JsVal.
Variable network : nat -> jsstring -> FetchOutcome.

Lemma normalizeKind_recognized (v : JsVal) (k : jsstring) :
  normalizeKind toLowerCase v = Ok k ->
  k = js "bid" \/ k = js "award" \/ k = js "contract".
Proof.
  unfold normalizeKind. intros H. inv_bind H.
  destruct (jsstring_eqb (trim (toLowerCase a)) (js "bid")) eqn:E1.
  - simpl in H. injection H as <-. left. apply jsstring_eqb_eq. exact E1.
  - destruct (jsstring_eqb (trim (toLowerCase a)) (js "award")) eqn:E2.
    + simpl in H. injection H as <-. right. left. apply jsstring_eqb_eq. exact E2.
    + destruct (jsstring_eqb (trim (toLowerCase a)) (js "contract")) eqn:E3.
      * simpl in H. injection H as <-. right. right. apply jsstring_eqb_eq. exact E3.
      * simpl in H. injection H as <-. left. reflexivity.
Qed.

Lemma endpointByKind_recognized (k : jsstring) :
  k = js "bid" \/ k = js "award" \/ k = js "contract" ->
  endpointByKind k <> None.
Proof. intros [-> | [-> | ->]]; vm_compute; discriminate. Qed.

Lemma prepare_early (kind : jsstring) (req : Request) (env : Env) (r : Response) :
  prepare kind req env = Ok (inl r) ->
  endpointByKind kind <> None ->
  res_status r = 500.
Proof.
  unfold prepare. intros H Hk.
  inv_bind H. inv_bind H.
  destruct (DATA_GO_KR_SERVICE_KEY env) as [[|c key]|].
  - injection H as <-. reflexivity.
  - inv_bind H. destruct (endpointByKind kind); [|congruence].
    inv_bind H. inv_bind H. inv_bind H. inv_bind H. discriminate.
  - injection H as <-. reflexivity.
Qed.

Lemma execute_success (pl : Plan) (r : Response) :
  execute toLowerCase JSON_parse network pl = Ok r ->
  exists mergedRaw totalCount pages ex,
    extractItems toLowerCase mergedRaw (pl_kind pl) (pl_q pl)
      (mkOpts (JBool (pl_filterOn pl)) (JNum 50)) = Ok ex /\
    r = mkResponse 200 (Success
          (mkPayload (pl_kind pl) (pl_q pl)
             (mkMeta totalCount pages (pl_rows pl) (pl_pageNo pl)
                (totalItemsParsed ex) (matchedAfterFilter ex)
                (List.length (items ex)) (pl_filterOn pl)
                (rangeLabel (pl_fromYmd pl) (pl_toYmd pl)))
             (items ex)
             (buildUrl (pl_endpoint pl) (pl_baseParams pl) (pl_pageNo pl)))).
Proof.
  unfold execute. intros H.
  inv_bind H. inv_bind H. inv_bind H. inv_bind H. inv_bind H.
  injection H as <-. eauto 10.
Qed.

(** The handler never answers 400. *)
Lemma handler_never_400 (req : Request) (env : Env) :
  res_status (handler toLowerCase JSON_parse network req env) <> 400.
Proof.
  unfold handler.
  destruct (jsstring_eqb (method req) (js "OPTIONS")); [simpl; lia|].
  destruct (handlerTry toLowerCase JSON_parse network req env) as [r|e] eqn:H;
    [|simpl; lia].
  unfold handlerTry in H. inv_bind H.
  apply normalizeKind_recognized in Ha.
  unfold handleKind in H. inv_bind H. destruct a0 as [early|pl].
  - injection H as <-.
    rewrite (prepare_early _ _ _ _ Ha0 (endpointByKind_recognized _ Ha)). lia.
  - apply execute_success in H. destruct H as (m & t & p & ex & _ & ->). simpl. lia.
Qed.

(** C9.  A [kind] parameter whose lower-cased, trimmed text is none of
    [bid], [award], [contract] is normalized to [bid]: the request is then
    processed exactly as the [try] block processes kind [bid], and the
    handler's answer is not the 400 of an invalid kind. *)
Theorem unknown_kind_defaults_to_bid (req : Request) (env : Env) (s : jsstring) :
  toString (orElse (param (q_kind req)) (JStr (js "bid"))) = Ok s ->
  trim (toLowerCase s) <> js "bid" ->
  trim (toLowerCase s) <> js "award" ->
  trim (toLowerCase s) <> js "contract" ->
  normalizeKind toLowerCase (param (q_kind req)) = Ok (js "bid") /\
  handlerTry toLowerCase JSON_parse network req env
  = handleKind toLowerCase JSON_parse network (js "bid") req env /\
  res_status (handler toLowerCase JSON_parse network req env) <> 400.
Proof.
  intros Hs H1 H2 H3.
  assert (Hn : normalizeKind toLowerCase (param (q_kind req)) = Ok (js "bid")).
  { unfold normalizeKind. rewrite Hs. simpl.
    apply jsstring_eqb_neq in H1, H2, H3. rewrite H1, H2, H3. reflexivity. }
  split; [exact Hn|]. split.
  - unfold handlerTry. rewrite Hn. reflexivity.
  - apply handler_never_400.
Qed.

End KindProperties.

(** An unknown kind in the small world: the answer is the one for [bid]. *)
Lemma unknown_kind_defaults_to_bid_witness :
  normalizeKind asciiLower (param (QOne (js " Tender "))) = Ok (js "bid") /\
  handlerTry asciiLower demoParse demoNetwork
    (demoRequest (QOne (js " Tender ")) QAbsent) demoEnv
  = handleKind asciiLower demoParse demoNetwork (js "bid")
      (demoRequest (QOne (js " Tender ")) QAbsent) demoEnv /\
  res_status (handler asciiLower demoParse demoNetwork
                (demoRequest (QOne (js " Tender ")) QAbsent) demoEnv) <> 400.
Proof.
  apply (unknown_kind_defaults_to_bid asciiLower demoParse demoNetwork
           (demoRequest (QOne (js " Tender ")) QAbsent) demoEnv (js " Tender "));
    [reflexivity | | | ]; vm_compute; intros H; discriminate H.
Defined.

(** ** Counts of the assembled result *)

Section ResultProperties.

Variable toLowerCase : jsstring -> jsstring.
Variable JSON_parse : jsstring -> option JsVal.
Variable network : nat -> jsstring -> FetchOutcome.

Lemma sliceTo_length {A : Type} (limit : Z) (l : list A) :
  0 <= limit ->
  (List.length (sliceTo limit l) <= Z.to_nat limit)%nat /\
  (List.length (sliceTo limit l) <= List.length l)%nat.
Proof.
  intros H. unfold sliceTo.
  destruct (Z.ltb_spec limit 0); [lia|].
  rewrite length_firstn. lia.
Qed.

Lemma prepare_early_body (kind : jsstring) (req : Request) (env : Env) (r : Response) :
  prepare kind req env = Ok (inl r) -> exists msg, res_body r = ErrorBody msg.
Proof.
  unfold prepare. intros H.
  inv_bind H. inv_bind H.
  destruct (DATA_GO_KR_SERVICE_KEY env) as [[|c key]|].
  - injection H as <-. simpl. eauto.
  - inv_bind H. destruct (endpointByKind kind).
    + inv_bind H. inv_bind H. inv_bind H. inv_bind H. discriminate.
    + injection H as <-. simpl. eauto.
  - injection H as <-. simpl. eauto.
Qed.

Lemma extractItems_counts (raw : JsVal) (kind q : jsstring) (fe : JsVal) (ex : Extracted) :
  extractItems toLowerCase raw kind q (mkOpts fe (JNum 50)) = Ok ex ->
  (List.length (items ex) <= matchedAfterFilter ex)%nat /\
  (matchedAfterFilter ex <= totalItemsParsed ex)%nat /\
  (List.length (items ex) <= 50)%nat.
Proof.
  unfold extractItems. cbn [opt_limit opt_filterEnabled].
  change (toInt (JNum 50) 50) with (Ok (A := Z) 50). cbn [bind].
  intros H. inv_bind H. inv_bind H. injection H as <-. cbn [items matchedAfterFilter totalItemsParsed].
  apply mapM_length in Ha0. apply filterM_length in Ha.
  rewrite length_map in Ha.
  destruct (sliceTo_length 50 a ltac:(lia)) as [S1 S2].
  rewrite Ha0. repeat split; [lia | lia |].
  change (Z.to_nat 50) with 50%nat in S1. lia.
Qed.

(** C8.  Whatever the merged upstream document, kind, keyword and filter
    flag, the result assembled with the handler's cap of 50 has
    totalScanned >= totalMatched >= returnedCount and returnedCount <= 50;
    the same holds of the [meta] block of every success response, whose
    [returned] is the length of [items]. *)
Theorem result_counts_ordered :
  (forall (raw : JsVal) (kind q : jsstring) (fe : JsVal) (ex : Extracted),
      extractItems toLowerCase raw kind q (mkOpts fe (JNum 50)) = Ok ex ->
      (totalItemsParsed ex >= matchedAfterFilter ex)%nat /\
      (matchedAfterFilter ex >= List.length (items ex))%nat /\
      (List.length (items ex) <= 50)%nat) /\
  (forall (req : Request) (env : Env) (st : Z) (p : Payload),
      handler toLowerCase JSON_parse network req env = mkResponse st (Success p) ->
      returned (p_meta p) = List.length (p_items p) /\
      (meta_totalItemsParsed (p_meta p) >= meta_matchedAfterFilter (p_meta p))%nat /\
      (meta_matchedAfterFilter (p_meta p) >= returned (p_meta p))%nat /\
      (returned (p_meta p) <= 50)%nat).
Proof.
  split.
  - intros raw kind q fe ex H. apply extractItems_counts in H. lia.
  - intros req env st p H. unfold handler in H.
    destruct (jsstring_eqb (method req) (js "OPTIONS")); [discriminate|].
    destruct (handlerTry toLowerCase JSON_parse network req env) as [r|e] eqn:Ht;
      [subst r|discriminate].
    unfold handlerTry in Ht. inv_bind Ht. unfold handleKind in Ht. inv_bind Ht.
    destruct a0 as [early|pl].
    + injection Ht as ->. apply prepare_early_body in Ha0.
      destruct Ha0 as [msg Hb]. simpl in Hb. discriminate.
    + apply execute_success in Ht. destruct Ht as (m & t & pg & ex & Hex & E).
      injection E as _ ->. cbn [p_meta p_items returned meta_totalItemsParsed
                                 meta_matchedAfterFilter].
      apply extractItems_counts in Hex. lia.
Qed.

End ResultProperties.

(** The counts of the small world's answer to the keyword "도로". *)
Lemma result_counts_ordered_witness :
  exists ex,
    extractItems asciiLower demoPage (js "bid") (js "도로")
      (mkOpts (JBool true) (JNum 50)) = Ok ex /\
    totalItemsParsed ex = 3%nat /\ matchedAfterFilter ex = 1%nat /\
    List.length (items ex) = 1%nat /\
    (totalItemsParsed ex >= matchedAfterFilter ex)%nat /\
    (matchedAfterFilter ex >= List.length (items ex))%nat /\
    (List.length (items ex) <= 50)%nat.
Proof.
  destruct (extractItems asciiLower demoPage (js "bid") (js "도로")
              (mkOpts (JBool true) (JNum 50))) as [ex|e] eqn:E;
    [|vm_compute in E; discriminate E].
  exists ex. split; [reflexivity|].
  assert (C : totalItemsParsed ex = 3%nat /\ matchedAfterFilter ex = 1%nat /\
              List.length (items ex) = 1%nat).
  { vm_compute in E. injection E as <-. repeat split; reflexivity. }
  destruct C as (C1 & C2 & C3). split; [exact C1|]. split; [exact C2|].
  split; [exact C3|].
  exact (proj1 (result_counts_ordered asciiLower demoParse demoNetwork)
               demoPage (js "bid") (js "도로") (JBool true) ex E).
Defined.

(** ** Upstream failures *)

Section UpstreamFailure.

Variable toLowerCase : jsstring -> jsstring.
Variable JSON_parse : jsstring -> option JsVal.
Variable network : nat -> jsstring -> FetchOutcome.

Let fetchPage := fetchJsonUpstream JSON_parse network.
Let handle := handler toLowerCase JSON_parse network.






End UpstreamFailure.



(** ** Merging the pages *)

Lemma lookup_assign (k : string) (x : JsVal) (ps : list (string * JsVal)) :
  lookup k (assign k x ps) = Some x.
Proof.
  induction ps as [|[k' v] r IH]; simpl.
  - rewrite String.eqb_refl. reflexivity.
  - destruct (String.eqb k k') eqn:E; simpl.
    + rewrite String.eqb_refl. reflexivity.
    + rewrite E. exact IH.
Qed.

Lemma set_ok (o : JsVal) (k : string) (x : JsVal) :
  isObjectLike o = true ->
  exists o', set o k x = Ok o' /\ get o' k = x /\ isObjectLike o' = true.
Proof.
  destruct o; try discriminate; intros _; simpl;
    eexists; (split; [reflexivity|]); simpl; rewrite lookup_assign; auto.
Qed.

Lemma set_fail (o : JsVal) (k : string) (x : JsVal) :
  isObjectLike o = false -> set o k x = Throw TypeError.
Proof. destruct o; try discriminate; reflexivity. Qed.

Lemma get_primitive (o : JsVal) (k : string) :
  isObjectLike o = false -> get o k = JUndef.
Proof. destruct o; try discriminate; reflexivity. Qed.

Lemma ensureObject_ok (o : JsVal) (k : string) :
  isObjectLike o = true ->
  exists o', ensureObject o k = Ok o' /\ get o' k = childOrFresh o k /\
             isObjectLike o' = true.
Proof.
  intros H. unfold ensureObject, childOrFresh.
  destruct (truthy (get o k)).
  - exists o. auto.
  - apply set_ok. exact H.
Qed.

Lemma ensureObject_fail (o : JsVal) (k : string) :
  isObjectLike o = false -> ensureObject o k = Throw TypeError.
Proof.
  intros H. unfold ensureObject. rewrite (get_primitive o k H). simpl.
  apply set_fail. exact H.
Qed.

Lemma pickItems_stored (m : JsVal) (l : list JsVal) :
  storedItems m = JArr l [] -> pickItems m = unwrapSingle l.
Proof.
  unfold storedItems, pickItems. intros ->. reflexivity.
Qed.

(** C3 (as the code has it).  The merge succeeds exactly when the clone of
    the first envelope can take the assignments along
    [response.body.items]; the merged document then stores, at
    [response.body.items.item], the concatenation of the items extracted
    from each page, page 1 first, in order.  Extracting again from the
    merged document yields that concatenation, except that a
    concatenation made of one truthy element with an array-valued [item]
    is unwrapped once more into that array. *)
Theorem merge_concatenates_pages (pages : list JsVal) :
  let merged := flat_map pickItems pages in
  (canAssign (mergeBase pages) ["response"; "body"; "items"] = true ->
   exists m,
     mergeResponses pages = Ok m /\
     storedItems m = JArr merged [] /\
     pickItems m = unwrapSingle merged /\
     ((forall x, merged = [x] -> truthy x = true -> isArray (get x "item") = false) ->
      pickItems m = merged)) /\
  (canAssign (mergeBase pages) ["response"; "body"; "items"] = false ->
   mergeResponses pages = Throw TypeError).
Proof.
  intros merged. unfold mergeResponses. fold (mergeBase pages). fold merged.
  cbn [canAssign].
  destruct (isObjectLike (mergeBase pages)) eqn:O0;
    [|split; [discriminate | intros _; rewrite ensureObject_fail by exact O0; reflexivity]].
  destruct (ensureObject_ok _ "response" O0) as (m1 & -> & G1 & M1). cbn [bind].
  rewrite G1. set (c1 := childOrFresh (mergeBase pages) "response").
  destruct (isObjectLike c1) eqn:O1;
    [|split; [discriminate | intros _; rewrite ensureObject_fail by exact O1; reflexivity]].
  destruct (ensureObject_ok _ "body" O1) as (r2 & -> & G2 & R2). cbn [bind].
  rewrite G2. set (c2 := childOrFresh c1 "body").
  destruct (isObjectLike c2) eqn:O2;
    [|split; [discriminate | intros _; rewrite ensureObject_fail by exact O2; reflexivity]].
  destruct (ensureObject_ok _ "items" O2) as (b2 & -> & G3 & B2). cbn [bind].
  rewrite G3. set (c3 := childOrFresh c2 "items").
  destruct (isObjectLike c3) eqn:O3;
    [|split; [discriminate | intros _; rewrite set_fail by exact O3; reflexivity]].
  destruct (set_ok c3 "item" (JArr merged []) O3) as (it2 & -> & G4 & _). cbn [bind].
  destruct (set_ok b2 "items" it2 B2) as (b3 & -> & G5 & _). cbn [bind].
  destruct (set_ok r2 "body" b3 R2) as (r3 & -> & G6 & _). cbn [bind].
  destruct (set_ok m1 "response" r3 M1) as (m & -> & G7 & _).
  split; [|discriminate].
  intros _. exists m.
  assert (S : storedItems m = JArr merged []).
  { unfold storedItems. rewrite G7, G6, G5, G4. reflexivity. }
  split; [reflexivity|]. split; [exact S|].
  split; [apply pickItems_stored; exact S|].
  intros Hsingle. rewrite (pickItems_stored _ _ S).
  unfold unwrapSingle. destruct merged as [|x [|y r]]; try reflexivity.
  destruct (truthy x) eqn:T; [|reflexivity].
  specialize (Hsingle x eq_refl T).
  destruct (get x "item"); try reflexivity. discriminate.
Qed.

(** C3, as stated, fails: the items extracted from [nestedPage] are the
    one container, but extracting again from the merged document yields
    the container's two records. *)
Lemma reextraction_unwraps_again :
  exists m,
    mergeResponses [nestedPage] = Ok m /\
    flat_map pickItems [nestedPage]
    = [JObj [("item", JArr [JObj [("n", JNum 1)]; JObj [("n", JNum 2)]] [])]] /\
    pickItems m = [JObj [("n", JNum 1)]; JObj [("n", JNum 2)]] /\
    pickItems m <> flat_map pickItems [nestedPage].
Proof.
  eexists. split; [vm_compute; reflexivity|].
  split; [reflexivity|]. split; [reflexivity|].
  vm_compute. intros H. discriminate H.
Qed.

(** A first envelope that is a string, or whose [items] is a non-empty
    string, cannot take the assignments: the merge throws. *)
Example merge_throws_on_primitive :
  mergeResponses [JStr (js "x")] = Throw TypeError /\
  mergeResponses [envelope (JStr (js "none")); demoPage] = Throw TypeError /\
  canAssign (mergeBase [envelope (JStr (js "none")); demoPage])
    ["response"; "body"; "items"] = false.
Proof. repeat split; reflexivity. Qed.

(** The merge of the small world's page with a second, single-item page. *)
Lemma merge_concatenates_pages_witness :
  exists m,
    mergeResponses [demoPage; envelope (JObj [("item", JObj [("n", JNum 4)])])] = Ok m /\
    storedItems m = JArr (demoItems ++ [JObj [("n", JNum 4)]]) [] /\
    pickItems m = demoItems ++ [JObj [("n", JNum 4)]].
Proof.
  destruct (proj1 (merge_concatenates_pages
                     [demoPage; envelope (JObj [("item", JObj [("n", JNum 4)])])])
              eq_refl) as (m & Hm & Hs & Hp & _).
  exists m. split; [exact Hm|]. split; [exact Hs|]. exact Hp.
Defined.

(** ** The keyword filter *)

Lemma startsWith_spec (s t : jsstring) :
  startsWith s t = true <-> exists r, s = t ++ r.
Proof.
  revert s. induction t as [|x t IH]; intros s.
  - destruct s; simpl; split; eauto.
  - destruct s as [|y s]; simpl.
    + split; [discriminate | intros [r H]; discriminate].
    + rewrite andb_true_iff, N.eqb_eq, IH. split.
      * intros [-> [r ->]]. eauto.
      * intros [r H]. injection H as -> ->. eauto.
Qed.

Lemma includes_spec (s t : jsstring) :
  includes s t = true <-> Substring t s.
Proof.
  unfold Substring. induction s as [|c s IH].
  - cbn [includes]. rewrite orb_false_r. split.
    + intros H. apply startsWith_spec in H. destruct H as [r H].
      exists [], r. exact H.
    + intros [l [r H]]. apply startsWith_spec.
      destruct l; [eauto|discriminate].
  - cbn [includes]. rewrite orb_true_iff. split.
    + intros [H | H].
      * apply startsWith_spec in H. destruct H as [r H]. exists [], r. exact H.
      * apply IH in H. destruct H as [l [r H]].
        exists (c :: l), r. simpl. f_equal. exact H.
    + intros [l [r H]]. destruct l as [|c' l].
      * left. apply startsWith_spec. exists r. exact H.
      * right. apply IH. simpl in H. injection H as _ H. eauto.
Qed.

Lemma includes_empty (s : jsstring) : includes s [] = true.
Proof. destruct s; reflexivity. Qed.

Section FilterProperties.

Variable toLowerCase : jsstring -> jsstring.

(** Lower-casing the empty string gives the empty string. *)
Hypothesis toLowerCase_empty : toLowerCase [] = [].

Lemma passes_text (qlc : jsstring) (m : Mapped) (ts os : jsstring) :
  matchText (m_title m) = Ok ts ->
  matchText (m_org m) = Ok os ->
  passes toLowerCase true qlc m
  = Ok (includes (toLowerCase ts) qlc || includes (toLowerCase os) qlc).
Proof.
  unfold matchText, passes, hasQ. intros Ht Ho. cbn [negb].
  destruct qlc as [|c qlc].
  - cbn [bind]. rewrite !includes_empty. reflexivity.
  - rewrite Ht, Ho. cbn [bind].
    destruct (includes (toLowerCase ts) (c :: qlc)); reflexivity.
Qed.

Lemma passes_all (filterOn : bool) (qlc : jsstring) (m : Mapped) :
  filterOn = false \/ qlc = [] -> passes toLowerCase filterOn qlc m = Ok true.
Proof.
  unfold passes, hasQ. intros [-> | ->]; [reflexivity|].
  destruct filterOn; reflexivity.
Qed.

Lemma filterM_all {A : Type} (f : A -> result bool) (l : list A) :
  (forall x, In x l -> f x = Ok true) -> filterM f l = Ok l.
Proof.
  induction l as [|x r IH]; intros H; simpl; [reflexivity|].
  rewrite (H x (or_introl eq_refl)). cbn [bind].
  rewrite IH by (intros y Hy; apply H; right; exact Hy). reflexivity.
Qed.

Lemma filterM_filter {A : Type} (f : A -> result bool) (l : list A) :
  (forall x, In x l -> exists b, f x = Ok b) ->
  filterM f l
  = Ok (filter (fun x => match f x with Ok b => b | Throw _ => false end) l).
Proof.
  induction l as [|x r IH]; intros H; simpl; [reflexivity|].
  destruct (H x (or_introl eq_refl)) as [b Hb]. rewrite Hb. cbn [bind].
  rewrite IH by (intros y Hy; apply H; right; exact Hy). reflexivity.
Qed.

(** C5 (as the code has it).  The keyword is the trimmed parameter cut to
    60 code units; the filter compares with it lower-cased and trimmed
    again ([qlc]).  With the filter disabled or the keyword empty every
    record of every list passes.  With the filter enabled and a non-empty
    keyword, a record passes if and only if [qlc] occurs in the
    lower-cased title text or in the lower-cased organization text, and
    the filtered list keeps, in order, exactly the records that pass. *)
Theorem keyword_filter_spec (qRaw : jsstring) :
  let q := slice 0 60 (trim qRaw) in
  let qlc := trim (toLowerCase q) in
  (forall (filterOn : bool) (mapped : list Mapped),
      filterOn = false \/ q = [] ->
      filterM (passes toLowerCase filterOn qlc) mapped = Ok mapped) /\
  (forall (m : Mapped) (ts os : jsstring),
      q <> [] ->
      matchText (m_title m) = Ok ts ->
      matchText (m_org m) = Ok os ->
      exists b,
        passes toLowerCase true qlc m = Ok b /\
        (b = true <->
         Substring qlc (toLowerCase ts) \/ Substring qlc (toLowerCase os))) /\
  (forall (mapped : list Mapped),
      Forall (fun m => exists ts os, matchText (m_title m) = Ok ts /\
                                     matchText (m_org m) = Ok os) mapped ->
      filterM (passes toLowerCase true qlc) mapped
      = Ok (filter (fun m => match passes toLowerCase true qlc m with
                             | Ok b => b
                             | Throw _ => false
                             end) mapped)).
Proof.
  intros q qlc. split; [|split].
  - intros filterOn mapped H. apply filterM_all. intros m _.
    apply passes_all. destruct H as [H|H]; [left; exact H|right].
    unfold qlc. rewrite H, toLowerCase_empty. reflexivity.
  - intros m ts os _ Ht Ho.
    exists (includes (toLowerCase ts) qlc || includes (toLowerCase os) qlc).
    split; [apply passes_text; assumption|].
    rewrite orb_true_iff, !includes_spec. reflexivity.
  - intros mapped H. apply filterM_filter. intros m Hm.
    rewrite Forall_forall in H. destruct (H m Hm) as (ts & os & Ht & Ho).
    rewrite (passes_text qlc m ts os Ht Ho). eauto.
Qed.


End FilterProperties.

(** The filter on that record, for the keywords of the specification. *)
Example keyword_filter_examples :
  let qlc (raw : string) := trim (asciiLower (slice 0 60 (trim (js raw)))) in
  passes asciiLower true (qlc "ai") aiRecord = Ok true /\
  passes asciiLower true (qlc "시스템") aiRecord = Ok true /\
  passes asciiLower true (qlc "ai구축2") aiRecord = Ok false /\
  passes asciiLower true (qlc " Ai ") aiRecord = Ok true /\
  passes asciiLower false (qlc "ai구축2") aiRecord = Ok true /\
  passes asciiLower true (qlc "") aiRecord = Ok true.
Proof. repeat split; vm_compute; reflexivity. Qed.

Lemma keyword_filter_spec_witness :
  (forall (filterOn : bool) (mapped : list Mapped),
      filterOn = false \/ slice 0 60 (trim (js " AI ")) = [] ->
      filterM (passes asciiLower filterOn
                 (trim (asciiLower (slice 0 60 (trim (js " AI ")))))) mapped
      = Ok mapped) /\
  (exists b,
      passes asciiLower true (trim (asciiLower (slice 0 60 (trim (js " AI ")))))
        aiRecord = Ok b /\
      (b = true <->
       Substring (trim (asciiLower (slice 0 60 (trim (js " AI ")))))
         (asciiLower (js "AI 시스템 구축")) \/
       Substring (trim (asciiLower (slice 0 60 (trim (js " AI ")))))
         (asciiLower (js "조달청")))).
Proof.
  destruct (keyword_filter_spec asciiLower eq_refl (js " AI ")) as [A [B _]].
  split; [exact A|].
  apply (B aiRecord (js "AI 시스템 구축") (js "조달청"));
    [vm_compute; intros H; discriminate H | reflexivity | reflexivity].
Defined.

(** C5, as stated, fails: the keyword cut to 60 code units ends in
    spaces; lower-cased it occurs neither in the title "a" nor in the
    empty organization of the record, which passes all the same. *)
Lemma truncated_keyword_is_trimmed_again :
  let q := slice 0 60 (trim paddedKeyword) in
  let m := mapItem (js "bid") (JObj [field "bidNtceNm" "a"]) in
  q = js "a" ++ repeat 32%N 59 /\
  q <> [] /\
  matchText (m_title m) = Ok (js "a") /\
  matchText (m_org m) = Ok [] /\
  includes (asciiLower (js "a")) (asciiLower q) = false /\
  includes (asciiLower []) (asciiLower q) = false /\
  passes asciiLower true (trim (asciiLower q)) m = Ok true.
Proof.
  repeat split; try (vm_compute; reflexivity).
  vm_compute. intros H. discriminate H.
Qed.


Example untitled_passes_on_placeholder :
  passes asciiLower true (trim (asciiLower (js "TITLE")))
    (mapItem (js "bid") (JObj [field "ntceInsttNm" "부산광역시"])) = Ok true.
Proof. vm_compute. reflexivity. Qed.

(** ** Links *)

Lemma mapM_In {A B : Type} (f : A -> result B) (l : list A) (l' : list B) (y : B) :
  mapM f l = Ok l' -> In y l' -> exists x, In x l /\ f x = Ok y.
Proof.
  revert l'. induction l as [|a r IH]; simpl; intros l' H Hy.
  - injection H as <-. destruct Hy.
  - bind_inv H as b Hb. bind_inv H as bs Hbs. injection H as <-.
    destruct Hy as [<-|Hy]; [eauto|].
    destruct (IH _ Hbs Hy) as [x [Hx Hf]]. eauto.
Qed.

Lemma filterM_In {A : Type} (f : A -> result bool) (l l' : list A) (x : A) :
  filterM f l = Ok l' -> In x l' -> In x l.
Proof.
  revert l'. induction l as [|a r IH]; simpl; intros l' H Hx.
  - injection H as <-. destruct Hx.
  - bind_inv H as b Hb. bind_inv H as ys Hys. injection H as <-.
    destruct b; [destruct Hx as [<-|Hx]|]; eauto.
Qed.

Lemma firstn_In {A : Type} (n : nat) (l : list A) (x : A) :
  In x (firstn n l) -> In x l.
Proof.
  intros H. rewrite <- (firstn_skipn n l). apply in_or_app. left. exact H.
Qed.

Lemma sliceTo_In {A : Type} (limit : Z) (l : list A) (x : A) :
  In x (sliceTo limit l) -> In x l.
Proof. unfold sliceTo. destruct (limit <? 0); apply firstn_In. Qed.



Section LinkProperties.

Variable toLowerCase : jsstring -> jsstring.


End LinkProperties.


(** ** Amounts *)

Lemma numericChar_bounds (c : N) : numericChar c = true -> (46 <= c <= 57)%N.
Proof.
  unfold numericChar, isDigit. rewrite orb_true_iff, andb_true_iff.
  rewrite !N.leb_le, N.eqb_eq. lia.
Qed.

Lemma numericChar_not_space (c : N) : numericChar c = true -> isWhiteSpace c = false.
Proof.
  intros H. apply numericChar_bounds in H. unfold isWhiteSpace.
  assert (E1 : (c <=? 13)%N = false) by (apply N.leb_gt; lia).
  assert (E2 : (8192 <=? c)%N = false) by (apply N.leb_gt; lia).
  rewrite E1, E2, andb_false_r. cbn [orb andb].
  repeat match goal with
         | |- context [(c =? ?k)%N] =>
             replace (c =? k)%N with false by (symmetry; apply N.eqb_neq; lia)
         end.
  reflexivity.
Qed.

Lemma trimStart_id (s : jsstring) :
  Forall (fun c => isWhiteSpace c = false) s -> trimStart s = s.
Proof. intros H. destruct H as [|c r Hc _]; simpl; [|rewrite Hc]; reflexivity. Qed.

Lemma trim_id (s : jsstring) :
  Forall (fun c => isWhiteSpace c = false) s -> trim s = s.
Proof.
  intros H. unfold trim, trimEnd. rewrite (trimStart_id s H).
  rewrite trimStart_id; [apply rev_involutive|].
  apply Forall_forall. intros c Hc. apply in_rev in Hc.
  rewrite Forall_forall in H. auto.
Qed.

Lemma stripNonNumeric_numeric (s : jsstring) :
  Forall (fun c => numericChar c = true) (stripNonNumeric s).
Proof.
  apply Forall_forall. intros c Hc. unfold stripNonNumeric in Hc.
  apply filter_In in Hc. exact (proj2 Hc).
Qed.

Lemma span_fst (p : N -> bool) (s : jsstring) :
  Forall (fun c => p c = true) (fst (span p s)).
Proof.
  induction s as [|c r IH]; simpl; [constructor|].
  destruct (p c) eqn:E; [|constructor].
  destruct (span p r) as [a b]. simpl in *. constructor; assumption.
Qed.

Lemma digitsValue_nonneg (ds : jsstring) :
  Forall (fun c => isDigit c = true) ds -> 0 <= digitsValue 10 decDigit ds.
Proof.
  unfold digitsValue. intros H.
  assert (G : forall acc, 0 <= acc ->
                0 <= fold_left (fun a c => a * 10 + decDigit c) ds acc).
  { induction H as [|c r Hc _ IH]; intros acc Hacc; simpl; [exact Hacc|].
    apply IH. unfold isDigit in Hc. rewrite andb_true_iff, !N.leb_le in Hc.
    unfold decDigit. lia. }
  apply G. lia.
Qed.

Lemma scale10_nonneg (n e : Z) : 0 <= n -> (0 <= scale10 n e)%Q.
Proof.
  intros H. unfold scale10, Qle. destruct (0 <=? e) eqn:E; cbn [Qnum Qden].
  - apply Z.leb_le in E. pose proof (Z.pow_nonneg 10 e ltac:(lia)). nia.
  - lia.
Qed.

Lemma parseUnsignedDecimal_nonneg (s : jsstring) (q : Q) :
  parseUnsignedDecimal s = Some q -> (0 <= q)%Q.
Proof.
  unfold parseUnsignedDecimal.
  pose proof (span_fst isDigit s) as Hip.
  destruct (span isDigit s) as [ip r1]. cbn [fst] in Hip.
  assert (Hfp : forall fp r2,
             (match r1 with
              | 46%N :: r => span isDigit r
              | _ => ([], r1)
              end) = (fp, r2) -> Forall (fun c => isDigit c = true) fp).
  { intros fp r2 E. destruct r1 as [|c r]; [injection E as <- _; constructor|].
    destruct (N.eq_dec c 46) as [->|Hc].
    - pose proof (span_fst isDigit r) as Hr. rewrite E in Hr. exact Hr.
    - assert (E' : ([], c :: r) = (fp, r2)).
      { rewrite <- E. clear E.
        destruct c as [|p]; [reflexivity|].
        do 6 (destruct p as [p|p|]; try reflexivity). congruence. }
      injection E' as <- _. constructor. }
  destruct (match r1 with
            | 46%N :: r => span isDigit r
            | _ => ([], r1)
            end) as [fp r2] eqn:E.
  specialize (Hfp fp r2 eq_refl).
  destruct (ip ++ fp) as [|d ds] eqn:Eds; [discriminate|].
  destruct (parseExponent r2); [|discriminate].
  intros H. injection H as <-. apply scale10_nonneg, digitsValue_nonneg.
  rewrite <- Eds. apply Forall_app. split; assumption.
Qed.

Lemma classify_nonneg (q0 q : Q) :
  (0 <= q0)%Q -> classify q0 = Fin q -> (0 <= q)%Q.
Proof.
  unfold classify. intros H0.
  destruct (Qle_bool _ q0); [discriminate|].
  destruct (Qle_bool q0 _); [discriminate|].
  destruct (Qle_bool (Qabs q0) _); intros H; injection H as <-;
    [apply Qle_refl | exact H0].
Qed.

(** On digits and points the conversion reads an unsigned decimal. *)
Lemma StringToNumber_numeric (d : jsstring) :
  Forall (fun c => numericChar c = true) d ->
  StringToNumber d = match d with
                     | [] => Fin 0
                     | _ => signedLiteral false d
                     end.
Proof.
  intros H. unfold StringToNumber.
  rewrite trim_id
    by (eapply Forall_impl; [|exact H]; intros c; apply numericChar_not_space).
  destruct d as [|c r]; [reflexivity|].
  inversion H as [|c' r' Hc Hr]; subst.
  apply numericChar_bounds in Hc.
  assert (P : radixPrefix (c :: r) = None).
  { destruct r as [|c1 r1]; [reflexivity|].
    inversion Hr as [|c'' r'' Hc1 _]; subst. apply numericChar_bounds in Hc1.
    unfold radixPrefix. destruct (c =? 48)%N; [|reflexivity].
    repeat match goal with
           | |- context [(c1 =? ?k)%N] =>
               replace (c1 =? k)%N with false by (symmetry; apply N.eqb_neq; lia)
           end.
    reflexivity. }
  rewrite P.
  replace (c =? 43)%N with false by (symmetry; apply N.eqb_neq; lia).
  replace (c =? 45)%N with false by (symmetry; apply N.eqb_neq; lia).
  reflexivity.
Qed.

Lemma StringToNumber_numeric_nonneg (d : jsstring) (q : Q) :
  Forall (fun c => numericChar c = true) d ->
  StringToNumber d = Fin q -> (0 <= q)%Q.
Proof.
  intros H. rewrite (StringToNumber_numeric d H).
  destruct d as [|c r]; [intros E; injection E as <-; apply Qle_refl|].
  unfold signedLiteral.
  destruct (jsstring_eqb (c :: r) (js "Infinity")); [discriminate|].
  destruct (parseUnsignedDecimal (c :: r)) as [q0|] eqn:P; [|discriminate].
  apply classify_nonneg. eapply parseUnsignedDecimal_nonneg. exact P.
Qed.

Lemma mathRound_nearest (q : Q) : Nearest (mathRound q) q.
Proof.
  unfold Nearest, mathRound.
  pose proof (Qfloor_le (q + (1 # 2))) as L.
  pose proof (Qlt_floor (q + (1 # 2))) as U.
  set (n := Qfloor (q + (1 # 2))) in *. clearbody n.
  rewrite inject_Z_plus in U.
  split.
  - apply (Qplus_le_l _ _ (1 # 2)). ring_simplify. ring_simplify in L. exact L.
  - apply (Qplus_lt_l _ _ (1 # 2)). ring_simplify. ring_simplify in U.
    eapply Qlt_le_trans; [exact U|]. apply Qle_refl.
Qed.

Lemma mathRound_nonneg (q : Q) : (0 <= q)%Q -> 0 <= mathRound q.
Proof.
  intros H. unfold mathRound.
  change 0 with (Qfloor 0). apply Qfloor_resp_le.
  apply (Qle_trans _ q); [exact H|].
  rewrite <- (Qplus_0_r q) at 1. apply Qplus_le_r. discriminate.
Qed.

Lemma string_of_uint_digits (d : Decimal.uint) :
  Forall (fun a => isDigit (N_of_ascii a) = true)
         (list_ascii_of_string (NilEmpty.string_of_uint d)).
Proof.
  induction d; simpl; constructor; auto.
Qed.

Lemma utf8_points_ascii (bs : list N) :
  Forall (fun b => (b < 128)%N) bs ->
  forall fuel, (List.length bs <= fuel)%nat ->
               flat_map utf16_units (utf8_points fuel bs) = bs.
Proof.
  induction 1 as [|b r Hb _ IH]; intros fuel Hf.
  - destruct fuel; reflexivity.
  - destruct fuel as [|fuel]; [simpl in Hf; lia|].
    cbn [utf8_points]. replace (b <? 128)%N with true by (symmetry; apply N.ltb_lt; exact Hb).
    cbn [flat_map]. unfold utf16_units at 1.
    replace (b <? 65536)%N with true by (symmetry; apply N.ltb_lt; lia).
    cbn [app]. f_equal. apply IH. simpl in Hf. lia.
Qed.

Lemma decimal_digits (n : Z) :
  0 <= n -> Forall (fun c => isDigit c = true) (decimal n).
Proof.
  intros Hn. unfold decimal, js.
  assert (D : Forall (fun a => isDigit (N_of_ascii a) = true)
                (list_ascii_of_string (NilEmpty.string_of_int (Z.to_int n)))).
  { destruct n as [|p|p]; [| |lia]; apply string_of_uint_digits. }
  set (l := list_ascii_of_string (NilEmpty.string_of_int (Z.to_int n))) in *.
  clearbody l.
  assert (M : Forall (fun c => isDigit c = true) (map N_of_ascii l)).
  { apply Forall_forall. intros c Hc. apply in_map_iff in Hc.
    destruct Hc as [a [<- Ha]]. rewrite Forall_forall in D. auto. }
  rewrite utf8_points_ascii; [exact M | | lia].
  eapply Forall_impl; [|exact M]. intros c Hc. cbv beta in Hc.
  unfold isDigit in Hc. rewrite andb_true_iff, !N.leb_le in Hc. lia.
Qed.

Lemma insertCommas_digits (r : jsstring) :
  forall k, filter notComma (insertCommas k r) = filter notComma r.
Proof.
  induction r as [|c r IH]; intros k; [reflexivity|].
  destruct k as [|[|[|[|k]]]]; cbn [insertCommas filter];
    rewrite IH; reflexivity.
Qed.

Lemma filter_notComma_digits (s : jsstring) :
  Forall (fun c => isDigit c = true) s -> filter notComma s = s.
Proof.
  induction 1 as [|c r Hc _ IH]; [reflexivity|].
  cbn [filter]. rewrite IH.
  unfold isDigit in Hc. rewrite andb_true_iff, !N.leb_le in Hc.
  unfold notComma. replace (c =? 44)%N with false by (symmetry; apply N.eqb_neq; lia).
  reflexivity.
Qed.

(** Removing the commas of a rendering leaves the decimal digits. *)
Lemma toLocaleString_digits (n : Z) :
  0 <= n -> filter notComma (toLocaleString n) = decimal n.
Proof.
  intros Hn. unfold toLocaleString.
  rewrite filter_rev, insertCommas_digits, <- filter_rev, rev_involutive.
  apply filter_notComma_digits, decimal_digits. exact Hn.
Qed.

(** Counted from the right, the commas of a rendering sit exactly at the
    positions 3, 7, 11, ... *)
Lemma insertCommas_positions (r : jsstring) :
  Forall (fun c => c <> 44%N) r ->
  forall (k i : nat),
    (k <= 3)%nat -> (i < List.length (insertCommas k r))%nat ->
    (nth i (insertCommas k r) 0%N = 44%N <-> ((i + k) mod 4 = 3)%nat).
Proof.
  induction 1 as [|c r Hc _ IH]; intros k i Hk Hi; [simpl in Hi; lia|].
  destruct (Nat.eq_dec k 3) as [->|Hk3].
  - cbn [insertCommas] in *. destruct i as [|[|i]].
    + simpl. split; reflexivity.
    + simpl. split; [intros E; congruence | intros E; discriminate E].
    + cbn [nth]. cbn [List.length] in Hi. rewrite IH by lia.
      replace (S (S i) + 3)%nat with (i + 1 + 1 * 4)%nat by lia.
      rewrite Nat.Div0.mod_add. reflexivity.
  - assert (E : insertCommas k (c :: r) = c :: insertCommas (S k) r)
      by (destruct k as [|[|[|k]]]; try reflexivity; lia).
    rewrite E in *. destruct i as [|i].
    + cbn [nth]. rewrite Nat.add_0_l, Nat.mod_small by lia.
      split; [intros E'; congruence | lia].
    + cbn [nth]. cbn [List.length] in Hi. rewrite IH by lia.
      replace (S i + k)%nat with (i + S k)%nat by lia. reflexivity.
Qed.

Lemma prettifyAmount_text (v : JsVal) (txt : jsstring) :
  toString (coalesce v (JStr [])) = Ok txt ->
  exists out, prettifyAmount v = Ok out /\ AmountRendering txt out.
Proof.
  intros Ht. unfold prettifyAmount, AmountRendering. rewrite Ht. cbn [bind].
  pose proof (stripNonNumeric_numeric (trim txt)) as Hd.
  destruct (trim txt) as [|c s] eqn:Es.
  - exists []. split; [reflexivity|]. split; [exact Hd|].
    repeat split; try reflexivity. intros q Hne. congruence.
  - destruct (StringToNumber (stripNonNumeric (c :: s))) as [| | |num] eqn:En.
    + exists []. split; [reflexivity|]. split; [exact Hd|].
      repeat split; try reflexivity; intros; discriminate.
    + exists []. split; [reflexivity|]. split; [exact Hd|].
      repeat split; try reflexivity; intros; discriminate.
    + exists []. split; [reflexivity|]. split; [exact Hd|].
      repeat split; try reflexivity; intros; discriminate.
    + unfold isZero. destruct (Qeq_bool num 0) eqn:Ez.
      * exists []. split; [reflexivity|]. split; [exact Hd|].
        split; [reflexivity|]. split; [reflexivity|]. split; [reflexivity|].
        intros q _ E Hq. injection E as <-.
        apply Qeq_bool_iff in Ez. contradiction.
      * exists (toLocaleString (mathRound num)). split; [reflexivity|].
        split; [exact Hd|].
        apply Qeq_bool_neq in Ez.
        pose proof (StringToNumber_numeric_nonneg _ _ Hd En) as Hnn.
        split; [discriminate|].
        split; [intros Hnot; exfalso; apply (Hnot num); reflexivity|].
        split; [intros q E Hq; injection E as <-; contradiction|].
        intros q _ E _. injection E as <-.
        exists (mathRound num).
        split; [apply mathRound_nearest|].
        split; [apply mathRound_nonneg; exact Hnn|].
        split; [reflexivity|].
        split; [apply toLocaleString_digits, mathRound_nonneg; exact Hnn|].
        intros i Hi. unfold toLocaleString in *. rewrite rev_involutive.
        rewrite length_rev in Hi.
        rewrite insertCommas_positions; [rewrite Nat.add_0_r; reflexivity | | lia | exact Hi].
        apply Forall_forall. intros x Hx. apply in_rev in Hx.
        pose proof (decimal_digits _ (mathRound_nonneg _ Hnn)) as Hdig.
        rewrite Forall_forall in Hdig. specialize (Hdig x Hx).
        unfold isDigit in Hdig. rewrite andb_true_iff, !N.leb_le in Hdig. lia.
Qed.


(** ** Parsed documents *)

Lemma jsonRoundTrip_json (v : JsVal) : isJson v = true -> jsonRoundTrip v = v.
Proof.
  induction v as [| | b | z | s | es ps IHes _ | ps IHps] using JsVal_nested_ind;
    intros H; try reflexivity.
  - cbn [isJson] in H. apply andb_true_iff in H. destruct H as [Hp He].
    destruct ps; [|discriminate]. cbn [jsonRoundTrip]. f_equal.
    induction IHes as [|x r Hx _ IH]; [reflexivity|].
    cbn [forallb] in He. apply andb_true_iff in He. destruct He as [He1 He2].
    cbn [map]. rewrite IH by exact He2. rewrite Hx by exact He1.
    destruct x; try reflexivity. discriminate.
  - cbn [isJson] in H. cbn [jsonRoundTrip]. f_equal.
    induction IHps as [|[k x] r Hx _ IH]; [reflexivity|].
    cbn [forallb] in H. apply andb_true_iff in H. destruct H as [H1 H2].
    cbn [snd] in Hx. rewrite IH by exact H2.
    destruct x; try discriminate; try reflexivity;
      rewrite (Hx H1); reflexivity.
Qed.

(** Cloning a parsed document gives the document back, so that the base
    of a merge of parsed pages is the first page itself (or the empty
    object when that page is falsy or missing). *)
Lemma deepClone_json (v : JsVal) : isJson v = true -> deepClone v = v.
Proof.
  intros H. destruct v; try reflexivity; apply jsonRoundTrip_json; exact H.
Qed.

Lemma mergeBase_json (first : JsVal) (rest : list JsVal) :
  isJson first = true ->
  mergeBase (first :: rest) = if truthy first then first else JObj [].
Proof.
  intros H. unfold mergeBase, orElse.
  destruct (truthy first); [apply deepClone_json; exact H | reflexivity].
Qed.

(** ** Extraction succeeds on plain records *)

Section Totality.

Variable toLowerCase : jsstring -> jsstring.

Lemma plainField_orElse (a b : JsVal) :
  plainField a -> plainField b -> plainField (orElse a b).
Proof. unfold orElse. destruct (truthy a); auto. Qed.

Lemma plainField_coalesce (a b : JsVal) :
  plainField a -> plainField b -> plainField (coalesce a b).
Proof. intros Ha Hb. destruct a; cbn [coalesce]; assumption. Qed.

Lemma plainField_literal (s : string) :
  encodable (js s) -> plainField (JStr (js s)).
Proof. intros H. exact H. Qed.

Lemma encodable_empty : encodable [].
Proof. exists []. reflexivity. Qed.

Lemma encodable_unreserved (s : jsstring) :
  Forall (fun c => uriUnreserved c = true) s -> encodeURIComponent s = Ok s.
Proof.
  induction 1 as [|c r Hc _ IH]; [reflexivity|].
  cbn [encodeURIComponent]. rewrite Hc, IH. reflexivity.
Qed.

Lemma decimal_chars (z : Z) :
  Forall (fun c => isDigit c = true \/ c = 45%N) (decimal z).
Proof.
  destruct z as [|p|p].
  - eapply Forall_impl; [|apply (decimal_digits 0); lia]. intros c Hc. left. exact Hc.
  - eapply Forall_impl; [|apply (decimal_digits (Z.pos p)); lia].
    intros c Hc. left. exact Hc.
  - unfold decimal, js.
    assert (D : Forall (fun a => isDigit (N_of_ascii a) = true \/ N_of_ascii a = 45%N)
                  (list_ascii_of_string (NilEmpty.string_of_int (Z.to_int (Z.neg p))))).
    { cbn [Z.to_int NilEmpty.string_of_int list_ascii_of_string].
      constructor; [right; reflexivity|].
      eapply Forall_impl; [|apply string_of_uint_digits]. intros a Ha. left. exact Ha. }
    set (l := list_ascii_of_string (NilEmpty.string_of_int (Z.to_int (Z.neg p)))) in *.
    clearbody l.
    assert (M : Forall (fun c => isDigit c = true \/ c = 45%N) (map N_of_ascii l)).
    { apply Forall_forall. intros c Hc. apply in_map_iff in Hc.
      destruct Hc as [a [<- Ha]]. rewrite Forall_forall in D. auto. }
    rewrite utf8_points_ascii; [exact M | | lia].
    eapply Forall_impl; [|exact M]. intros c [Hc| ->]; [|reflexivity]. cbv beta.
    unfold isDigit in Hc. rewrite andb_true_iff, !N.leb_le in Hc. lia.
Qed.

Lemma encodable_decimal (z : Z) : encodable (decimal z).
Proof.
  exists (decimal z). apply encodable_unreserved.
  eapply Forall_impl; [|apply decimal_chars]. intros c [Hc| ->]; [|reflexivity].
  unfold uriUnreserved, isAlnum. rewrite Hc. reflexivity.
Qed.

(** The text of a plain field exists and can be percent-encoded. *)
Lemma plainField_toString (v : JsVal) :
  plainField v -> exists s, toString v = Ok s /\ encodable s.
Proof.
  destruct v as [| | b | z | s | es ps | ps]; cbn [plainField toString]; intros H;
    try contradiction.
  - eexists. split; [reflexivity|]. eexists. vm_compute. reflexivity.
  - eexists. split; [reflexivity|]. eexists. vm_compute. reflexivity.
  - destruct b; (eexists; split; [reflexivity|]; eexists; vm_compute; reflexivity).
  - eexists. split; [reflexivity|]. apply encodable_decimal.
  - eexists. split; [reflexivity|exact H].
Qed.

Lemma plainField_text (v : JsVal) :
  plainField v -> exists s, matchText v = Ok s /\ encodable s.
Proof.
  intros H. unfold matchText. apply plainField_toString.
  apply plainField_orElse; [exact H|]. apply encodable_empty.
Qed.

Lemma plainItem_props (ps : list (string * JsVal)) :
  Forall (fun p => plainField (snd p)) ps -> plainItem (JObj ps).
Proof.
  intros H k. cbn [get]. induction H as [|[k' x] r Hx _ IH]; cbn [lookup].
  - exact I.
  - destruct (String.eqb k k'); [exact Hx|exact IH].
Qed.

Lemma encodable_pad (n : nat) (s : jsstring) :
  encodable s -> encodable (repeat 48%N n ++ s).
Proof.
  intros [e He]. induction n as [|n [e' IH]]; [exists e; exact He|].
  exists (48%N :: e'). cbn [repeat app encodeURIComponent].
  change (uriUnreserved 48) with true. cbv iota. rewrite IH. reflexivity.
Qed.

Lemma mapItem_plain (kind : jsstring) (x : JsVal) :
  plainItem x ->
  let m := mapItem kind x in
  plainField (m_title m) /\ plainField (m_org m) /\ plainField (m_amount m) /\
  plainField (m_idA m) /\ plainField (m_idB m).
Proof.
  intros H. unfold mapItem.
  assert (E : plainField (JStr [])) by apply encodable_empty.
  assert (U : plainField (JStr (js "Untitled")))
    by (apply plainField_literal; eexists; vm_compute; reflexivity).
  assert (N : plainField JUndef) by exact I.
  destruct (jsstring_eqb kind (js "bid"));
    [|destruct (jsstring_eqb kind (js "award"))];
    cbn [m_title m_org m_amount m_idA m_idB];
    repeat split;
    repeat first [apply plainField_orElse | apply plainField_coalesce
                 | apply H | exact E | exact U | exact N].
Qed.

Lemma passes_plain (filterOn : bool) (qlc : jsstring) (m : Mapped) :
  plainField (m_title m) -> plainField (m_org m) ->
  exists b, passes toLowerCase filterOn qlc m = Ok b.
Proof.
  intros Ht Ho. unfold passes, hasQ.
  destruct filterOn; cbn [negb bind]; [|eauto].
  destruct qlc as [|c qlc]; cbn [bind]; [eauto|].
  destruct (plainField_text _ Ht) as [ts [Hts _]].
  destruct (plainField_text _ Ho) as [os [Hos _]].
  unfold matchText in Hts, Hos. rewrite Hts. cbn [bind].
  destruct (includes (toLowerCase ts) (c :: qlc)); [eauto|].
  rewrite Hos. cbn [bind]. eauto.
Qed.

Lemma linkItem_plain (kind : jsstring) (m : Mapped) :
  plainField (m_title m) -> plainField (m_amount m) ->
  plainField (m_idA m) -> plainField (m_idB m) ->
  exists it, linkItem kind m = Ok it.
Proof.
  intros Ht Ha HA HB. unfold linkItem.
  assert (Hamt : exists out, prettifyAmount (m_amount m) = Ok out).
  { destruct (plainField_toString (coalesce (m_amount m) (JStr []))) as [s [Hs _]].
    { apply plainField_coalesce; [exact Ha|apply encodable_empty]. }
    destruct (prettifyAmount_text _ s Hs) as [out [Hout _]]. eauto. }
  destruct Hamt as [out ->]. cbn [bind].
  assert (Hs : exists f, mkSearchUrl (m_title m) = Ok f).
  { unfold mkSearchUrl. destruct (plainField_text _ Ht) as [ts [Hts [e He]]].
    unfold matchText in Hts. rewrite Hts. cbn [bind]. rewrite He. cbn [bind]. eauto. }
  assert (Hu : exists u, detailUrl kind m = Ok u).
  { unfold detailUrl.
    destruct (jsstring_eqb kind (js "bid") && truthy (m_idA m)) eqn:E; [|exact Hs].
    apply andb_true_iff in E. destruct E as [_ TA].
    destruct (plainField_toString _ HA) as [sA [EA [eA HeA]]].
    rewrite EA. cbn [bind].
    destruct (plainField_text (orElse (m_idB m) (JStr (js "00")))) as [sB [HsB HeB]].
    { apply plainField_orElse; [exact HB|].
      apply plainField_literal. eexists. vm_compute. reflexivity. }
    assert (EB : toString (orElse (m_idB m) (JStr (js "00"))) = Ok sB).
    { unfold matchText in HsB. unfold orElse in *.
      destruct (truthy (m_idB m)) eqn:TB.
      - rewrite TB in HsB. exact HsB.
      - change (truthy (JStr (js "00"))) with true in HsB. exact HsB. }
    rewrite EB. cbn [bind]. rewrite HeA. cbn [bind].
    destruct (encodable_pad (2 - List.length sB) sB HeB) as [eB HeB'].
    unfold padStart0. rewrite HeB'. cbn [bind]. eauto. }
  destruct Hu as [u ->]. destruct Hs as [f ->]. cbn [bind]. eauto.
Qed.

Lemma filterM_total {A : Type} (f : A -> result bool) (l : list A) :
  (forall x, In x l -> exists b, f x = Ok b) -> exists l', filterM f l = Ok l'.
Proof. intros H. rewrite (filterM_filter f l H). eauto. Qed.

Lemma mapM_total {A B : Type} (f : A -> result B) (l : list A) :
  (forall x, In x l -> exists b, f x = Ok b) -> exists l', mapM f l = Ok l'.
Proof.
  induction l as [|x r IH]; intros H; simpl; [eauto|].
  destruct (H x (or_introl eq_refl)) as [b ->]. cbn [bind].
  destruct IH as [l' ->]; [intros y Hy; apply H; right; exact Hy|].
  cbn [bind]. eauto.
Qed.

(** On a document whose records hold only strings with paired
    surrogates, the extraction returns a result, whatever the kind, the
    keyword and the filter flag. *)
Lemma extractItems_total (raw : JsVal) (kind q : jsstring) (fe : JsVal) :
  Forall plainItem (pickItems raw) ->
  exists ex, extractItems toLowerCase raw kind q (mkOpts fe (JNum 50)) = Ok ex.
Proof.
  intros H. unfold extractItems. cbn [opt_limit opt_filterEnabled].
  change (toInt (JNum 50) 50) with (Ok (A := Z) 50). cbn [bind].
  set (filterOn := match fe with JBool false => false | _ => true end).
  assert (Hm : forall m, In m (map (mapItem kind) (pickItems raw)) ->
                         plainField (m_title m) /\ plainField (m_org m) /\
                         plainField (m_amount m) /\ plainField (m_idA m) /\
                         plainField (m_idB m)).
  { intros m Hin. apply in_map_iff in Hin. destruct Hin as [x [<- Hx]].
    apply mapItem_plain. rewrite Forall_forall in H. auto. }
  destruct (filterM_total (passes toLowerCase filterOn (trim (toLowerCase q)))
              (map (mapItem kind) (pickItems raw))) as [filtered Hf].
  { intros m Hin. destruct (Hm m Hin) as (Ht & Ho & _). apply passes_plain; assumption. }
  rewrite Hf. cbn [bind].
  destruct (mapM_total (linkItem kind) (sliceTo 50 filtered)) as [withUrl Hw].
  { intros m Hin. apply sliceTo_In in Hin. apply (filterM_In _ _ _ _ Hf) in Hin.
    destruct (Hm m Hin) as (Ht & _ & Ha & HA & HB). apply linkItem_plain; assumption. }
  rewrite Hw. cbn [bind]. eauto.
Qed.

End Totality.

(** ** Query parameters never throw *)

(** [String] of an array, through the text of each element. *)
Lemma toString_array_join (es : list JsVal) (ps : list (string * JsVal)) :
  hasKey "toString" ps = false -> hasKey "join" ps = false ->
  toString (JArr es ps)
  = bind (mapM (fun e => match e with
                         | JUndef | JNull => Ok []
                         | _ => toString e
                         end) es)
         (fun ss => Ok (join (js ",") ss)).
Proof.
  intros H1 H2. cbn [toString]. rewrite H1, H2. f_equal.
  induction es as [|e r IH]; [reflexivity|].
  cbn [mapM]. rewrite <- IH. reflexivity.
Qed.

Lemma toString_strings (l : list jsstring) :
  toString (JArr (map JStr l) []) = Ok (join (js ",") l).
Proof.
  rewrite toString_array_join by reflexivity.
  assert (E : mapM (fun e => match e with
                             | JUndef | JNull => Ok []
                             | _ => toString e
                             end) (map JStr l) = Ok l).
  { induction l as [|s r IH]; [reflexivity|].
    cbn [map mapM toString bind]. rewrite IH. reflexivity. }
  rewrite E. reflexivity.
Qed.

Lemma param_orElse_text (v : QueryVal) (d : jsstring) :
  exists s, toString (orElse (param v) (JStr d)) = Ok s.
Proof.
  unfold orElse. destruct v as [|s|l]; cbn [param].
  - cbn [truthy toString]. eauto.
  - destruct (truthy (JStr s)); cbn [toString]; eauto.
  - cbn [truthy]. rewrite toString_strings. eauto.
Qed.

Lemma param_coalesce_text (v : QueryVal) (d : jsstring) :
  exists s, toString (coalesce (param v) (JStr d)) = Ok s.
Proof.
  destruct v as [|s|l]; cbn [param coalesce].
  - cbn [toString]. eauto.
  - cbn [toString]. eauto.
  - rewrite toString_strings. eauto.
Qed.

Lemma param_toNumber (v : QueryVal) : exists n, toNumber (param v) = Ok n.
Proof.
  destruct v as [|s|l]; cbn [param toNumber]; eauto.
  rewrite toString_strings. cbn [bind]. eauto.
Qed.

(** X1.  Read from a query parameter, whatever it is (absent, a text, a
    repeated parameter), [clampInt] returns an integer and that integer
    lies between the two bounds. *)
Theorem clampInt_query_in_range (v : QueryVal) (def lo hi : Z) :
  lo <= hi ->
  exists x, clampInt (param v) def lo hi = Ok x /\ lo <= x <= hi.
Proof.
  intros H. unfold clampInt.
  destruct (param_toNumber v) as [n ->]. cbn [bind].
  eexists. split; [reflexivity|]. lia.
Qed.

Lemma clampInt_query_in_range_witness :
  exists x, clampInt (param (QMany [js "7"; js "8"])) 3 1 10 = Ok x /\ 1 <= x <= 10.
Proof.
  apply (clampInt_query_in_range (QMany [js "7"; js "8"]) 3 1 10). lia.
Defined.

(** X2.  An absent parameter gives the default, clamped; a parameter that
    is empty or blank is read as the number 0 and so gives the lower
    bound side of the clamp, not the default; a text that is not a number
    gives the default again. *)
Theorem clampInt_absent_blank_text (def lo hi : Z) :
  clampInt JUndef def lo hi = Ok (Z.min hi (Z.max lo def)) /\
  (forall s, trim s = [] ->
             clampInt (JStr s) def lo hi = Ok (Z.min hi (Z.max lo 0))) /\
  (forall s, StringToNumber s = NaN ->
             clampInt (JStr s) def lo hi = Ok (Z.min hi (Z.max lo def))).
Proof.
  split; [reflexivity|]. split.
  - intros s H. unfold clampInt. cbn [toNumber bind].
    unfold StringToNumber. rewrite H. reflexivity.
  - intros s H. unfold clampInt. cbn [toNumber bind]. rewrite H. reflexivity.
Qed.

Lemma clampInt_absent_blank_text_witness :
  clampInt (JStr (js "  ")) 100 1 1000 = Ok 1 /\
  clampInt (JStr (js "many")) 100 1 1000 = Ok 100.
Proof.
  destruct (clampInt_absent_blank_text 100 1 1000) as (_ & B & T). split.
  - apply (B (js "  ")). reflexivity.
  - apply (T (js "many")). vm_compute. reflexivity.
Defined.

(** ** The handler's answers *)

Lemma mapM_each_ok {A B : Type} (f : A -> result B) (l : list A) (l' : list B) :
  mapM f l = Ok l' -> forall x, In x l -> exists b, f x = Ok b.
Proof.
  revert l'. induction l as [|a r IH]; simpl; intros l' H x Hx; [destruct Hx|].
  bind_inv H as b Hb. bind_inv H as bs Hbs.
  destruct Hx as [<-|Hx]; [eauto|]. eapply IH; eassumption.
Qed.

Section HandlerAnswers.

Variable toLowerCase : jsstring -> jsstring.
Variable JSON_parse : jsstring -> option JsVal.
Variable network : nat -> jsstring -> FetchOutcome.

Let handle := handler toLowerCase JSON_parse network.
Let fetchPage := fetchJsonUpstream JSON_parse network.

Lemma normalizeKind_param (v : QueryVal) :
  exists k, normalizeKind toLowerCase (param v) = Ok k /\
            (k = js "bid" \/ k = js "award" \/ k = js "contract").
Proof.
  destruct (param_orElse_text v (js "bid")) as [s Hs].
  destruct (normalizeKind toLowerCase (param v)) as [k|e] eqn:E.
  - exists k. split; [reflexivity|]. eapply normalizeKind_recognized. exact E.
  - unfold normalizeKind in E. rewrite Hs in E. cbn [bind] in E.
    destruct (_ || _ || _); discriminate.
Qed.

Lemma prepare_plan (kind : jsstring) (req : Request) (env : Env) (pl : Plan) :
  prepare kind req env = Ok (inr pl) ->
  pl_kind pl = kind /\
  endpointByKind kind = Some (pl_endpoint pl) /\
  1 <= pl_rows pl <= 1000 /\
  1 <= pl_pageNo pl <= 9999 /\
  1 <= pl_maxPages pl <= 10 /\
  (List.length (pl_q pl) <= 60)%nat.
Proof.
  unfold prepare. intros H.
  bind_inv H as qs Hqs. bind_inv H as fs Hfs.
  destruct (DATA_GO_KR_SERVICE_KEY env) as [[|c key]|]; try discriminate.
  bind_inv H as serviceKey Hkey.
  destruct (endpointByKind kind) as [endpoint|]; [|discriminate].
  bind_inv H as rows Hrows. bind_inv H as pageNo HpageNo.
  bind_inv H as maxPages HmaxPages. bind_inv H as bsnsDivCd Hbsns.
  injection H as <-. cbn [pl_kind pl_endpoint pl_rows pl_pageNo pl_maxPages pl_q].
  apply clampInt_range in Hrows, HpageNo, HmaxPages; try lia.
  repeat split; try lia.
  unfold slice. rewrite length_firstn. lia.
Qed.

Lemma execute_inv (pl : Plan) (r : Response) :
  execute toLowerCase JSON_parse network pl = Ok r ->
  exists first totalCount rest mergedRaw ex,
    fetchPage 0%nat (buildUrl (pl_endpoint pl) (pl_baseParams pl) (pl_pageNo pl))
    = Ok first /\
    totalCountOf first = Ok totalCount /\
    fetchRest JSON_parse network (pl_endpoint pl) (pl_baseParams pl) (pl_pageNo pl)
      (seq 2 (Z.to_nat
                (decidePagesToFetch totalCount (pl_rows pl) (pl_pageNo pl)
                   (pl_maxPages pl) - 1))) = Ok rest /\
    mergeResponses (first :: rest) = Ok mergedRaw /\
    extractItems toLowerCase mergedRaw (pl_kind pl) (pl_q pl)
      (mkOpts (JBool (pl_filterOn pl)) (JNum 50)) = Ok ex /\
    r = mkResponse 200 (Success
          (mkPayload (pl_kind pl) (pl_q pl)
             (mkMeta totalCount
                (decidePagesToFetch totalCount (pl_rows pl) (pl_pageNo pl)
                   (pl_maxPages pl))
                (pl_rows pl) (pl_pageNo pl)
                (totalItemsParsed ex) (matchedAfterFilter ex)
                (List.length (items ex)) (pl_filterOn pl)
                (rangeLabel (pl_fromYmd pl) (pl_toYmd pl)))
             (items ex)
             (buildUrl (pl_endpoint pl) (pl_baseParams pl) (pl_pageNo pl)))).
Proof.
  unfold execute. intros H.
  bind_inv H as first Hfirst. bind_inv H as totalCount Htotal.
  bind_inv H as rest Hrest. bind_inv H as mergedRaw Hmerged.
  bind_inv H as ex Hex. injection H as <-.
  exists first, totalCount, rest, mergedRaw, ex. repeat split; assumption.
Qed.

Lemma handler_success_inv (req : Request) (env : Env) (st : Z) (p : Payload) :
  handle req env = mkResponse st (Success p) ->
  exists kind pl,
    normalizeKind toLowerCase (param (q_kind req)) = Ok kind /\
    prepare kind req env = Ok (inr pl) /\
    execute toLowerCase JSON_parse network pl = Ok (mkResponse st (Success p)).
Proof.
  unfold handle, handler. intros H.
  destruct (jsstring_eqb (method req) (js "OPTIONS")); [discriminate|].
  destruct (handlerTry toLowerCase JSON_parse network req env) as [r|e] eqn:Ht;
    [subst r|discriminate].
  unfold handlerTry in Ht. bind_inv Ht as kind Hkind.
  unfold handleKind in Ht. bind_inv Ht as step Hstep.
  destruct step as [early|pl].
  - injection Ht as ->. apply prepare_early_body in Hstep.
    destruct Hstep as [msg Hb]. discriminate.
  - exists kind, pl. auto.
Qed.

(** X3.  Without the credential (the variable unset or empty) every
    request other than OPTIONS is answered 500 "Missing
    DATA_GO_KR_SERVICE_KEY", whatever its parameters and whatever the
    network would answer. *)
Theorem handler_missing_credential (req : Request) (env : Env) :
  method req <> js "OPTIONS" ->
  DATA_GO_KR_SERVICE_KEY env = None \/ DATA_GO_KR_SERVICE_KEY env = Some [] ->
  handle req env
  = mkResponse 500 (ErrorBody (js "Missing DATA_GO_KR_SERVICE_KEY")).
Proof.
  intros Hm Hkey. unfold handle, handler.
  apply jsstring_eqb_neq in Hm. rewrite Hm.
  unfold handlerTry.
  destruct (normalizeKind_param (q_kind req)) as [k [-> _]]. cbn [bind].
  unfold handleKind, prepare.
  destruct (param_coalesce_text (q_q req) []) as [qs ->]. cbn [bind].
  destruct (param_coalesce_text (q_filter req) (js "1")) as [fs ->]. cbn [bind].
  destruct Hkey as [-> | ->]; reflexivity.
Qed.

(** X4.  The handler answers in one of four ways only: 204 without body
    to OPTIONS; 200 with a payload; 500 with the missing-credential
    error; 500 "Proxy failed" with the exception caught.  It never
    answers 400 or 502. *)
Theorem handler_answers (req : Request) (env : Env) :
  handle req env = mkResponse 204 NoBody \/
  (exists p, handle req env = mkResponse 200 (Success p)) \/
  handle req env = mkResponse 500 (ErrorBody (js "Missing DATA_GO_KR_SERVICE_KEY")) \/
  (exists e, handle req env = mkResponse 500 (ProxyFailed e)).
Proof.
  unfold handle, handler.
  destruct (jsstring_eqb (method req) (js "OPTIONS")); [left; reflexivity|].
  destruct (handlerTry toLowerCase JSON_parse network req env) as [r|e] eqn:Ht;
    [|right; right; right; eauto].
  unfold handlerTry in Ht. bind_inv Ht as kind Hkind.
  apply normalizeKind_recognized in Hkind.
  unfold handleKind in Ht. bind_inv Ht as step Hstep.
  destruct step as [early|pl].
  - injection Ht as ->. right. right. left.
    unfold prepare in Hstep.
    bind_inv Hstep as qs Hqs. bind_inv Hstep as fs Hfs.
    destruct (DATA_GO_KR_SERVICE_KEY env) as [[|c key]|].
    + injection Hstep as <-. reflexivity.
    + bind_inv Hstep as serviceKey Hkey.
      pose proof (endpointByKind_recognized kind Hkind) as Hend.
      destruct (endpointByKind kind); [|congruence].
      bind_inv Hstep as rows Hrows. bind_inv Hstep as pageNo HpageNo.
      bind_inv Hstep as maxPages HmaxPages. bind_inv Hstep as bsnsDivCd Hbsns.
      discriminate.
    + injection Hstep as <-. reflexivity.
  - apply execute_success in Ht. destruct Ht as (m & t & pg & ex & _ & ->).
    right. left. eauto.
Qed.

(** X5.  In every success answer the echoed paging values are the
    clamped ones: rows per page within 1..1000, start page within
    1..9999, and between 1 and 10 pages fetched; the kind is one of the
    three and the echoed keyword has at most 60 code units. *)
Theorem success_meta_within_bounds (req : Request) (env : Env) (st : Z) (p : Payload) :
  handle req env = mkResponse st (Success p) ->
  1 <= numOfRows (p_meta p) <= 1000 /\
  1 <= pageNoStart (p_meta p) <= 9999 /\
  1 <= pagesFetched (p_meta p) <= 10 /\
  (p_kind p = js "bid" \/ p_kind p = js "award" \/ p_kind p = js "contract") /\
  (List.length (p_q p) <= 60)%nat.
Proof.
  intros H. apply handler_success_inv in H.
  destruct H as (kind & pl & Hkind & Hprep & Hexec).
  apply normalizeKind_recognized in Hkind.
  apply prepare_plan in Hprep.
  destruct Hprep as (Ek & _ & Hrows & Hpage & Hmax & Hq).
  apply execute_inv in Hexec.
  destruct Hexec as (first & totalCount & rest & mergedRaw & ex & _ & _ & _ & _ & _ & E).
  injection E as _ ->.
  cbn [p_meta p_kind p_q numOfRows pageNoStart pagesFetched].
  pose proof (pagesToFetch_bounds totalCount (pl_rows pl) (pl_pageNo pl)
                (pl_maxPages pl) ltac:(lia)).
  rewrite Ek. repeat split; try lia; assumption.
Qed.

(** X6.  A success answer means that every page was fetched and parsed:
    the plan of the request exists, the source URL is the URL of its
    first page, and for each page number from 1 to the number of pages
    reported, the fetch of that page returned a JSON document. *)
Theorem success_fetched_every_page (req : Request) (env : Env) (st : Z) (p : Payload) :
  handle req env = mkResponse st (Success p) ->
  exists pl,
    prepare (p_kind p) req env = Ok (inr pl) /\
    sourceUrl p = buildUrl (pl_endpoint pl) (pl_baseParams pl) (pl_pageNo pl) /\
    forall i : nat,
      (1 <= i)%nat -> Z.of_nat i <= pagesFetched (p_meta p) ->
      exists json,
        fetchPage (i - 1)%nat
          (buildUrl (pl_endpoint pl) (pl_baseParams pl)
             (pl_pageNo pl + (Z.of_nat i - 1))) = Ok json.
Proof.
  intros H. apply handler_success_inv in H.
  destruct H as (kind & pl & Hkind & Hprep & Hexec).
  pose proof (prepare_plan _ _ _ _ Hprep) as (Ek & _).
  apply execute_inv in Hexec.
  destruct Hexec as (first & totalCount & rest & mergedRaw & ex
                     & Hfirst & _ & Hrest & _ & _ & E).
  injection E as _ ->. cbn [p_kind p_meta sourceUrl pagesFetched].
  exists pl. rewrite Ek. split; [exact Hprep|]. split; [reflexivity|].
  intros i Hi Hle.
  destruct (Nat.eq_dec i 1) as [->|Hne].
  - exists first. change (1 - 1)%nat with 0%nat.
    replace (pl_pageNo pl + (Z.of_nat 1 - 1)) with (pl_pageNo pl) by lia.
    exact Hfirst.
  - unfold fetchRest in Hrest.
    apply (mapM_each_ok _ _ _ Hrest i).
    apply in_seq. lia.
Qed.

End HandlerAnswers.

Lemma handler_missing_credential_witness :
  handler asciiLower demoParse demoNetwork
    (demoRequest (QOne (js "award")) (QMany [js "a"; js "b"])) (mkEnv None 0)
  = mkResponse 500 (ErrorBody (js "Missing DATA_GO_KR_SERVICE_KEY")).
Proof.
  apply (handler_missing_credential asciiLower demoParse demoNetwork
           (demoRequest (QOne (js "award")) (QMany [js "a"; js "b"])) (mkEnv None 0)).
  - vm_compute. intros H. discriminate H.
  - left. reflexivity.
Defined.

Lemma success_meta_within_bounds_witness :
  exists p,
    handler asciiLower demoParse demoNetwork
      (mkRequest (js "GET") QAbsent QAbsent QAbsent (QOne (js "5000"))
         (QOne (js "0")) (QOne (js "99")) QAbsent) demoEnv
    = mkResponse 200 (Success p) /\
    1 <= numOfRows (p_meta p) <= 1000 /\
    1 <= pageNoStart (p_meta p) <= 9999 /\
    1 <= pagesFetched (p_meta p) <= 10 /\
    (p_kind p = js "bid" \/ p_kind p = js "award" \/ p_kind p = js "contract") /\
    (List.length (p_q p) <= 60)%nat.
Proof.
  set (req := mkRequest (js "GET") QAbsent QAbsent QAbsent (QOne (js "5000"))
                (QOne (js "0")) (QOne (js "99")) QAbsent).
  assert (E : exists p, handler asciiLower demoParse demoNetwork req demoEnv
                        = mkResponse 200 (Success p))
    by (eexists; vm_compute; reflexivity).
  destruct E as [p E]. exists p. split; [exact E|].
  exact (success_meta_within_bounds asciiLower demoParse demoNetwork
           req demoEnv 200 p E).
Defined.

Lemma success_fetched_every_page_witness :
  exists p pl,
    handler asciiLower demoParse demoNetwork
      (mkRequest (js "GET") QAbsent QAbsent QAbsent (QOne (js "1"))
         QAbsent QAbsent QAbsent) demoEnv
    = mkResponse 200 (Success p) /\
    pagesFetched (p_meta p) = 3 /\
    prepare (p_kind p)
      (mkRequest (js "GET") QAbsent QAbsent QAbsent (QOne (js "1"))
         QAbsent QAbsent QAbsent) demoEnv = Ok (inr pl) /\
    sourceUrl p = buildUrl (pl_endpoint pl) (pl_baseParams pl) (pl_pageNo pl) /\
    forall i : nat,
      (1 <= i)%nat -> Z.of_nat i <= pagesFetched (p_meta p) ->
      exists json,
        fetchJsonUpstream demoParse demoNetwork (i - 1)%nat
          (buildUrl (pl_endpoint pl) (pl_baseParams pl)
             (pl_pageNo pl + (Z.of_nat i - 1))) = Ok json.
Proof.
  set (req := mkRequest (js "GET") QAbsent QAbsent QAbsent (QOne (js "1"))
                QAbsent QAbsent QAbsent).
  assert (E : exists p, handler asciiLower demoParse demoNetwork req demoEnv
                        = mkResponse 200 (Success p) /\
                        pagesFetched (p_meta p) = 3)
    by (eexists; split; vm_compute; reflexivity).
  destruct E as [p [E E3]].
  destruct (success_fetched_every_page asciiLower demoParse demoNetwork
              req demoEnv 200 p E) as (pl & Hp & Hs & Hall).
  exists p, pl. split; [exact E|]. split; [exact E3|].
  split; [exact Hp|]. split; [exact Hs|exact Hall].
Defined.

(** ** What the extraction returns *)

Lemma filterM_is_filter {A : Type} (f : A -> result bool) (l l' : list A) :
  filterM f l = Ok l' ->
  l' = filter (fun x => match f x with Ok b => b | Throw _ => false end) l.
Proof.
  revert l'. induction l as [|x r IH]; simpl; intros l' H.
  - injection H as <-. reflexivity.
  - bind_inv H as b Hb. bind_inv H as ys Hys. injection H as <-.
    rewrite Hb. rewrite (IH ys Hys). reflexivity.
Qed.

Lemma mapM_map {A B C : Type} (f : A -> result B) (g : B -> C) (h : A -> C)
  (l : list A) (l' : list B) :
  (forall x y, f x = Ok y -> g y = h x) ->
  mapM f l = Ok l' -> map g l' = map h l.
Proof.
  intros Hgh. revert l'. induction l as [|x r IH]; simpl; intros l' H.
  - injection H as <-. reflexivity.
  - bind_inv H as y Hy. bind_inv H as ys Hys. injection H as <-.
    simpl. rewrite (Hgh x y Hy), (IH ys Hys). reflexivity.
Qed.

Lemma linkItem_fields (kind : jsstring) (m : Mapped) (it : Item) :
  linkItem kind m = Ok it ->
  title it = m_title m /\ org it = m_org m /\ date it = m_date m.
Proof.
  unfold linkItem. intros H.
  bind_inv H as amt Hamt. bind_inv H as u Hu. bind_inv H as f Hf.
  injection H as <-. repeat split.
Qed.

Section ExtractionResult.

Variable toLowerCase : jsstring -> jsstring.

(** Whether a mapped record is kept by the filter (a record on which the
    filter throws is not: the extraction then has no result at all). *)
Let kept (filterOn : bool) (q : jsstring) (m : Mapped) : bool :=
  match passes toLowerCase filterOn (trim (toLowerCase q)) m with
  | Ok b => b
  | Throw _ => false
  end.

(** X7.  With the handler's cap, the items returned are the first 50 of
    the records that pass the filter, in the order of the merged
    document: their titles and organizations are those of that prefix,
    and the matched count is the number of all passing records. *)
Theorem extractItems_first_matches_in_order
  (raw : JsVal) (kind q : jsstring) (fe : bool) (ex : Extracted) :
  extractItems toLowerCase raw kind q (mkOpts (JBool fe) (JNum 50)) = Ok ex ->
  let passing := filter (kept fe q) (map (mapItem kind) (pickItems raw)) in
  matchedAfterFilter ex = List.length passing /\
  totalItemsParsed ex = List.length (pickItems raw) /\
  List.length (items ex) = Nat.min 50 (List.length passing) /\
  map title (items ex) = map m_title (firstn 50 passing) /\
  map org (items ex) = map m_org (firstn 50 passing).
Proof.
  intros H passing. unfold extractItems in H.
  cbn [opt_limit opt_filterEnabled] in H.
  change (toInt (JNum 50) 50) with (Ok (A := Z) 50) in H. cbn [bind] in H.
  bind_inv H as filtered Hfiltered. bind_inv H as withUrl HwithUrl.
  injection H as <-. cbn [items matchedAfterFilter totalItemsParsed].
  apply filterM_is_filter in Hfiltered.
  assert (Ef : filtered = passing).
  { rewrite Hfiltered. unfold passing, kept. destruct fe; reflexivity. }
  rewrite Ef in *. clear Ef Hfiltered.
  change (sliceTo 50 passing) with (firstn 50 passing) in HwithUrl.
  split; [reflexivity|]. split; [reflexivity|].
  split; [rewrite (mapM_length _ _ _ HwithUrl), length_firstn; reflexivity|].
  split.
  - apply (mapM_map (linkItem kind) title m_title _ _
             (fun x y Hxy => proj1 (linkItem_fields kind x y Hxy)) HwithUrl).
  - apply (mapM_map (linkItem kind) org m_org _ _
             (fun x y Hxy => proj1 (proj2 (linkItem_fields kind x y Hxy))) HwithUrl).
Qed.

(** X8.  With the filter switched off, or with a keyword that is empty
    once lower-cased and trimmed, nothing is filtered out: the matched
    count is the parsed count and the number of items returned is the
    smaller of 50 and that count. *)
Theorem extractItems_unfiltered
  (raw : JsVal) (kind q : jsstring) (fe : bool) (ex : Extracted) :
  fe = false \/ trim (toLowerCase q) = [] ->
  extractItems toLowerCase raw kind q (mkOpts (JBool fe) (JNum 50)) = Ok ex ->
  matchedAfterFilter ex = totalItemsParsed ex /\
  List.length (items ex) = Nat.min 50 (totalItemsParsed ex) /\
  map title (items ex)
  = map m_title (firstn 50 (map (mapItem kind) (pickItems raw))).
Proof.
  intros Hoff H. unfold extractItems in H.
  cbn [opt_limit opt_filterEnabled] in H.
  change (toInt (JNum 50) 50) with (Ok (A := Z) 50) in H. cbn [bind] in H.
  rewrite filterM_all in H.
  2:{ intros m _. apply passes_all. destruct Hoff as [-> | Hq]; [left|right];
      [reflexivity | exact Hq]. }
  cbn [bind] in H. bind_inv H as withUrl HwithUrl. injection H as <-.
  cbn [items matchedAfterFilter totalItemsParsed].
  change (sliceTo 50 (map (mapItem kind) (pickItems raw)))
    with (firstn 50 (map (mapItem kind) (pickItems raw))) in HwithUrl.
  split; [apply length_map|].
  split; [rewrite (mapM_length _ _ _ HwithUrl), length_firstn, length_map; reflexivity|].
  apply (mapM_map (linkItem kind) title m_title _ _
           (fun x y Hxy => proj1 (linkItem_fields kind x y Hxy)) HwithUrl).
Qed.

End ExtractionResult.

Lemma extractItems_first_matches_in_order_witness :
  exists ex,
    extractItems asciiLower demoPage (js "bid") (js " 시스템 ")
      (mkOpts (JBool true) (JNum 50)) = Ok ex /\
    matchedAfterFilter ex = 1%nat /\
    totalItemsParsed ex = 3%nat /\
    List.length (items ex) = 1%nat /\
    map title (items ex) = [JStr (js "AI 시스템 구축")] /\
    map org (items ex) = [JStr (js "조달청")].
Proof.
  assert (E : exists ex,
             extractItems asciiLower demoPage (js "bid") (js " 시스템 ")
               (mkOpts (JBool true) (JNum 50)) = Ok ex)
    by (eexists; vm_compute; reflexivity).
  destruct E as [ex E]. exists ex. split; [exact E|].
  exact (extractItems_first_matches_in_order asciiLower demoPage (js "bid")
           (js " 시스템 ") true ex E).
Defined.

Lemma extractItems_unfiltered_witness :
  exists ex,
    extractItems asciiLower demoPage (js "bid") (js "시스템")
      (mkOpts (JBool false) (JNum 50)) = Ok ex /\
    matchedAfterFilter ex = totalItemsParsed ex /\
    List.length (items ex) = Nat.min 50 (totalItemsParsed ex) /\
    map title (items ex)
    = [JStr (js "도로 포장 공사"); JStr (js "AI 시스템 구축"); JStr (js "Untitled")].
Proof.
  assert (E : exists ex,
             extractItems asciiLower demoPage (js "bid") (js "시스템")
               (mkOpts (JBool false) (JNum 50)) = Ok ex)
    by (eexists; vm_compute; reflexivity).
  destruct E as [ex E]. exists ex. split; [exact E|].
  exact (extractItems_unfiltered asciiLower demoPage (js "bid") (js "시스템")
           false ex (or_introl eq_refl) E).
Defined.

(** X9.  When every record of a document is an object whose property
    values are absent, [null], booleans, numbers or strings with paired
    surrogates, the extraction returns a result, whatever the engine's
    lower-casing, the kind, the keyword and the filter flag. *)
Theorem extractItems_scalar_records
  (toLowerCase : jsstring -> jsstring) (raw : JsVal) (kind q : jsstring) (fe : JsVal) :
  Forall scalarRecord (pickItems raw) ->
  exists ex, extractItems toLowerCase raw kind q (mkOpts fe (JNum 50)) = Ok ex.
Proof.
  intros H. apply extractItems_total.
  eapply Forall_impl; [|exact H].
  intros x (ps & -> & Hps). apply plainItem_props. exact Hps.
Qed.

Lemma extractItems_scalar_records_witness :
  exists ex,
    extractItems asciiLower demoPage (js "award") (js "AI")
      (mkOpts (JBool true) (JNum 50)) = Ok ex.
Proof.
  apply extractItems_scalar_records.
  repeat constructor;
    (eexists; split; [reflexivity|]);
    repeat constructor; cbn [snd field plainField]; try exact I;
    (eexists; vm_compute; reflexivity).
Defined.

(** ** What a merge keeps of the first page *)

Lemma lookup_assign_other (k k' : string) (x : JsVal) (ps : list (string * JsVal)) :
  k' <> k -> lookup k' (assign k x ps) = lookup k' ps.
Proof.
  intros Hk. induction ps as [|[k0 v] r IH]; cbn [assign lookup].
  - destruct (String.eqb k' k) eqn:E; [apply String.eqb_eq in E; contradiction|reflexivity].
  - destruct (String.eqb k k0) eqn:E0; cbn [lookup].
    + apply String.eqb_eq in E0. subst k0.
      destruct (String.eqb k' k) eqn:E; [apply String.eqb_eq in E; contradiction|reflexivity].
    + destruct (String.eqb k' k0); [reflexivity|exact IH].
Qed.

Lemma set_inv (o : JsVal) (k : string) (x o' : JsVal) :
  set o k x = Ok o' ->
  get o' k = x /\ forall k', k' <> k -> get o' k' = get o k'.
Proof.
  destruct o; try discriminate; cbn [set]; intros H; injection H as <-; cbn [get];
    (split; [rewrite lookup_assign; reflexivity|]);
    intros k' Hk; rewrite lookup_assign_other by exact Hk; reflexivity.
Qed.

Lemma ensureObject_inv (o : JsVal) (k : string) (o' : JsVal) :
  ensureObject o k = Ok o' ->
  get o' k = childOrFresh o k /\ forall k', k' <> k -> get o' k' = get o k'.
Proof.
  unfold ensureObject, childOrFresh. destruct (truthy (get o k)).
  - intros H. injection H as <-. split; reflexivity.
  - apply set_inv.
Qed.

(** X10.  A merge that succeeds changes nothing but the item list: at
    each level of the path [response.body.items], every other property
    of the merged document is the one of the cloned first page (or of
    the fresh object put where the first page has nothing), so that the
    header and the [totalCount] of page 1 are those of the merged
    document. *)
Theorem merge_keeps_first_page (pages : list JsVal) (m : JsVal) :
  mergeResponses pages = Ok m ->
  let base := mergeBase pages in
  let response := childOrFresh base "response" in
  let body := childOrFresh response "body" in
  let items := childOrFresh body "items" in
  (forall k, k <> "response"%string -> get m k = get base k) /\
  (forall k, k <> "body"%string -> get (get m "response") k = get response k) /\
  (forall k, k <> "items"%string ->
             get (get (get m "response") "body") k = get body k) /\
  (forall k, k <> "item"%string ->
             get (get (get (get m "response") "body") "items") k = get items k).
Proof.
  intros H base response body items. unfold mergeResponses in H.
  fold (mergeBase pages) in H. fold base in H.
  bind_inv H as m1 H1. bind_inv H as r2 H2. bind_inv H as b2 H3.
  bind_inv H as it2 H4. bind_inv H as b3 H5. bind_inv H as r3 H6.
  apply ensureObject_inv in H1. destruct H1 as [G1 K1].
  rewrite G1 in H2. fold response in H2.
  apply ensureObject_inv in H2. destruct H2 as [G2 K2].
  rewrite G2 in H3. fold body in H3.
  apply ensureObject_inv in H3. destruct H3 as [G3 K3].
  rewrite G3 in H4. fold items in H4.
  apply set_inv in H4. destruct H4 as [G4 K4].
  apply set_inv in H5. destruct H5 as [G5 K5].
  apply set_inv in H6. destruct H6 as [G6 K6].
  apply set_inv in H. destruct H as [G7 K7].
  repeat split.
  - intros k Hk. rewrite K7, K1 by exact Hk. reflexivity.
  - intros k Hk. rewrite G7, K6, K2 by exact Hk. reflexivity.
  - intros k Hk. rewrite G7, G6, K5, K3 by exact Hk. reflexivity.
  - intros k Hk. rewrite G7, G6, G5, K4 by exact Hk. reflexivity.
Qed.

Lemma merge_keeps_first_page_witness :
  exists m,
    mergeResponses [demoPage; nestedPage] = Ok m /\
    get (get (get m "response") "body") "totalCount" = JNum 3 /\
    get (get (get m "response") "header") "resultCode" = JStr (js "00").
Proof.
  assert (E : exists m, mergeResponses [demoPage; nestedPage] = Ok m)
    by (eexists; vm_compute; reflexivity).
  destruct E as [m E]. exists m. split; [exact E|].
  destruct (merge_keeps_first_page [demoPage; nestedPage] m E) as (_ & Hr & Hb & _).
  split.
  - rewrite (Hb "totalCount"%string) by discriminate. reflexivity.
  - rewrite (Hr "header"%string) by discriminate. reflexivity.
Defined.

(** ** Clones *)

Lemma jsonRoundTrip_isJson (v : JsVal) : v <> JUndef -> isJson (jsonRoundTrip v) = true.
Proof.
  induction v as [| | b | z | s | es ps IHes _ | ps IHps] using JsVal_nested_ind;
    intros Hv; try reflexivity; [contradiction| |].
  - cbn [jsonRoundTrip isJson andb]. clear Hv.
    induction IHes as [|x r Hx _ IH]; [reflexivity|].
    cbn [map forallb]. rewrite IH. rewrite andb_true_r.
    destruct x; try reflexivity; apply Hx; discriminate.
  - cbn [jsonRoundTrip isJson]. clear Hv.
    induction IHps as [|[k x] r Hx _ IH]; [reflexivity|].
    cbn [snd] in Hx.
    destruct x; try exact IH; cbn [forallb]; rewrite IH, andb_true_r;
      try reflexivity; apply Hx; discriminate.
Qed.

(** X11.  The clone of anything but [undefined] is a JSON value (no
    [undefined] inside, no named property on an array), [undefined] is
    returned as it is, and cloning a clone changes nothing. *)
Theorem deepClone_idempotent (v : JsVal) :
  (v = JUndef \/ isJson (deepClone v) = true) /\
  deepClone (deepClone v) = deepClone v.
Proof.
  assert (J : v = JUndef \/ isJson (deepClone v) = true).
  { destruct v; [left; reflexivity | right ..]; try reflexivity;
      apply jsonRoundTrip_isJson; discriminate. }
  split; [exact J|].
  destruct J as [-> | J]; [reflexivity | apply deepClone_json; exact J].
Qed.

(** ** Page URLs *)

Lemma decimal_ascii (z : Z) :
  decimal z = map N_of_ascii (list_ascii_of_string (NilEmpty.string_of_int (Z.to_int z))).
Proof.
  assert (D : Forall (fun a => (N_of_ascii a < 128)%N)
                (list_ascii_of_string (NilEmpty.string_of_int (Z.to_int z)))).
  { assert (U : forall d, Forall (fun a => (N_of_ascii a < 128)%N)
                            (list_ascii_of_string (NilEmpty.string_of_uint d))).
    { intros d. eapply Forall_impl; [|apply string_of_uint_digits].
      intros a Ha. unfold isDigit in Ha. rewrite andb_true_iff, !N.leb_le in Ha. lia. }
    destruct z as [|p|p]; cbn [Z.to_int NilEmpty.string_of_int];
      [apply U | apply U |].
    cbn [list_ascii_of_string]. constructor; [vm_compute; reflexivity | apply U]. }
  unfold decimal, js.
  set (l := list_ascii_of_string (NilEmpty.string_of_int (Z.to_int z))) in *.
  clearbody l. apply utf8_points_ascii; [|lia].
  apply Forall_forall. intros c Hc. apply in_map_iff in Hc.
  destruct Hc as [a [<- Ha]]. rewrite Forall_forall in D. auto.
Qed.

Lemma decimal_inj (n m : Z) : decimal n = decimal m -> n = m.
Proof.
  rewrite !decimal_ascii. intros H.
  apply (f_equal (map ascii_of_N)) in H. rewrite !map_map in H.
  assert (I : forall l, map (fun a => ascii_of_N (N_of_ascii a)) l = l).
  { intros l. induction l as [|a l IH]; [reflexivity|].
    cbn [map]. rewrite ascii_N_embedding, IH. reflexivity. }
  rewrite !I in H.
  apply (f_equal string_of_list_ascii) in H.
  rewrite !string_of_list_ascii_of_string in H.
  apply (f_equal NilEmpty.int_of_string) in H. rewrite !NilEmpty.isi in H.
  injection H as H. apply DecimalZ.to_int_inj. exact H.
Qed.

Lemma formEncode_decimal (z : Z) : formEncode (decimal z) = decimal z.
Proof.
  pose proof (decimal_chars z) as H.
  induction H as [|c r Hc _ IH]; [reflexivity|].
  cbn [formEncode].
  assert (B : (c <= 57)%N).
  { destruct Hc as [Hc| ->]; [|lia].
    unfold isDigit in Hc. rewrite andb_true_iff, !N.leb_le in Hc. lia. }
  assert (E1 : isHighSurrogate c = false).
  { unfold isHighSurrogate. replace (55296 <=? c)%N with false; [reflexivity|].
    symmetry. apply N.leb_gt. lia. }
  assert (E2 : isLowSurrogate c = false).
  { unfold isLowSurrogate. replace (56320 <=? c)%N with false; [reflexivity|].
    symmetry. apply N.leb_gt. lia. }
  rewrite E1, E2. unfold utf8_bytes.
  replace (c <? 128)%N with true by (symmetry; apply N.ltb_lt; lia).
  cbn [flat_map app]. rewrite IH. unfold formByte.
  destruct Hc as [Hc| ->]; [|reflexivity].
  replace (c =? 32)%N with false.
  2:{ symmetry. apply N.eqb_neq. unfold isDigit in Hc.
      rewrite andb_true_iff, !N.leb_le in Hc. lia. }
  unfold isAlnum. rewrite Hc. reflexivity.
Qed.

Lemma paramsSet_fresh (name value : jsstring) (ps : URLSearchParams) :
  (forall p, In p ps -> fst p <> name) ->
  paramsSet name value ps = ps ++ [(name, value)].
Proof.
  induction ps as [|[n v] r IH]; intros H; [reflexivity|].
  cbn [paramsSet app].
  replace (jsstring_eqb n name) with false.
  2:{ symmetry. apply jsstring_eqb_neq. apply (H (n, v)). left. reflexivity. }
  rewrite IH; [reflexivity|]. intros p Hp. apply H. right. exact Hp.
Qed.

Lemma paramsSet_In (name value : jsstring) (ps : URLSearchParams) (p : jsstring * jsstring) :
  In p (paramsSet name value ps) -> fst p = name \/ In p ps.
Proof.
  induction ps as [|[n v] r IH]; cbn [paramsSet].
  - intros [<-|[]]. left. reflexivity.
  - destruct (jsstring_eqb n name) eqn:E.
    + apply jsstring_eqb_eq in E. intros [<-|Hp]; [left; exact E|].
      apply filter_In in Hp. right. right. exact (proj1 Hp).
    + intros [<-|Hp]; [right; left; reflexivity|].
      destruct (IH Hp) as [Hn|Hr]; [left; exact Hn|right; right; exact Hr].
Qed.

Lemma paramsSet_nonempty (name value : jsstring) (ps : URLSearchParams) :
  paramsSet name value ps <> [].
Proof.
  destruct ps as [|[n v] r]; cbn [paramsSet]; [discriminate|].
  destruct (jsstring_eqb n name); discriminate.
Qed.

Lemma join_snoc (sep x : jsstring) (l : list jsstring) :
  l <> [] -> join sep (l ++ [x]) = join sep l ++ sep ++ x.
Proof.
  induction l as [|y r IH]; intros H; [contradiction|].
  destruct r as [|y' r']; [reflexivity|].
  change (join sep ((y :: y' :: r') ++ [x]))
    with (y ++ sep ++ join sep ((y' :: r') ++ [x])).
  rewrite IH by discriminate.
  change (join sep (y :: y' :: r')) with (y ++ sep ++ join sep (y' :: r')).
  rewrite <- !app_assoc. reflexivity.
Qed.

Lemma baseParamsFor_names (kind key : jsstring) (rows : Z) (f t b : jsstring)
  (p : jsstring * jsstring) :
  In p (baseParamsFor kind key rows f t b) -> fst p <> js "pageNo".
Proof.
  unfold baseParamsFor.
  destruct (jsstring_eqb kind (js "bid")), (jsstring_eqb kind (js "award")),
    (jsstring_eqb kind (js "contract"));
    intros H;
    repeat match type of H with
           | In _ (paramsSet _ _ _) =>
               apply paramsSet_In in H; destruct H as [H|H];
               [rewrite H; intros E; vm_compute in E; discriminate|]
           end;
    cbn [In] in H;
    repeat match type of H with
           | _ \/ _ => destruct H as [H|H]; [subst p; intros E; vm_compute in E; discriminate|]
           end;
    contradiction.
Qed.

Lemma baseParamsFor_nonempty (kind key : jsstring) (rows : Z) (f t b : jsstring) :
  baseParamsFor kind key rows f t b <> [].
Proof.
  unfold baseParamsFor.
  destruct (jsstring_eqb kind (js "bid")), (jsstring_eqb kind (js "award")),
    (jsstring_eqb kind (js "contract"));
    first [apply paramsSet_nonempty | discriminate].
Qed.

Lemma prepare_baseParams (kind : jsstring) (req : Request) (env : Env) (pl : Plan) :
  prepare kind req env = Ok (inr pl) ->
  exists key rows f t b, pl_baseParams pl = baseParamsFor kind key rows f t b.
Proof.
  unfold prepare. intros H.
  bind_inv H as qs Hqs. bind_inv H as fs Hfs.
  destruct (DATA_GO_KR_SERVICE_KEY env) as [[|c key]|]; try discriminate.
  bind_inv H as serviceKey Hkey.
  destruct (endpointByKind kind); [|discriminate].
  bind_inv H as rows Hrows. bind_inv H as pageNo HpageNo.
  bind_inv H as maxPages HmaxPages. bind_inv H as bsnsDivCd Hbsns.
  injection H as <-. cbn [pl_baseParams]. eauto 6.
Qed.

(** X12.  The URLs of the pages of one request differ only in their
    last parameter: each is the endpoint, the query string of the base
    parameters and [&pageNo=] followed by the decimal page number, so
    that different page numbers are fetched from different URLs. *)
Theorem page_urls (kind : jsstring) (req : Request) (env : Env) (pl : Plan) :
  prepare kind req env = Ok (inr pl) ->
  (forall n : Z,
      buildUrl (pl_endpoint pl) (pl_baseParams pl) n
      = pl_endpoint pl ++ js "?" ++ paramsToString (pl_baseParams pl)
        ++ js "&pageNo=" ++ decimal n) /\
  (forall n m : Z,
      buildUrl (pl_endpoint pl) (pl_baseParams pl) n
      = buildUrl (pl_endpoint pl) (pl_baseParams pl) m -> n = m).
Proof.
  intros H. destruct (prepare_baseParams _ _ _ _ H) as (key & rows & f & t & b & Eb).
  assert (Hshape : forall n : Z,
             buildUrl (pl_endpoint pl) (pl_baseParams pl) n
             = pl_endpoint pl ++ js "?" ++ paramsToString (pl_baseParams pl)
               ++ js "&pageNo=" ++ decimal n).
  { intros n. unfold buildUrl. rewrite paramsSet_fresh.
    2:{ rewrite Eb. apply baseParamsFor_names. }
    unfold paramsToString. rewrite map_app. cbn [map fst snd].
    rewrite join_snoc.
    2:{ rewrite Eb. intros E. apply map_eq_nil in E.
        exact (baseParamsFor_nonempty _ _ _ _ _ _ E). }
    rewrite formEncode_decimal.
    change (formEncode (js "pageNo")) with (js "pageNo").
    change (js "&pageNo=") with (js "&" ++ js "pageNo" ++ js "=").
    rewrite <- !app_assoc. reflexivity. }
  split; [exact Hshape|].
  intros n m E. rewrite !Hshape in E.
  repeat apply app_inv_head in E. apply decimal_inj. exact E.
Qed.

Lemma page_urls_witness :
  exists pl,
    prepare (js "award") (demoRequest (QOne (js "award")) QAbsent) demoEnv
    = Ok (inr pl) /\
    buildUrl (pl_endpoint pl) (pl_baseParams pl) 7
    = pl_endpoint pl ++ js "?" ++ paramsToString (pl_baseParams pl)
      ++ js "&pageNo=7".
Proof.
  assert (E : exists pl,
             prepare (js "award") (demoRequest (QOne (js "award")) QAbsent) demoEnv
             = Ok (inr pl))
    by (eexists; vm_compute; reflexivity).
  destruct E as [pl E]. exists pl. split; [exact E|].
  exact (proj1 (page_urls _ _ _ _ E) 7).
Defined.

(** ** The service key is encoded once *)

Lemma trimStart_fixed (s : jsstring) : trimStart (trimStart s) = trimStart s.
Proof.
  induction s as [|c r IH]; [reflexivity|].
  cbn [trimStart]. destruct (isWhiteSpace c) eqn:W; [exact IH|].
  cbn [trimStart]. rewrite W. reflexivity.
Qed.

Lemma trimStart_snoc (l : jsstring) (c : N) :
  isWhiteSpace c = false -> trimStart (l ++ [c]) = trimStart l ++ [c].
Proof.
  intros W. induction l as [|x r IH]; cbn [app trimStart].
  - rewrite W. reflexivity.
  - destruct (isWhiteSpace x); [exact IH|reflexivity].
Qed.

Lemma trim_fixed (s : jsstring) : trim (trim s) = trim s.
Proof.
  unfold trim. set (t := trimStart s).
  assert (T : trimStart t = t) by apply trimStart_fixed.
  assert (E : trimStart (trimEnd t) = trimEnd t).
  { destruct t as [|c r]; [reflexivity|].
    cbn [trimStart] in T. destruct (isWhiteSpace c) eqn:W.
    - exfalso. clear -T.
      assert (L : forall l, (List.length (trimStart l) <= List.length l)%nat).
      { intros l. induction l as [|x l IH]; [apply le_n|].
        cbn [trimStart]. destruct (isWhiteSpace x); cbn [List.length]; lia. }
      specialize (L r). rewrite T in L. cbn [List.length] in L. lia.
    - unfold trimEnd. cbn [rev]. rewrite trimStart_snoc by exact W.
      rewrite rev_app_distr. cbn [rev app trimStart]. rewrite W. reflexivity. }
  rewrite E. unfold trimEnd. rewrite rev_involutive, trimStart_fixed. reflexivity.
Qed.

Lemma trimStart_Forall (P : N -> Prop) (s : jsstring) :
  Forall P s -> Forall P (trimStart s).
Proof.
  induction 1 as [|c r Hc Hr IH]; [constructor|].
  cbn [trimStart]. destruct (isWhiteSpace c); [exact IH|constructor; assumption].
Qed.

Lemma trim_Forall (P : N -> Prop) (s : jsstring) : Forall P s -> Forall P (trim s).
Proof.
  intros H. unfold trim, trimEnd.
  apply Forall_rev, trimStart_Forall, Forall_rev, trimStart_Forall. exact H.
Qed.

Lemma uriUnreserved_bounds (c : N) : uriUnreserved c = true -> (33 <= c <= 126)%N.
Proof.
  unfold uriUnreserved, isAlnum, isDigit.
  rewrite !orb_true_iff, !andb_true_iff, !N.leb_le, !N.eqb_eq. lia.
Qed.

Lemma printable_not_space (c : N) : (33 <= c <= 126)%N -> isWhiteSpace c = false.
Proof.
  intros H. unfold isWhiteSpace.
  assert (E1 : (c <=? 13)%N = false) by (apply N.leb_gt; lia).
  assert (E2 : (8192 <=? c)%N = false) by (apply N.leb_gt; lia).
  rewrite E1, E2, andb_false_r. cbn [orb andb].
  repeat match goal with
         | |- context [(c =? ?k)%N] =>
             replace (c =? k)%N with false by (symmetry; apply N.eqb_neq; lia)
         end.
  reflexivity.
Qed.

Lemma hexChar_unreserved (n : N) : (n < 16)%N -> uriUnreserved (hexChar n) = true.
Proof.
  intros H.
  assert (A : forallb (fun i => uriUnreserved (hexChar (N.of_nat i))) (seq 0 16) = true)
    by (vm_compute; reflexivity).
  rewrite forallb_forall in A. specialize (A (N.to_nat n)).
  rewrite N2Nat.id in A. apply A. apply in_seq. lia.
Qed.

Lemma utf8_bytes_range (cp : N) :
  (cp < 2097152)%N -> Forall (fun b => (b < 256)%N) (utf8_bytes cp).
Proof.
  intros H. unfold utf8_bytes.
  assert (M : forall a, (a mod 64 < 64)%N) by (intros a; apply N.mod_lt; lia).
  destruct (cp <? 128)%N eqn:E1; [apply N.ltb_lt in E1; repeat constructor; lia|].
  destruct (cp <? 2048)%N eqn:E2.
  { apply N.ltb_lt in E2.
    assert (cp / 64 < 32)%N by (apply N.Div0.div_lt_upper_bound; lia).
    pose proof (M cp). repeat constructor; lia. }
  destruct (cp <? 65536)%N eqn:E3.
  { apply N.ltb_lt in E3.
    assert (cp / 4096 < 16)%N by (apply N.Div0.div_lt_upper_bound; lia).
    pose proof (M cp). pose proof (M (cp / 64)%N). repeat constructor; lia. }
  assert (cp / 262144 < 8)%N by (apply N.Div0.div_lt_upper_bound; lia).
  pose proof (M cp). pose proof (M (cp / 64)%N). pose proof (M (cp / 4096)%N).
  repeat constructor; lia.
Qed.

Lemma percent_alphabet (cp : N) :
  (cp < 2097152)%N ->
  Forall (fun c => uriUnreserved c = true \/ c = 37%N)
         (flat_map percentByte (utf8_bytes cp)).
Proof.
  intros H. pose proof (utf8_bytes_range cp H) as B.
  induction B as [|b r Hb _ IH]; [constructor|].
  cbn [flat_map]. apply Forall_app. split; [|exact IH].
  unfold percentByte.
  constructor; [right; reflexivity|].
  constructor; [left; apply hexChar_unreserved, N.Div0.div_lt_upper_bound; lia|].
  constructor; [left; apply hexChar_unreserved, N.mod_lt; lia|constructor].
Qed.

Lemma encodeURIComponent_alphabet (n : nat) :
  forall (s k : jsstring),
    (List.length s <= n)%nat ->
    Forall (fun c => (c < 65536)%N) s ->
    encodeURIComponent s = Ok k ->
    Forall (fun c => uriUnreserved c = true \/ c = 37%N) k.
Proof.
  induction n as [|n IH]; intros s k Hl Hs H.
  - destruct s; [|cbn [List.length] in Hl; lia]. injection H as <-. constructor.
  - destruct s as [|c r]; [injection H as <-; constructor|].
    cbn [List.length] in Hl. inversion Hs as [|c' r' Hc Hr]; subst c' r'.
    cbn [encodeURIComponent] in H.
    destruct (uriUnreserved c) eqn:U.
    { bind_inv H as t Ht. injection H as <-.
      constructor; [left; exact U|]. apply (IH r t); [lia|exact Hr|exact Ht]. }
    destruct (isLowSurrogate c); [discriminate|].
    destruct (isHighSurrogate c) eqn:Hh.
    + destruct r as [|c2 r2]; [discriminate|].
      destruct (isLowSurrogate c2) eqn:Hl2; [|discriminate].
      bind_inv H as t Ht. injection H as <-.
      inversion Hr as [|c2' r2' Hc2 Hr2]; subst c2' r2'.
      cbn [List.length] in Hl.
      apply Forall_app. split; [|apply (IH r2 t); [lia|exact Hr2|exact Ht]].
      apply percent_alphabet.
      unfold isHighSurrogate in Hh. unfold isLowSurrogate in Hl2.
      rewrite andb_true_iff, !N.leb_le in Hh, Hl2. unfold pairPoint. lia.
    + bind_inv H as t Ht. injection H as <-.
      apply Forall_app. split; [|apply (IH r t); [lia|exact Hr|exact Ht]].
      apply percent_alphabet. lia.
Qed.

Lemma includes_percent_false (k : jsstring) :
  includes k (js "%") = false -> Forall (fun c => c <> 37%N) k.
Proof.
  change (js "%") with [37%N].
  induction k as [|c r IH]; [constructor|].
  cbn [includes startsWith]. rewrite orb_false_iff.
  intros [Hc Hr]. constructor; [|apply IH; exact Hr].
  destruct r; cbn [startsWith] in Hc; rewrite andb_true_r in Hc;
    apply N.eqb_neq in Hc; congruence.
Qed.

(** X13.  Normalizing a service key is idempotent: the normalized key is
    left as it is when it is normalized again, so that a key stored in
    its percent-encoded form and a key stored raw are both encoded
    exactly once.  (Code units are 16-bit numbers.) *)
Theorem normalizeServiceKey_idempotent (raw k : jsstring) :
  Forall (fun c => (c < 65536)%N) raw ->
  normalizeServiceKey (JStr raw) = Ok k ->
  normalizeServiceKey (JStr k) = Ok k.
Proof.
  intros Hraw H. unfold normalizeServiceKey in H.
  assert (T : forall s, toString (orElse (JStr s) (JStr [])) = Ok s)
    by (intros [|c r]; reflexivity).
  rewrite T in H. cbn [bind] in H.
  assert (Done : forall s, s <> [] -> trim s = s -> includes s (js "%") = true ->
                           normalizeServiceKey (JStr s) = Ok s).
  { intros s Hne Ht Hi. unfold normalizeServiceKey. rewrite T. cbn [bind].
    rewrite Ht. destruct s; [contradiction|]. rewrite Hi. reflexivity. }
  destruct (trim raw) as [|c r] eqn:E; [injection H as <-; reflexivity|].
  destruct (includes (c :: r) (js "%")) eqn:I.
  - injection H as <-. apply Done; [discriminate| |exact I].
    rewrite <- E. apply trim_fixed.
  - assert (A : Forall (fun x => uriUnreserved x = true \/ x = 37%N) k).
    { apply (encodeURIComponent_alphabet (List.length (c :: r)) (c :: r) k);
        [apply le_n| |exact H].
      rewrite <- E. apply trim_Forall. exact Hraw. }
    assert (Tk : trim k = k).
    { apply trim_id. eapply Forall_impl; [|exact A].
      intros x [Hx| ->]; [|reflexivity].
      apply printable_not_space, uriUnreserved_bounds. exact Hx. }
    destruct k as [|c' r']; [reflexivity|].
    destruct (includes (c' :: r') (js "%")) eqn:I'.
    + apply Done; [discriminate|exact Tk|exact I'].
    + unfold normalizeServiceKey. rewrite T. cbn [bind]. rewrite Tk, I'.
      apply encodable_unreserved.
      apply includes_percent_false in I'.
      rewrite Forall_forall in A, I'. apply Forall_forall. intros x Hx.
      destruct (A x Hx) as [U|E37]; [exact U|]. exfalso. exact (I' x Hx E37).
Qed.

Lemma normalizeServiceKey_idempotent_witness :
  normalizeServiceKey (JStr (js " key+/= ")) = Ok (js "key%2B%2F%3D") /\
  normalizeServiceKey (JStr (js "key%2B%2F%3D")) = Ok (js "key%2B%2F%3D").
Proof.
  assert (E : normalizeServiceKey (JStr (js " key+/= ")) = Ok (js "key%2B%2F%3D"))
    by (vm_compute; reflexivity).
  split; [exact E|].
  apply (normalizeServiceKey_idempotent (js " key+/= ") (js "key%2B%2F%3D"));
    [|exact E].
  repeat constructor.
Defined.

(** ** The service key in the query string *)

Lemma formEncode_app (n : nat) :
  forall (l : jsstring) (x : N) (r : jsstring),
    (List.length l <= n)%nat ->
    isLowSurrogate x = false ->
    formEncode (l ++ x :: r) = formEncode l ++ formEncode (x :: r).
Proof.
  induction n as [|n IH]; intros l x r Hl Hx.
  - destruct l; [reflexivity|cbn [List.length] in Hl; lia].
  - destruct l as [|c l']; [reflexivity|]. cbn [List.length] in Hl.
    destruct l' as [|c2 l''].
    + cbn [app]. cbn [formEncode]. rewrite Hx.
      destruct (isHighSurrogate c); [reflexivity|].
      destruct (isLowSurrogate c); rewrite app_nil_r; reflexivity.
    + cbn [List.length] in Hl.
      change ((c :: c2 :: l'') ++ x :: r) with (c :: c2 :: (l'' ++ x :: r)).
      assert (E2 : formEncode (c2 :: (l'' ++ x :: r))
                   = formEncode (c2 :: l'') ++ formEncode (x :: r)).
      { apply (IH (c2 :: l'') x r); [cbn [List.length]; lia|exact Hx]. }
      assert (E3 : formEncode (l'' ++ x :: r) = formEncode l'' ++ formEncode (x :: r)).
      { apply (IH l'' x r); [lia|exact Hx]. }
      cbn [formEncode] in *.
      destruct (isHighSurrogate c).
      * destruct (isLowSurrogate c2).
        -- rewrite E3, app_assoc. reflexivity.
        -- rewrite E2, app_assoc. reflexivity.
      * destruct (isLowSurrogate c); rewrite E2, app_assoc; reflexivity.
Qed.

Lemma paramsSet_keeps_head (name value n1 v1 n2 v2 : jsstring) (r : URLSearchParams) :
  jsstring_eqb n1 name = false -> jsstring_eqb n2 name = false ->
  paramsSet name value ((n1, v1) :: (n2, v2) :: r)
  = (n1, v1) :: (n2, v2) :: paramsSet name value r.
Proof. intros E1 E2. cbn [paramsSet]. rewrite E1, E2. reflexivity. Qed.

Lemma baseParamsFor_head (kind key : jsstring) (rows : Z) (f t b : jsstring) :
  exists tail,
    baseParamsFor kind key rows f t b
    = (js "serviceKey", key) :: (js "type", js "json") :: tail /\ tail <> [].
Proof.
  unfold baseParamsFor.
  destruct (jsstring_eqb kind (js "bid")), (jsstring_eqb kind (js "award")),
    (jsstring_eqb kind (js "contract"));
    repeat (rewrite (paramsSet_keeps_head _ _ (js "serviceKey") key (js "type") (js "json"))
              by (vm_compute; reflexivity));
    eexists; (split; [reflexivity|]);
    first [apply paramsSet_nonempty | discriminate].
Qed.

(** X14.  The query string sent upstream begins with the [serviceKey]
    parameter, whose value is the normalized key serialized once more by
    [URLSearchParams]: every percent sign of the normalized key
    reaches the upstream as [%25]. *)
Theorem serviceKey_serialized_again
  (kind : jsstring) (req : Request) (env : Env) (pl : Plan) :
  prepare kind req env = Ok (inr pl) ->
  exists raw key rest,
    DATA_GO_KR_SERVICE_KEY env = Some raw /\
    normalizeServiceKey (JStr raw) = Ok key /\
    paramsToString (pl_baseParams pl)
    = js "serviceKey=" ++ formEncode key ++ js "&type=json&" ++ rest /\
    forall l r, key = l ++ js "%" ++ r ->
                formEncode key = formEncode l ++ js "%25" ++ formEncode r.
Proof.
  unfold prepare. intros H.
  bind_inv H as qs Hqs. bind_inv H as fs Hfs.
  destruct (DATA_GO_KR_SERVICE_KEY env) as [[|c raw]|]; try discriminate.
  bind_inv H as key Hkey.
  destruct (endpointByKind kind); [|discriminate].
  bind_inv H as rows Hrows. bind_inv H as pageNo HpageNo.
  bind_inv H as maxPages HmaxPages. bind_inv H as bsnsDivCd Hbsns.
  injection H as <-. cbn [pl_baseParams].
  destruct (baseParamsFor_head kind key rows
              (fmtYmd (fromKst kind (getNowKstDate (now env))))
              (fmtYmd (getNowKstDate (now env))) bsnsDivCd) as (tail & -> & Htail).
  exists (c :: raw), key,
    (join (js "&")
       (map (fun p => formEncode (fst p) ++ js "=" ++ formEncode (snd p)) tail)).
  split; [reflexivity|]. split; [exact Hkey|]. split.
  - unfold paramsToString. destruct tail as [|p tail]; [contradiction|].
    cbn [map fst snd].
    change (join (js "&")
              ((formEncode (js "serviceKey") ++ js "=" ++ formEncode key)
               :: (formEncode (js "type") ++ js "=" ++ formEncode (js "json"))
               :: (formEncode (fst p) ++ js "=" ++ formEncode (snd p))
               :: map (fun p0 => formEncode (fst p0) ++ js "=" ++ formEncode (snd p0)) tail))
      with ((formEncode (js "serviceKey") ++ js "=" ++ formEncode key)
            ++ js "&" ++ (formEncode (js "type") ++ js "=" ++ formEncode (js "json"))
            ++ js "&"
            ++ join (js "&")
                 ((formEncode (fst p) ++ js "=" ++ formEncode (snd p))
                  :: map (fun p0 => formEncode (fst p0) ++ js "=" ++ formEncode (snd p0))
                       tail)).
    change (formEncode (js "serviceKey") ++ js "=") with (js "serviceKey=").
    change (formEncode (js "type") ++ js "=" ++ formEncode (js "json")) with (js "type=json").
    change (js "&type=json&") with (js "&" ++ js "type=json" ++ js "&").
    rewrite <- !app_assoc. reflexivity.
  - intros l r ->. change (js "%" ++ r) with (37%N :: r).
    rewrite (formEncode_app (List.length l) l 37 r (le_n _) eq_refl).
    reflexivity.
Qed.

Lemma serviceKey_serialized_again_witness :
  exists pl rest,
    prepare (js "bid") (demoRequest QAbsent QAbsent) demoEnv = Ok (inr pl) /\
    normalizeServiceKey (JStr (js "key+/=")) = Ok (js "key%2B%2F%3D") /\
    paramsToString (pl_baseParams pl)
    = js "serviceKey=key%252B%252F%253D&type=json&" ++ rest.
Proof.
  assert (E : exists pl,
             prepare (js "bid") (demoRequest QAbsent QAbsent) demoEnv = Ok (inr pl))
    by (eexists; vm_compute; reflexivity).
  destruct E as [pl E].
  destruct (serviceKey_serialized_again _ _ _ _ E) as (raw & key & rest & Hraw & Hkey & Hq & _).
  exists pl, rest. split; [exact E|].
  injection Hraw as <-.
  assert (K : normalizeServiceKey (JStr (js "key+/=")) = Ok (js "key%2B%2F%3D"))
    by (vm_compute; reflexivity).
  split; [exact K|].
  rewrite K in Hkey. injection Hkey as <-. exact Hq.
Defined.

(** ** The shape of formatted dates *)

Lemma firstn_exact {A : Type} (l r : list A) : firstn (List.length l) (l ++ r) = l.
Proof. induction l as [|x l IH]; [reflexivity|]. cbn. f_equal. exact IH. Qed.

Lemma skipn_exact {A : Type} (l r : list A) : skipn (List.length l) (l ++ r) = r.
Proof. induction l as [|x l IH]; [reflexivity|exact IH]. Qed.

Lemma decimal_year_length (y : Z) :
  1000 <= y <= 9999 -> List.length (decimal y) = 4%nat.
Proof.
  intros H.
  assert (A : forallb (fun i => Nat.eqb (List.length (decimal (Z.of_nat i))) 4)
                (seq (Z.to_nat 1000) (Z.to_nat 9000)) = true)
    by (vm_compute; reflexivity).
  rewrite forallb_forall in A. specialize (A (Z.to_nat y)).
  rewrite Z2Nat.id in A by lia. apply Nat.eqb_eq, A, in_seq. lia.
Qed.

Lemma pad2_shape (n : Z) :
  1 <= n <= 31 ->
  List.length (pad2 n) = 2%nat /\ Forall (fun c => isDigit c = true) (pad2 n).
Proof.
  intros H.
  assert (A : forallb (fun i => Nat.eqb (List.length (pad2 (Z.of_nat i))) 2
                                && forallb isDigit (pad2 (Z.of_nat i)))
                (seq 1 31) = true) by (vm_compute; reflexivity).
  rewrite forallb_forall in A. specialize (A (Z.to_nat n)).
  rewrite Z2Nat.id in A by lia.
  assert (I : In (Z.to_nat n) (seq 1 31)) by (apply in_seq; lia).
  apply A in I. apply andb_true_iff in I. destruct I as [I1 I2].
  split; [apply Nat.eqb_eq; exact I1|].
  apply Forall_forall. rewrite forallb_forall in I2. exact I2.
Qed.

Lemma fmtYmd_shape (t : Z) :
  1000 <= year (utcDate t) <= 9999 ->
  List.length (fmtYmd t) = 8%nat /\
  Forall (fun c => isDigit c = true) (fmtYmd t) /\
  slice 0 4 (fmtYmd t) = decimal (year (utcDate t)) /\
  slice 4 6 (fmtYmd t) = pad2 (month (utcDate t)) /\
  slice 6 8 (fmtYmd t) = pad2 (day (utcDate t)).
Proof.
  intros Hy. destruct (utcDate_valid t) as [Hm Hd].
  pose proof (decimal_year_length _ Hy) as LY.
  destruct (pad2_shape (month (utcDate t))) as [LM DM]; [lia|].
  destruct (pad2_shape _ Hd) as [LD DD].
  unfold fmtYmd, fmtCalendar.
  set (Y := decimal (year (utcDate t))) in *.
  set (M := pad2 (month (utcDate t))) in *.
  set (D := pad2 (day (utcDate t))) in *.
  assert (S1 : slice 0 4 (Y ++ M ++ D) = Y).
  { unfold slice. cbn [skipn Nat.sub]. rewrite <- LY. apply firstn_exact. }
  assert (K4 : skipn 4 (Y ++ M ++ D) = M ++ D)
    by (rewrite <- LY; apply skipn_exact).
  assert (K6 : skipn 6 (Y ++ M ++ D) = D).
  { change 6%nat with (2 + 4)%nat. rewrite <- skipn_skipn, K4.
    rewrite <- LM. apply skipn_exact. }
  assert (S2 : slice 4 6 (Y ++ M ++ D) = M).
  { unfold slice. rewrite K4. change (6 - 4)%nat with 2%nat.
    rewrite <- LM. apply firstn_exact. }
  assert (S3 : slice 6 8 (Y ++ M ++ D) = D).
  { unfold slice. rewrite K6. change (8 - 6)%nat with 2%nat. rewrite <- LD.
    rewrite <- (app_nil_r D) at 2. apply firstn_exact. }
  split; [rewrite !length_app; lia|].
  split.
  { apply Forall_app. split; [apply decimal_digits; lia|].
    apply Forall_app. split; assumption. }
  split; [exact S1|]. split; [exact S2|exact S3].
Qed.

(** X15.  While the years have four digits, the two dates sent upstream
    are eight decimal digits each (the year, then the month and the day
    of the month on two digits), and the range label of a success
    response shows them as [YYYY-MM-DD ~ YYYY-MM-DD]. *)
Theorem window_dates_shape
  (toLowerCase : jsstring -> jsstring) (JSON_parse : jsstring -> option JsVal)
  (network : nat -> jsstring -> FetchOutcome)
  (req : Request) (env : Env) (st : Z) (p : Payload) :
  let nowKst := getNowKstDate (now env) in
  let from := utcDate (fromKst (p_kind p) nowKst) in
  let to := utcDate nowKst in
  handler toLowerCase JSON_parse network req env = mkResponse st (Success p) ->
  1000 <= year from <= 9999 ->
  1000 <= year to <= 9999 ->
  List.length (fmtYmd (fromKst (p_kind p) nowKst)) = 8%nat /\
  List.length (fmtYmd nowKst) = 8%nat /\
  Forall (fun c => isDigit c = true) (fmtYmd (fromKst (p_kind p) nowKst) ++ fmtYmd nowKst) /\
  kstRange (p_meta p)
  = decimal (year from) ++ js "-" ++ pad2 (month from) ++ js "-" ++ pad2 (day from)
    ++ js " ~ "
    ++ decimal (year to) ++ js "-" ++ pad2 (month to) ++ js "-" ++ pad2 (day to).
Proof.
  intros nowKst from to H Hfrom Hto.
  apply handler_success_inv in H.
  destruct H as (kind & pl & _ & Hprep & Hexec).
  destruct (prepare_window _ _ _ _ Hprep) as [Wf Wt].
  destruct (prepare_plan _ _ _ _ Hprep) as (Ek & _).
  apply execute_inv in Hexec.
  destruct Hexec as (first & totalCount & rest & mergedRaw & ex & _ & _ & _ & _ & _ & E).
  injection E as _ ->. cbn [p_meta p_kind kstRange] in *.
  subst kind. fold nowKst in Wf, Wt.
  destruct (fmtYmd_shape _ Hfrom) as (Lf & Df & F1 & F2 & F3).
  destruct (fmtYmd_shape _ Hto) as (Lt & Dt & T1 & T2 & T3).
  split; [exact Lf|]. split; [exact Lt|].
  split; [apply Forall_app; split; assumption|].
  unfold rangeLabel. rewrite Wf, Wt, F1, F2, F3, T1, T2, T3. reflexivity.
Qed.

Lemma window_dates_shape_witness :
  exists p,
    handler asciiLower demoParse demoNetwork
      (demoRequest (QOne (js "award")) QAbsent) demoEnv
    = mkResponse 200 (Success p) /\
    kstRange (p_meta p) = js "2024-02-24 ~ 2024-03-01".
Proof.
  assert (E : exists p,
             handler asciiLower demoParse demoNetwork
               (demoRequest (QOne (js "award")) QAbsent) demoEnv
             = mkResponse 200 (Success p) /\ p_kind p = js "award")
    by (eexists; split; vm_compute; reflexivity).
  destruct E as [p [E K]]. exists p. split; [exact E|].
  pose proof (window_dates_shape asciiLower demoParse demoNetwork
                (demoRequest (QOne (js "award")) QAbsent) demoEnv 200 p E) as W.
  cbv zeta in W. rewrite K in W.
  destruct W as (_ & _ & _ & W); [vm_compute; split; discriminate ..|].
  rewrite W. vm_compute. reflexivity.
Defined.

(** ** Requests that succeed *)

Lemma scalarRecord_plain (x : JsVal) : scalarRecord x -> plainItem x.
Proof. intros (ps & -> & H). apply plainItem_props. exact H. Qed.

Lemma unwrapSingle_scalar (l : list JsVal) :
  Forall scalarRecord l -> unwrapSingle l = l.
Proof.
  intros H. unfold unwrapSingle. destruct l as [|x [|y r]]; try reflexivity.
  destruct (truthy x); [|reflexivity].
  inversion H as [|x' r' Hx _]; subst x' r'.
  pose proof (scalarRecord_plain x Hx "item"%string) as P.
  destruct (get x "item"); try reflexivity. contradiction.
Qed.

Lemma toInt_plain (v : JsVal) (def : Z) : plainField v -> exists z, toInt v def = Ok z.
Proof.
  unfold toInt. destruct v; cbn [plainField toNumber bind]; intros H;
    try contradiction; eauto.
Qed.

Lemma mergeResponses_ok (pages : list JsVal) :
  canAssign (mergeBase pages) ["response"; "body"; "items"] = true ->
  exists m, mergeResponses pages = Ok m /\
            storedItems m = JArr (flat_map pickItems pages) [].
Proof.
  unfold mergeResponses. fold (mergeBase pages). cbn [canAssign].
  rewrite !andb_true_iff. intros (O0 & O1 & O2 & O3 & _).
  destruct (ensureObject_ok _ "response" O0) as (m1 & -> & G1 & M1). cbn [bind].
  rewrite G1.
  destruct (ensureObject_ok _ "body" O1) as (r2 & -> & G2 & R2). cbn [bind].
  rewrite G2.
  destruct (ensureObject_ok _ "items" O2) as (b2 & -> & G3 & B2). cbn [bind].
  rewrite G3.
  destruct (set_ok _ "item" (JArr (flat_map pickItems pages) []) O3)
    as (it2 & -> & G4 & _). cbn [bind].
  destruct (set_ok b2 "items" it2 B2) as (b3 & -> & G5 & _). cbn [bind].
  destruct (set_ok r2 "body" b3 R2) as (r3 & -> & G6 & _). cbn [bind].
  destruct (set_ok m1 "response" r3 M1) as (m & -> & G7 & _).
  exists m. split; [reflexivity|].
  unfold storedItems. rewrite G7, G6, G5, G4. reflexivity.
Qed.

Section Success.

Variable toLowerCase : jsstring -> jsstring.
Variable JSON_parse : jsstring -> option JsVal.
Variable network : nat -> jsstring -> FetchOutcome.

(** Every request is answered with a status in 200..299 and a text that
    parses to a usable page. *)
Hypothesis upstream_up :
  forall n u, exists st t page,
    network n u = Responded st t /\ 200 <= st <= 299 /\
    JSON_parse t = Some page /\ usablePage page.

Lemma fetch_usable (n : nat) (u : jsstring) :
  exists page, fetchJsonUpstream JSON_parse network n u = Ok page /\ usablePage page.
Proof.
  destruct (upstream_up n u) as (st & t & page & N & Hst & P & U).
  exists page. split; [|exact U].
  unfold fetchJsonUpstream, fetchTextWithTimeout. rewrite N.
  cbn [ft_ok ft_status ft_text].
  replace (200 <=? st) with true by (symmetry; apply Z.leb_le; lia).
  replace (st <=? 299) with true by (symmetry; apply Z.leb_le; lia).
  cbn [andb negb]. rewrite P. reflexivity.
Qed.

Lemma execute_total (pl : Plan) :
  exists p, execute toLowerCase JSON_parse network pl = Ok (mkResponse 200 (Success p)).
Proof.
  unfold execute.
  destruct (fetch_usable 0 (buildUrl (pl_endpoint pl) (pl_baseParams pl) (pl_pageNo pl)))
    as (first & -> & Ufirst). cbn [bind].
  destruct Ufirst as (Jfirst & Cfirst & Tfirst & Rfirst).
  unfold totalCountOf. destruct (toInt_plain _ 0 Tfirst) as [totalCount ->]. cbn [bind].
  set (pages := decidePagesToFetch totalCount (pl_rows pl) (pl_pageNo pl) (pl_maxPages pl)).
  destruct (mapM_total
              (fun i => fetchJsonUpstream JSON_parse network (i - 1)
                          (buildUrl (pl_endpoint pl) (pl_baseParams pl)
                             (pl_pageNo pl + (Z.of_nat i - 1))))
              (seq 2 (Z.to_nat (pages - 1)))) as [rest Hrest].
  { intros i _. destruct (fetch_usable (i - 1)
                            (buildUrl (pl_endpoint pl) (pl_baseParams pl)
                               (pl_pageNo pl + (Z.of_nat i - 1)))) as (pg & -> & _).
    eauto. }
  unfold fetchRest. rewrite Hrest. cbn [bind].
  assert (Rrest : Forall (fun pg => Forall scalarRecord (pickItems pg)) rest).
  { apply Forall_forall. intros pg Hpg.
    destruct (mapM_In _ _ _ _ Hrest Hpg) as (i & _ & Hi).
    destruct (fetch_usable (i - 1)
                (buildUrl (pl_endpoint pl) (pl_baseParams pl)
                   (pl_pageNo pl + (Z.of_nat i - 1)))) as (pg' & Hpg' & U).
    rewrite Hpg' in Hi. injection Hi as <-. exact (proj2 (proj2 (proj2 U))). }
  destruct (mergeResponses_ok (first :: rest)) as (m & -> & Hm).
  { rewrite mergeBase_json by exact Jfirst. exact Cfirst. }
  cbn [bind].
  assert (Hall : Forall scalarRecord (flat_map pickItems (first :: rest))).
  { cbn [flat_map]. apply Forall_app. split; [exact Rfirst|].
    clear -Rrest. induction Rrest as [|pg r Hpg _ IH]; [constructor|].
    cbn [flat_map]. apply Forall_app. split; assumption. }
  destruct (extractItems_total toLowerCase m (pl_kind pl) (pl_q pl)
              (JBool (pl_filterOn pl))) as [ex ->].
  { rewrite (pickItems_stored _ _ Hm), (unwrapSingle_scalar _ Hall).
    eapply Forall_impl; [|exact Hall]. exact scalarRecord_plain. }
  cbn [bind]. eauto.
Qed.

(** X16.  When the upstream answers every request with a status in
    200..299 and a usable page, and the configured service key is not
    empty and normalizes, any request whose method is not OPTIONS is
    answered with status 200 and the success payload, whatever its query
    parameters. *)
Theorem handler_succeeds (req : Request) (env : Env) (raw key : jsstring) :
  method req <> js "OPTIONS" ->
  DATA_GO_KR_SERVICE_KEY env = Some raw ->
  raw <> [] ->
  normalizeServiceKey (JStr raw) = Ok key ->
  exists p,
    handler toLowerCase JSON_parse network req env = mkResponse 200 (Success p).
Proof.
  intros Hm Hraw Hne Hkey. unfold handler.
  apply jsstring_eqb_neq in Hm. rewrite Hm.
  unfold handlerTry.
  destruct (normalizeKind_param toLowerCase (q_kind req)) as [kind [-> Hk]].
  cbn [bind]. unfold handleKind, prepare.
  destruct (param_coalesce_text (q_q req) []) as [qs ->]. cbn [bind].
  destruct (param_coalesce_text (q_filter req) (js "1")) as [fs ->]. cbn [bind].
  rewrite Hraw. destruct raw as [|c raw']; [contradiction|].
  rewrite Hkey. cbn [bind].
  pose proof (endpointByKind_recognized kind Hk) as Hend.
  destruct (endpointByKind kind) as [endpoint|]; [|contradiction].
  unfold clampInt.
  destruct (param_toNumber (q_numOfRows req)) as [n1 ->]. cbn [bind].
  destruct (param_toNumber (q_pageNo req)) as [n2 ->]. cbn [bind].
  destruct (param_toNumber (q_maxPages req)) as [n3 ->]. cbn [bind].
  destruct (param_orElse_text (q_bsnsDivCd req) (js "5")) as [bs ->]. cbn [bind].
  match goal with
  | |- context [execute _ _ _ ?pl] => destruct (execute_total pl) as [p ->]
  end.
  exists p. reflexivity.
Qed.

End Success.

Lemma demoPage_usable : usablePage demoPage.
Proof.
  split; [reflexivity|]. split; [reflexivity|]. split; [exact I|].
  repeat constructor;
    (eexists; split; [reflexivity|]);
    repeat constructor; cbn [snd field plainField]; try exact I;
    (eexists; vm_compute; reflexivity).
Defined.

Lemma handler_succeeds_witness :
  exists p,
    handler asciiLower demoParse demoNetwork
      (demoRequest (QMany [js "award"; js "bid"]) (QOne (js "도로"))) demoEnv
    = mkResponse 200 (Success p).
Proof.
  apply (handler_succeeds asciiLower demoParse demoNetwork) with
    (raw := js "key+/=") (key := js "key%2B%2F%3D").
  - intros n u. exists 200, (js "<page>"), demoPage.
    split; [reflexivity|]. split; [lia|]. split; [reflexivity|exact demoPage_usable].
  - vm_compute. discriminate.
  - reflexivity.
  - vm_compute. discriminate.
  - vm_compute. reflexivity.
Defined.

(** ** Numbers written in decimal are read back *)








(** ** The filter switch *)

Lemma prepare_filter (kind : jsstring) (req : Request) (env : Env) (pl : Plan) :
  prepare kind req env = Ok (inr pl) ->
  exists fs,
    toString (coalesce (param (q_filter req)) (JStr (js "1"))) = Ok fs /\
    pl_filterOn pl = negb (jsstring_eqb fs (js "0")).
Proof.
  unfold prepare. intros H.
  bind_inv H as qs Hqs. bind_inv H as fs Hfs.
  destruct (DATA_GO_KR_SERVICE_KEY env) as [[|c key]|]; try discriminate.
  bind_inv H as serviceKey Hkey.
  destruct (endpointByKind kind); [|discriminate].
  bind_inv H as rows Hrows. bind_inv H as pageNo HpageNo.
  bind_inv H as maxPages HmaxPages. bind_inv H as bsnsDivCd Hbsns.
  injection H as <-. exists fs. split; [exact Hfs|reflexivity].
Qed.

Lemma extractItems_off
  (toLowerCase : jsstring -> jsstring) (raw : JsVal) (kind q : jsstring) (ex : Extracted) :
  extractItems toLowerCase raw kind q (mkOpts (JBool false) (JNum 50)) = Ok ex ->
  matchedAfterFilter ex = totalItemsParsed ex /\
  List.length (items ex) = Nat.min 50 (totalItemsParsed ex).
Proof.
  intros H. unfold extractItems in H.
  cbn [opt_limit opt_filterEnabled] in H.
  change (toInt (JNum 50) 50) with (Ok (A := Z) 50) in H. cbn [bind] in H.
  rewrite filterM_all in H by (intros m _; apply passes_all; left; reflexivity).
  cbn [bind] in H. bind_inv H as withUrl HwithUrl. injection H as <-.
  cbn [items matchedAfterFilter totalItemsParsed].
  change (sliceTo 50 (map (mapItem kind) (pickItems raw)))
    with (firstn 50 (map (mapItem kind) (pickItems raw))) in HwithUrl.
  split; [apply length_map|].
  rewrite (mapM_length _ _ _ HwithUrl), length_firstn, length_map. reflexivity.
Qed.

(** X18.  In a success response the filter flag is off exactly when the
    text of the [filter] parameter is [0] (an absent parameter counts as
    [1]); with the flag off nothing is filtered out: the matched count is
    the parsed count and the number of items returned is the smaller of
    50 and that count. *)
Theorem filter_switch
  (toLowerCase : jsstring -> jsstring) (JSON_parse : jsstring -> option JsVal)
  (network : nat -> jsstring -> FetchOutcome)
  (req : Request) (env : Env) (st : Z) (p : Payload) :
  handler toLowerCase JSON_parse network req env = mkResponse st (Success p) ->
  exists fs,
    toString (coalesce (param (q_filter req)) (JStr (js "1"))) = Ok fs /\
    (filterEnabled (p_meta p) = false <-> fs = js "0") /\
    (fs = js "0" ->
     meta_matchedAfterFilter (p_meta p) = meta_totalItemsParsed (p_meta p) /\
     returned (p_meta p) = Nat.min 50 (meta_totalItemsParsed (p_meta p))).
Proof.
  intros H. apply handler_success_inv in H.
  destruct H as (kind & pl & _ & Hprep & Hexec).
  destruct (prepare_filter _ _ _ _ Hprep) as (fs & Hfs & Hon).
  apply execute_inv in Hexec.
  destruct Hexec as (first & totalCount & rest & mergedRaw & ex & _ & _ & _ & _ & Hex & E).
  injection E as _ ->.
  cbn [p_meta filterEnabled meta_matchedAfterFilter meta_totalItemsParsed returned].
  exists fs. split; [exact Hfs|]. split.
  - rewrite Hon. rewrite negb_false_iff. apply jsstring_eqb_eq.
  - intros ->. rewrite Hon in Hex.
    change (negb (jsstring_eqb (js "0") (js "0"))) with false in Hex.
    apply extractItems_off in Hex. exact Hex.
Qed.

Lemma filter_switch_witness :
  exists p,
    handler asciiLower demoParse demoNetwork
      (mkRequest (js "GET") QAbsent (QOne (js "없는 말")) (QOne (js "0"))
         QAbsent QAbsent QAbsent QAbsent) demoEnv
    = mkResponse 200 (Success p) /\
    filterEnabled (p_meta p) = false /\
    meta_matchedAfterFilter (p_meta p) = meta_totalItemsParsed (p_meta p) /\
    returned (p_meta p) = Nat.min 50 (meta_totalItemsParsed (p_meta p)).
Proof.
  set (req := mkRequest (js "GET") QAbsent (QOne (js "없는 말")) (QOne (js "0"))
                QAbsent QAbsent QAbsent QAbsent).
  assert (E : exists p, handler asciiLower demoParse demoNetwork req demoEnv
                        = mkResponse 200 (Success p))
    by (eexists; vm_compute; reflexivity).
  destruct E as [p E]. exists p. split; [exact E|].
  destruct (filter_switch asciiLower demoParse demoNetwork req demoEnv 200 p E)
    as (fs & Hfs & Hiff & Hoff).
  injection Hfs as <-.
  split; [apply Hiff; reflexivity|]. apply Hoff. reflexivity.
Defined.

(** ** Paging of a success response *)

Lemma prepare_paging (kind : jsstring) (req : Request) (env : Env) (pl : Plan) :
  prepare kind req env = Ok (inr pl) ->
  clampInt (param (q_numOfRows req)) 100 1 1000 = Ok (pl_rows pl) /\
  clampInt (param (q_pageNo req)) 1 1 9999 = Ok (pl_pageNo pl) /\
  clampInt (param (q_maxPages req)) 3 1 10 = Ok (pl_maxPages pl).
Proof.
  unfold prepare. intros H.
  bind_inv H as qs Hqs. bind_inv H as fs Hfs.
  destruct (DATA_GO_KR_SERVICE_KEY env) as [[|c key]|]; try discriminate.
  bind_inv H as serviceKey Hkey.
  destruct (endpointByKind kind); [|discriminate].
  bind_inv H as rows Hrows. bind_inv H as pageNo HpageNo.
  bind_inv H as maxPages HmaxPages. bind_inv H as bsnsDivCd Hbsns.
  injection H as <-. cbn [pl_rows pl_pageNo pl_maxPages]. auto.
Qed.

(** X19.  In a success response the echoed [numOfRows] and [pageNoStart]
    are the clamped request values, and [pagesFetched] is the paging rule
    applied to them, to the reported [totalCountFromApi] and to the
    clamped [maxPages].  When the upstream reports a positive total, the
    pages fetched never go past the last page of the data, unless the
    start page itself lies beyond it (then that one page is fetched);
    and either [maxPages] pages are fetched or the fetch ends exactly on
    the last page. *)
Theorem success_paging
  (toLowerCase : jsstring -> jsstring) (JSON_parse : jsstring -> option JsVal)
  (network : nat -> jsstring -> FetchOutcome)
  (req : Request) (env : Env) (st : Z) (p : Payload) :
  handler toLowerCase JSON_parse network req env = mkResponse st (Success p) ->
  let m := p_meta p in
  exists maxP,
    clampInt (param (q_numOfRows req)) 100 1 1000 = Ok (numOfRows m) /\
    clampInt (param (q_pageNo req)) 1 1 9999 = Ok (pageNoStart m) /\
    clampInt (param (q_maxPages req)) 3 1 10 = Ok maxP /\
    pagesFetched m
    = decidePagesToFetch (totalCountFromApi m) (numOfRows m) (pageNoStart m) maxP /\
    (0 < totalCountFromApi m ->
     let lastPage := ceilDiv (totalCountFromApi m) (numOfRows m) in
     pageNoStart m + pagesFetched m - 1 <= Z.max (pageNoStart m) lastPage /\
     (pageNoStart m <= lastPage ->
      pagesFetched m = maxP \/ pageNoStart m + pagesFetched m - 1 = lastPage)).
Proof.
  intros H m. apply handler_success_inv in H.
  destruct H as (kind & pl & _ & Hprep & Hexec).
  destruct (prepare_paging _ _ _ _ Hprep) as (Hrows & Hpage & Hmax).
  destruct (prepare_plan _ _ _ _ Hprep) as (_ & _ & Brows & Bpage & Bmax & _).
  apply execute_inv in Hexec.
  destruct Hexec as (first & totalCount & rest & mergedRaw & ex & _ & _ & _ & _ & _ & E).
  injection E as _ E. subst p. subst m.
  cbn [p_meta numOfRows pageNoStart pagesFetched totalCountFromApi].
  exists (pl_maxPages pl).
  split; [exact Hrows|]. split; [exact Hpage|]. split; [exact Hmax|].
  split; [reflexivity|].
  intros Hpos. unfold decidePagesToFetch.
  replace (totalCount =? 0) with false by (symmetry; apply Z.eqb_neq; lia).
  replace (totalCount <=? 0) with false by (symmetry; apply Z.leb_gt; lia).
  replace (pl_rows pl =? 0) with false by (symmetry; apply Z.eqb_neq; lia).
  cbn [orb]. set (lastPage := ceilDiv totalCount (pl_rows pl)). lia.
Qed.

Lemma success_paging_witness :
  exists p,
    handler asciiLower demoParse demoNetwork
      (mkRequest (js "GET") QAbsent QAbsent QAbsent (QOne (js "2"))
         QAbsent (QOne (js "9")) QAbsent) demoEnv
    = mkResponse 200 (Success p) /\
    totalCountFromApi (p_meta p) = 3 /\
    numOfRows (p_meta p) = 2 /\
    pagesFetched (p_meta p) = 2.
Proof.
  set (req := mkRequest (js "GET") QAbsent QAbsent QAbsent (QOne (js "2"))
                QAbsent (QOne (js "9")) QAbsent).
  assert (E : exists p, handler asciiLower demoParse demoNetwork req demoEnv
                        = mkResponse 200 (Success p) /\
                        totalCountFromApi (p_meta p) = 3)
    by (eexists; split; vm_compute; reflexivity).
  destruct E as [p [E T]]. exists p. split; [exact E|]. split; [exact T|].
  destruct (success_paging asciiLower demoParse demoNetwork req demoEnv 200 p E)
    as (maxP & Hrows & Hpage & Hmax & Hpages & _).
  assert (R : numOfRows (p_meta p) = 2).
  { assert (C : clampInt (param (q_numOfRows req)) 100 1 1000 = Ok 2)
      by (vm_compute; reflexivity).
    rewrite C in Hrows. injection Hrows as <-. reflexivity. }
  assert (M : maxP = 9).
  { assert (C : clampInt (param (q_maxPages req)) 3 1 10 = Ok 9)
      by (vm_compute; reflexivity).
    rewrite C in Hmax. injection Hmax as <-. reflexivity. }
  split; [exact R|].
  assert (P : pageNoStart (p_meta p) = 1).
  { assert (C : clampInt (param (q_pageNo req)) 1 1 9999 = Ok 1)
      by (vm_compute; reflexivity).
    rewrite C in Hpage. injection Hpage as <-. reflexivity. }
  rewrite Hpages, T, R, M, P. vm_compute. reflexivity.
Defined.

(** ** Amounts lose their sign *)

Lemma decimal_neg (p : positive) : decimal (Z.neg p) = 45%N :: decimal (Z.pos p).
Proof. rewrite !decimal_ascii. reflexivity. Qed.

Lemma decimal_not_space (z : Z) :
  Forall (fun c => isWhiteSpace c = false) (decimal z).
Proof.
  eapply Forall_impl; [|apply decimal_chars].
  intros c [Hc| ->]; [|reflexivity].
  apply numericChar_not_space. unfold numericChar. rewrite Hc. reflexivity.
Qed.

(** X20.  The formatter drops the sign of a number: a negative amount
    (of magnitude below 10^21, where numbers are written in plain
    decimal) is rendered exactly as its absolute value. *)
Theorem prettifyAmount_drops_sign (z : Z) :
  Z.abs z < 10 ^ 21 ->
  prettifyAmount (JNum (- z)) = prettifyAmount (JNum z) /\
  prettifyAmount (JNum z) = prettifyAmount (JNum (Z.abs z)).
Proof.
  intros _.
  assert (N : forall p, prettifyAmount (JNum (Z.neg p)) = prettifyAmount (JNum (Z.pos p))).
  { intros p. unfold prettifyAmount. cbn [coalesce toString bind].
    rewrite !trim_id by apply decimal_not_space.
    rewrite decimal_neg.
    change (stripNonNumeric (45%N :: decimal (Z.pos p)))
      with (stripNonNumeric (decimal (Z.pos p))).
    destruct (decimal (Z.pos p)) as [|c r] eqn:E; [|reflexivity].
    reflexivity. }
  destruct z as [|p|p]; cbn [Z.opp Z.abs]; split; try reflexivity;
    first [apply N | symmetry; apply N].
Qed.

Lemma prettifyAmount_drops_sign_witness :
  prettifyAmount (JNum (- 1234000)) = Ok (js "1,234,000").
Proof.
  transitivity (prettifyAmount (JNum 1234000)).
  - exact (proj1 (prettifyAmount_drops_sign 1234000 eq_refl)).
  - vm_compute. reflexivity.
Defined.
